(** * IDS.py: synthetic event-log generator and baseline summariser

    A shallow embedding of [IDS.py] and the properties of its
    specification.  The program keeps two module-level dictionaries
    ([events], [statistics]), samples one value per event and day from a
    clamped normal distribution, writes one JSON document per day under
    [logs/], and finally re-reads these documents to recompute a total, a
    mean and a population standard deviation per event.

    Conventions of the embedding:
    - Python [int] is [Z]; Python [float] is an IEEE-754 binary64 value,
      represented by [spec_float] with the reference operations of
      [SpecFloat] at precision 53 and maximal exponent 1024;
    - Python [str] is a [string] that holds the bytes of its UTF-8
      encoding, on which splitting at [":"], prefixes, suffixes and the
      order of [str] are those of the code points;
    - Python [dict] is an insertion-ordered association list with unique
      string keys;
    - the module globals, the [logs/] directory with the failures of its
      storage, the standard output and the state of the random generator
      form one [World] that is threaded through a state-and-exception
      monad;
    - the built-in conversions [float(str)] and [int(str)], the generator
      [random.gauss] and the function [pow] of the C library, which
      [float ** 2] calls, are parameters of the development, and so are,
      for [main], the rendering [json.dumps] and the input files. *)

From Stdlib Require Import ZArith List Bool Ascii String Lia FinFun.
From Stdlib Require Import Sorted Permutation.
From Stdlib Require Import SpecFloat DecimalString.
From Stdlib Require Decimal DecimalFacts DecimalZ.
Import ListNotations.

Set Implicit Arguments.

Local Open Scope string_scope.
Local Open Scope Z_scope.

(** ** Python strings *)

Module PyStr.

Definition byte (c : ascii) : Z := Z.of_nat (nat_of_ascii c).

(** The characters for which [str.isspace] holds, by the length of their
    encoding: U+0009 to U+000D and U+001C to U+0020 in one byte; *)
Definition is_space (c : ascii) : bool :=
  let n := byte c in
  ((9 <=? n) && (n <=? 13)) || ((28 <=? n) && (n <=? 32)).

(** U+0085 and U+00A0 in two bytes; *)
Definition is_space2 (c1 c2 : ascii) : bool :=
  (byte c1 =? 194) && ((byte c2 =? 133) || (byte c2 =? 160)).

(** U+1680, U+2000 to U+200A, U+2028, U+2029, U+202F, U+205F and U+3000
    in three bytes. *)
Definition is_space3 (c1 c2 c3 : ascii) : bool :=
  let a := byte c1 in
  let b := byte c2 in
  let c := byte c3 in
  ((a =? 225) && (b =? 154) && (c =? 128))
  || ((a =? 226) && (b =? 128)
      && (((128 <=? c) && (c <=? 138)) || (c =? 168) || (c =? 169) || (c =? 175)))
  || ((a =? 226) && (b =? 129) && (c =? 159))
  || ((a =? 227) && (b =? 128) && (c =? 128)).

(** [s.lstrip()]: [s] without the white-space characters it starts with. *)
Fixpoint lstrip (s : string) : string :=
  match s with
  | EmptyString => EmptyString
  | String c1 s1 =>
      if is_space c1 then lstrip s1
      else
        match s1 with
        | EmptyString => s
        | String c2 s2 =>
            if is_space2 c1 c2 then lstrip s2
            else
              match s2 with
              | EmptyString => s
              | String c3 s3 => if is_space3 c1 c2 c3 then lstrip s3 else s
              end
        end
  end.

(** A string of white-space characters only. *)
Definition all_space (s : string) : bool :=
  match lstrip s with
  | EmptyString => true
  | _ => false
  end.

(** [s.rstrip()]: [s] up to the white-space characters it ends with. *)
Fixpoint rstrip (s : string) : string :=
  match s with
  | EmptyString => EmptyString
  | String c s' => if all_space s then EmptyString else String c (rstrip s')
  end.

(** [s.strip()] *)
Definition strip (s : string) : string := lstrip (rstrip s).

(** [s.split(sep)] for a one-character separator: always at least one
    field, one more field than there are separators. *)
Fixpoint split (sep : ascii) (s : string) : list string :=
  match s with
  | EmptyString => [EmptyString]
  | String c s' =>
      if Ascii.eqb c sep then EmptyString :: split sep s'
      else match split sep s' with
           | h :: t => String c h :: t
           | [] => [String c EmptyString]
           end
  end.

Fixpoint rev_onto (s acc : string) : string :=
  match s with
  | EmptyString => acc
  | String c s' => rev_onto s' (String c acc)
  end.

Definition rev (s : string) : string := rev_onto s EmptyString.

Definition startswith (p s : string) : bool := String.prefix p s.

Definition endswith (p s : string) : bool := String.prefix (rev p) (rev s).

(** [str(n)] for an [int]. *)
Definition of_int (z : Z) : string := NilZero.string_of_int (Z.to_int z).

End PyStr.

(** ** Python dictionaries

    Insertion-ordered; assigning to an existing key keeps its position. *)

Definition dict (V : Type) : Type := list (string * V).

Fixpoint dict_get {V : Type} (k : string) (d : dict V) : option V :=
  match d with
  | [] => None
  | (k', v) :: d' => if String.eqb k k' then Some v else dict_get k d'
  end.

Definition dict_mem {V : Type} (k : string) (d : dict V) : bool :=
  match dict_get k d with Some _ => true | None => false end.

(** [d[k] = v] *)
Fixpoint dict_set {V : Type} (k : string) (v : V) (d : dict V) : dict V :=
  match d with
  | [] => [(k, v)]
  | (k', v') :: d' =>
      if String.eqb k k' then (k, v) :: d' else (k', v') :: dict_set k v d'
  end.

Definition dict_keys {V : Type} (d : dict V) : list string := map fst d.

(** ** Exceptions *)

Inductive exn : Type :=
| IndexError
| ValueError
| OverflowError
| TypeError
| AttributeError
| FileNotFoundError
| NotADirectoryError
| IsADirectoryError
| PermissionError
| OSError.

Inductive result (A : Type) : Type :=
| Ok (a : A)
| Raise (e : exn).

Arguments Ok {A} a.
Arguments Raise {A} e.

Definition rbind {A B : Type} (r : result A) (k : A -> result B) : result B :=
  match r with
  | Ok a => k a
  | Raise e => Raise e
  end.

(** ** Binary64 floats *)

Definition float : Type := spec_float.

Module F.

Definition prec : Z := 53.
Definition emax : Z := 1024.

Definition inf : float := S754_infinity false.
Definition nan : float := S754_nan.

Definition add : float -> float -> float := SFadd prec emax.
Definition sub : float -> float -> float := SFsub prec emax.
Definition mul : float -> float -> float := SFmul prec emax.
Definition div : float -> float -> float := SFdiv prec emax.
Definition sqrt : float -> float := SFsqrt prec emax.
Definition valid : float -> bool := valid_binary prec emax.

Definition is_finite (x : float) : bool :=
  match x with
  | S754_zero _ | S754_finite _ _ _ => true
  | S754_infinity _ | S754_nan => false
  end.

(** Nearest integer to [n / d], ties to the even integer ([d > 0]). *)
Definition div_half_even (n d : Z) : Z :=
  let q := n / d in
  let r := n mod d in
  match (2 * r ?= d) with
  | Lt => q
  | Gt => q + 1
  | Eq => if Z.even q then q else q + 1
  end.

(** The least exponent of a binary64 value. *)
Definition emin : Z := 3 - emax - prec.

(** The binary order of magnitude of [n / d] for [n, d > 0]: the [k] with
    [2^(k-1) <= n / d < 2^k]. *)
Definition mag (n d : Z) : Z :=
  if d <=? n then Z.log2 (n / d) + 1 else - Z.log2 ((d - 1) / n).

(** The exponent of the binary64 values of the binade of [n / d], and
    the mantissa of the nearest of them: the integer nearest to
    [n / (d * 2^e)], which can be [2^prec]. *)
Definition quotient_exponent (n d : Z) : Z := Z.max (mag n d - prec) emin.

Definition quotient_mantissa (n d : Z) : Z :=
  let e := quotient_exponent n d in
  div_half_even (n * 2 ^ Z.max 0 (- e)) (d * 2 ^ Z.max 0 e).

(** The same value with a mantissa below [2^prec]: a mantissa that was
    rounded up to [2^prec] is the first value of the next binade. *)
Definition rounded_mantissa (n d : Z) : Z :=
  let m := quotient_mantissa n d in
  if m =? 2 ^ prec then 2 ^ (prec - 1) else m.

Definition rounded_exponent (n d : Z) : Z :=
  let e := quotient_exponent n d in
  if quotient_mantissa n d =? 2 ^ prec then e + 1 else e.

(** The binary64 value nearest to [n / d] (ties to even), for integers
    [n >= 0] and [d > 0], with sign [s]: a zero when the quotient rounds
    to no mantissa, an infinity when it is beyond the largest value. *)
Definition div_round (s : bool) (n d : Z) : float :=
  if n <=? 0 then S754_zero s
  else
    let m := rounded_mantissa n d in
    let e := rounded_exponent n d in
    if m =? 0 then S754_zero s
    else if e <=? emax - prec then S754_finite s (Z.to_pos m) e
    else S754_infinity s.

(** [x <= y] on floats. *)
Definition le (x y : float) : bool :=
  match SFcompare x y with
  | Some (Lt | Eq) => true
  | _ => false
  end.

(** The same quotient through the division and the rounding of
    [SpecFloat]. *)
Definition div_round_ref (s : bool) (n d : Z) : float :=
  match n with
  | Z0 => S754_zero s
  | _ =>
      let '(mz, ez, lz) := SFdiv_core_binary prec emax n 0 d 0 in
      binary_round_aux prec emax s mz ez lz
  end.

(** The binary64 value nearest to the integer [z]. *)
Definition of_Z (z : Z) : float := binary_normalize prec emax z 0 false.

(** The binary64 value nearest to [n / 10^k]: the value of a decimal
    literal with [k] digits after the point. *)
Definition of_dec (n : Z) (k : nat) : float :=
  div_round (n <? 0) (Z.abs n) (10 ^ Z.of_nat k).

(** The integer part of a finite float, rounded toward zero. *)
Definition trunc (x : float) : option Z :=
  match x with
  | S754_zero _ => Some 0
  | S754_finite s m e => Some (cond_Zopp s (Z.shiftl (Zpos m) e))
  | S754_infinity _ | S754_nan => None
  end.

(** The largest integer not above a finite float. *)
Definition floor (x : float) : option Z :=
  match x with
  | S754_zero _ => Some 0
  | S754_finite s m e => Some (Z.shiftl (cond_Zopp s (Zpos m)) e)
  | S754_infinity _ | S754_nan => None
  end.

(** [round(x, 2)] on a float: the decimal expansion of [x] correctly
    rounded to two places (ties to even, decided on the exact binary
    value), converted back to the nearest float.  Non-finite values and
    integral values are returned unchanged. *)
Definition round2 (x : float) : float :=
  match x with
  | S754_finite s m e =>
      if 0 <=? e then x
      else div_round s (div_half_even (100 * Zpos m) (2 ^ (- e))) 100
  | _ => x
  end.

End F.


(** ** Python numbers

    The values the program computes with are [int]s and [float]s. *)

Inductive pynum : Type :=
| PyInt (z : Z)
| PyFloat (x : float).

(** Comparison of an [int] with a [float]: exact, on the mathematical
    values, without converting the integer. *)
Definition Zfcompare (z : Z) (x : float) : option comparison :=
  match x with
  | S754_nan => None
  | S754_infinity s => Some (if s then Gt else Lt)
  | S754_zero _ => Some (z ?= 0)
  | S754_finite s m e =>
      Some (if 0 <=? e
            then z ?= cond_Zopp s (Zpos m) * 2 ^ e
            else z * 2 ^ (- e) ?= cond_Zopp s (Zpos m))
  end.

Definition py_compare (a b : pynum) : option comparison :=
  match a, b with
  | PyInt x, PyInt y => Some (x ?= y)
  | PyFloat x, PyFloat y => SFcompare x y
  | PyInt x, PyFloat y => Zfcompare x y
  | PyFloat x, PyInt y => option_map CompOpp (Zfcompare y x)
  end.

(** [a < b], [a > b], [a <= b] *)
Definition py_lt (a b : pynum) : bool :=
  match py_compare a b with Some Lt => true | _ => false end.

Definition py_gt (a b : pynum) : bool :=
  match py_compare a b with Some Gt => true | _ => false end.

Definition py_le (a b : pynum) : bool :=
  match py_compare a b with Some (Lt | Eq) => true | _ => false end.

(** [max(a, b)] keeps its first argument unless the second is greater;
    [min(a, b)] keeps its first argument unless the second is smaller. *)
Definition py_max (a b : pynum) : pynum := if py_gt b a then b else a.
Definition py_min (a b : pynum) : pynum := if py_lt b a then b else a.

(** [float(n)] of an [int]. *)
Definition float_of_int (z : Z) : result float :=
  match F.of_Z z with
  | S754_infinity _ => Raise OverflowError
  | x => Ok x
  end.

(** [int(v)] of a number. *)
Definition py_int (v : pynum) : result Z :=
  match v with
  | PyInt z => Ok z
  | PyFloat x =>
      match F.trunc x with
      | Some z => Ok z
      | None => Raise (match x with S754_nan => ValueError | _ => OverflowError end)
      end
  end.

(** [round(v, 2)] *)
Definition py_round2 (v : pynum) : pynum :=
  match v with
  | PyInt z => PyInt z
  | PyFloat x => PyFloat (F.round2 x)
  end.

(** [a + b] and [a - b] *)
Definition py_add (a b : pynum) : result pynum :=
  match a, b with
  | PyInt x, PyInt y => Ok (PyInt (x + y))
  | PyInt x, PyFloat y => rbind (float_of_int x) (fun fx => Ok (PyFloat (F.add fx y)))
  | PyFloat x, PyInt y => rbind (float_of_int y) (fun fy => Ok (PyFloat (F.add x fy)))
  | PyFloat x, PyFloat y => Ok (PyFloat (F.add x y))
  end.

Definition py_sub (a b : pynum) : result pynum :=
  match a, b with
  | PyInt x, PyInt y => Ok (PyInt (x - y))
  | PyInt x, PyFloat y => rbind (float_of_int x) (fun fx => Ok (PyFloat (F.sub fx y)))
  | PyFloat x, PyInt y => rbind (float_of_int y) (fun fy => Ok (PyFloat (F.sub x fy)))
  | PyFloat x, PyFloat y => Ok (PyFloat (F.sub x y))
  end.

(** [a / n] for a positive [int] [n] (here always a [len]): the true
    quotient of two [int]s correctly rounded, a float division
    otherwise. *)
Definition py_truediv (a : pynum) (n : Z) : result float :=
  match a with
  | PyInt x =>
      match F.div_round (x <? 0) (Z.abs x) n with
      | S754_infinity _ => Raise OverflowError
      | q => Ok q
      end
  | PyFloat x => rbind (float_of_int n) (fun fn => Ok (F.div x fn))
  end.

(** [math.sqrt(x)] *)
Definition math_sqrt (x : float) : result float :=
  match x with
  | S754_infinity true | S754_finite true _ _ => Raise ValueError
  | _ => Ok (F.sqrt x)
  end.

(** A NaN, the only number that compares with nothing. *)
Definition py_is_nan (a : pynum) : bool :=
  match a with
  | PyFloat S754_nan => true
  | _ => false
  end.

(** ** Lists *)

Definition slice_index (n i : Z) : Z :=
  if i <? 0 then Z.max 0 (i + n) else Z.min i n.

(** [l[start:stop]] *)
Definition py_slice {X : Type} (l : list X) (start stop : Z) : list X :=
  let n := Z.of_nat (List.length l) in
  let a := slice_index n start in
  let b := slice_index n stop in
  firstn (Z.to_nat (b - a)) (skipn (Z.to_nat a) l).

(** [range(n)] *)
Definition py_range (n : Z) : list Z := map Z.of_nat (seq 0 (Z.to_nat n)).

Fixpoint insert_sorted (x : string) (l : list string) : list string :=
  match l with
  | [] => [x]
  | y :: l' => if String.leb x y then x :: l else y :: insert_sorted x l'
  end.

(** [l.sort()] on a list of [str]: ascending in the order of [str],
    which compares code point by code point. *)
Definition py_sort (l : list string) : list string :=
  fold_right insert_sorted [] l.

(** [a <= b] on [str]. *)
Definition str_le (a b : string) : Prop := String.leb a b = true.

(** ** Data model *)

(** An entry of [events]: the keys ["type"], ["min"], ["max"] and
    ["weight"].  ["min"] holds the [int] [0] when the field is empty and
    a [float] otherwise; ["max"] always holds a [float]. *)
Record EventInfo : Type := {
  e_type : string;
  e_min : pynum;
  e_max : float;
  e_weight : Z
}.

(** An entry of [statistics]: the keys ["mean"] and ["std_dev"]. *)
Record StatInfo : Type := {
  s_mean : float;
  s_std_dev : float
}.

(** An entry of [baseline_statistics]. *)
Record Baseline : Type := {
  b_total : pynum;
  b_mean : float;
  b_std_dev : float
}.

(** A value of a JSON object as [json.load] returns it: a number (the
    booleans are the [int]s 0 and 1 in every operation that follows), or
    anything else (a string, [null], an array, an object).  [json.dump]
    followed by [json.load] gives back every [int] and [float]. *)
Inductive jval : Type :=
| JNum (v : pynum)
| JOther.

(** The content of a file of [logs/], which is taken to be a regular
    file that can be opened and decoded as text: text that is not a JSON
    document (with the message of the [JSONDecodeError] that [json.load]
    raises on it), a JSON document that is not an object, or a JSON
    object. *)
Inductive FileData : Type :=
| Corrupt (msg : string)
| NonObject
| Object (items : dict jval).

(** How the writing of a file of [logs/] fails: the exception that
    [open(path, "w")] or [json.dump] raises, an [OSError] such as
    [NotADirectoryError] or [PermissionError], and what the file holds
    afterwards ([None] when it is left as it was). *)
Record WriteFailure : Type := {
  wf_error : exn;
  wf_left : option FileData
}.

Definition LOG_DIR : string := "logs".

(** The name, inside [LOG_DIR], of the log of the iteration [day] of
    [range(days)]. *)
Definition log_file (day : Z) : string :=
  "day_" ++ PyStr.of_int (day + 1) ++ ".log".

Definition is_log_file (f : string) : bool :=
  PyStr.startswith "day_" f && PyStr.endswith ".log" f.

(** [log_files] after [log_files.sort()], from the listing of [LOG_DIR]. *)
Definition sorted_log_files (listing : list string) : list string :=
  py_sort (filter is_log_file listing).

(** [{name: [] for name in events.keys()}] *)
Definition empty_totals (names : list string) : dict (list jval) :=
  map (fun name => (name, @nil jval)) names.

(** ** The program *)

Section Program.

(** [float(s)] and [int(s)] on a [str]; [None] stands for the
    [ValueError] of a string that is not a numeric literal. *)
Variable float_of_str : string -> option float.
Variable int_of_str : string -> option Z.

(** The state of the module [random], and [random.gauss(mu, sigma)],
    which returns a draw and advances the state. *)
Variable Rng : Type.
Variable gauss : Rng -> float -> float -> float * Rng.

(** [pow(x, 2.0)] of the C library on a positive finite [x], which is
    what [x ** 2] returns on a [float]; the library does not promise the
    correctly rounded square. *)
Variable pow2 : float -> float.

(** The module globals [events] and [statistics], the directory
    [LOG_DIR] ([None] while it does not exist), the lines printed so far,
    the random state, and the storage: for the name of a file of
    [LOG_DIR], how writing it fails, if it does. *)
Record World : Type := {
  events : dict EventInfo;
  statistics : dict StatInfo;
  log_dir : option (dict FileData);
  stdout : list string;
  rng : Rng;
  write_failure : string -> option WriteFailure
}.

Definition with_events (d : dict EventInfo) (w : World) : World :=
  {| events := d; statistics := statistics w; log_dir := log_dir w;
     stdout := stdout w; rng := rng w; write_failure := write_failure w |}.

Definition with_statistics (d : dict StatInfo) (w : World) : World :=
  {| events := events w; statistics := d; log_dir := log_dir w;
     stdout := stdout w; rng := rng w; write_failure := write_failure w |}.

Definition with_log_dir (d : option (dict FileData)) (w : World) : World :=
  {| events := events w; statistics := statistics w; log_dir := d;
     stdout := stdout w; rng := rng w; write_failure := write_failure w |}.

Definition with_stdout (l : list string) (w : World) : World :=
  {| events := events w; statistics := statistics w; log_dir := log_dir w;
     stdout := l; rng := rng w; write_failure := write_failure w |}.

Definition with_rng (r : Rng) (w : World) : World :=
  {| events := events w; statistics := statistics w; log_dir := log_dir w;
     stdout := stdout w; rng := r; write_failure := write_failure w |}.

Definition with_write_failure (f : string -> option WriteFailure) (w : World) : World :=
  {| events := events w; statistics := statistics w; log_dir := log_dir w;
     stdout := stdout w; rng := rng w; write_failure := f |}.

(** Computations that read and change the world and may raise; what was
    changed before an exception stays changed. *)
Definition M (A : Type) : Type := World -> result A * World.

Definition ret {A : Type} (a : A) : M A := fun w => (Ok a, w).

Definition bind {A B : Type} (m : M A) (k : A -> M B) : M B :=
  fun w =>
    match m w with
    | (Ok a, w') => k a w'
    | (Raise e, w') => (Raise e, w')
    end.

Definition lift {A : Type} (r : result A) : M A := fun w => (r, w).

Definition get : M World := fun w => (Ok w, w).

Definition modify (f : World -> World) : M unit := fun w => (Ok tt, f w).

Notation "x <- m ;; k" := (bind m (fun x => k))
  (at level 100, m at next level, right associativity).
Notation "m ;;; k" := (bind m (fun _ => k))
  (at level 100, right associativity).

(** [for x in l: body] *)
Fixpoint for_each {X : Type} (l : list X) (body : X -> M unit) : M unit :=
  match l with
  | [] => ret tt
  | x :: l' => body x ;;; for_each l' body
  end.

(** [for x in l: acc = body(acc, x)], for a loop that updates a local. *)
Fixpoint fold_each {X S : Type} (l : list X) (acc : S) (body : S -> X -> M S) : M S :=
  match l with
  | [] => ret acc
  | x :: l' => acc' <- body acc x ;; fold_each l' acc' body
  end.

Definition print (s : string) : M unit :=
  modify (fun w => with_stdout (stdout w ++ [s])%list w).

Definition py_float (s : string) : M float :=
  lift (match float_of_str s with Some x => Ok x | None => Raise ValueError end).

Definition py_int_str (s : string) : M Z :=
  lift (match int_of_str s with Some z => Ok z | None => Raise ValueError end).

(** *** [read_events]

    [lines] is the list that [file.readlines()] returned. *)

Definition read_events_line (line : string) : M unit :=
  match PyStr.split ":" (PyStr.strip line) with
  | [name; event_type; min_val; max_val; weight] =>
      min_v <- (match min_val with
                | EmptyString => ret (PyInt 0)
                | _ => x <- py_float min_val ;; ret (PyFloat x)
                end) ;;
      max_v <- (match max_val with
                | EmptyString => ret F.inf
                | _ => py_float max_val
                end) ;;
      weight_v <- py_int_str weight ;;
      modify (fun w =>
        with_events
          (dict_set name
             {| e_type := event_type; e_min := min_v; e_max := max_v;
                e_weight := weight_v |}
             (events w)) w)
  | _ => print ("Skipping invalid line in Events.txt: " ++ PyStr.strip line)
  end.

Definition read_events (lines : list string) : M unit :=
  first <- lift (match lines with
                 | [] => Raise IndexError
                 | l0 :: _ => Ok l0
                 end) ;;
  num_events <- py_int_str (PyStr.strip first) ;;
  for_each (py_slice lines 1 (num_events + 1)) read_events_line.

(** *** [read_statistics] *)

Definition read_statistics_line (line : string) : M unit :=
  match PyStr.split ":" (PyStr.strip line) with
  | [name; mean; std_dev; _] =>
      mean_v <- py_float mean ;;
      std_dev_v <- py_float std_dev ;;
      modify (fun w =>
        with_statistics
          (dict_set name {| s_mean := mean_v; s_std_dev := std_dev_v |}
             (statistics w)) w)
  | _ => print ("Skipping invalid line in Stats.txt: " ++ PyStr.strip line)
  end.

Definition read_statistics (lines : list string) : M unit :=
  first <- lift (match lines with
                 | [] => Raise IndexError
                 | l0 :: _ => Ok l0
                 end) ;;
  num_stats <- py_int_str (PyStr.strip first) ;;
  for_each (py_slice lines 1 (num_stats + 1)) read_statistics_line.

(** *** [generate_events] *)

Definition random_gauss (mu sigma : float) : M float :=
  fun w => let '(g, r) := gauss (rng w) mu sigma in (Ok g, with_rng r w).

(** The value stored for one event: the two branches of the
    [if event_info["type"] == "C"]. *)
Definition sample_value (event_info : EventInfo) (mean std_dev : float) : M pynum :=
  if String.eqb (e_type event_info) "C" then
    g <- random_gauss mean std_dev ;;
    let value :=
      py_max (e_min event_info) (py_min (PyFloat g) (PyFloat (e_max event_info))) in
    ret (py_round2 value)
  else
    lo <- lift (py_int (e_min event_info)) ;;
    g <- random_gauss mean std_dev ;;
    gi <- lift (py_int (PyFloat g)) ;;
    hi <- lift (py_int (PyFloat (e_max event_info))) ;;
    ret (py_max (PyInt lo) (py_min (PyInt gi) (PyInt hi))).

(** The body of the loop over [events.items()]. *)
Definition sample_event (daily_events : dict pynum) (item : string * EventInfo)
  : M (dict pynum) :=
  w <- get ;;
  match dict_get (fst item) (statistics w) with
  | Some st =>
      value <- sample_value (snd item) (s_mean st) (s_std_dev st) ;;
      ret (dict_set (fst item) value daily_events)
  | None => ret daily_events
  end.

(** One day: the record starts as [{"Day": day + 1}]. *)
Definition sample_day (day : Z) : M (dict pynum) :=
  w <- get ;;
  fold_each (events w) [("Day", PyInt (day + 1))] sample_event.

(** [if not os.path.exists(LOG_DIR): os.makedirs(LOG_DIR)]; creating the
    directory in the working directory is taken to succeed. *)
Definition ensure_log_dir : M unit :=
  modify (fun w =>
    match log_dir w with
    | None => with_log_dir (Some []) w
    | Some _ => w
    end).

(** The document written for a record. *)
Definition json_of (daily_events : dict pynum) : FileData :=
  Object (map (fun kv => (fst kv, JNum (snd kv))) daily_events).

(** [json.dump(daily_events, file)] on a file opened with ["w"]: the
    file holds the document, unless the storage fails on it. *)
Definition json_dump (name : string) (daily_events : dict pynum) : M unit :=
  fun w =>
    match log_dir w with
    | Some d =>
        match write_failure w name with
        | None =>
            (Ok tt, with_log_dir (Some (dict_set name (json_of daily_events) d)) w)
        | Some f =>
            (Raise (wf_error f),
             match wf_left f with
             | Some data => with_log_dir (Some (dict_set name data d)) w
             | None => w
             end)
        end
    | None => (Raise FileNotFoundError, w)
    end.

(** The body of the loop over [range(days)]. *)
Definition generate_day (all_events : list (dict pynum)) (day : Z)
  : M (list (dict pynum)) :=
  daily_events <- sample_day day ;;
  json_dump (log_file day) daily_events ;;;
  ret (all_events ++ [daily_events])%list.

Definition generate_events (days : Z) : M (list (dict pynum)) :=
  ensure_log_dir ;;;
  fold_each (py_range days) [] generate_day.

(** *** [analyze_stats] *)

(** [os.listdir(LOG_DIR)] *)
Definition listdir : M (list string) :=
  fun w =>
    match log_dir w with
    | Some d => (Ok (dict_keys d), w)
    | None => (Raise FileNotFoundError, w)
    end.

(** [json.load] of a file of [LOG_DIR], before any exception handler. *)
Definition read_log (name : string) : M FileData :=
  fun w =>
    match log_dir w with
    | Some d =>
        match dict_get name d with
        | Some data => (Ok data, w)
        | None => (Raise FileNotFoundError, w)
        end
    | None => (Raise FileNotFoundError, w)
    end.

(** [if event_name in daily_totals: daily_totals[event_name].append(value)] *)
Definition append_value (daily_totals : dict (list jval)) (item : string * jval)
  : dict (list jval) :=
  match dict_get (fst item) daily_totals with
  | Some values => dict_set (fst item) (values ++ [snd item])%list daily_totals
  | None => daily_totals
  end.

(** The body of the loop over [log_files]: a [JSONDecodeError] is
    reported and the file skipped; a document without [items()] raises an
    [AttributeError], which no handler catches. *)
Definition accumulate_log (daily_totals : dict (list jval)) (name : string)
  : M (dict (list jval)) :=
  data <- read_log name ;;
  match data with
  | Corrupt msg =>
      print ("Error reading log file " ++ name ++ ": " ++ msg) ;;;
      ret daily_totals
  | NonObject => lift (Raise AttributeError)
  | Object daily_data => ret (fold_left append_value daily_data daily_totals)
  end.

(** [sum(f(x) for x in l)]: from the [int] [0], adding left to right,
    every addition of floats rounded to binary64. *)
Definition py_sum {X : Type} (f : X -> result pynum) (l : list X) : result pynum :=
  fold_left (fun acc x => rbind acc (fun a => rbind (f x) (fun v => py_add a v)))
    l (Ok (PyInt 0)).

Definition num_of (x : jval) : result pynum :=
  match x with
  | JNum v => Ok v
  | JOther => Raise TypeError
  end.

(** [x ** 2] on a [float]: [float.__pow__] answers the special cases
    itself and otherwise calls [pow] on the absolute value; an infinite
    result of a finite operand is an [OverflowError]. *)
Definition float_pow2 (x : float) : result float :=
  match x with
  | S754_nan => Ok x
  | S754_infinity _ => Ok F.inf
  | S754_zero _ => Ok (S754_zero false)
  | S754_finite _ m e =>
      let a := S754_finite false m e in
      if SFeqb a (F.of_Z 1) then Ok a
      else
        match pow2 a with
        | S754_infinity _ => Raise OverflowError
        | S754_nan => Raise ValueError
        | y => Ok y
        end
  end.

(** [a ** 2]: exact on an [int]. *)
Definition py_pow2 (a : pynum) : result pynum :=
  match a with
  | PyInt x => Ok (PyInt (x * x))
  | PyFloat x => rbind (float_pow2 x) (fun y => Ok (PyFloat y))
  end.

(** The statistics of one event from its non-empty list of values. *)
Definition event_baseline (values : list jval) : result Baseline :=
  let len := Z.of_nat (List.length values) in
  rbind (py_sum num_of values) (fun s =>
  rbind (py_truediv s len) (fun mean =>
  rbind (py_sum (fun x => rbind (num_of x) (fun v =>
                           rbind (py_sub v (PyFloat mean)) py_pow2)) values) (fun sq =>
  rbind (py_truediv sq len) (fun variance =>
  rbind (math_sqrt variance) (fun std_dev =>
  rbind (py_sum num_of values) (fun total =>
  Ok {| b_total := total; b_mean := F.round2 mean;
        b_std_dev := F.round2 std_dev |})))))).

(** The body of the loop over [daily_totals.items()]. *)
Definition add_baseline (baseline_statistics : dict Baseline)
  (item : string * list jval) : M (dict Baseline) :=
  match snd item with
  | [] => ret baseline_statistics
  | values =>
      b <- lift (event_baseline values) ;;
      ret (dict_set (fst item) b baseline_statistics)
  end.

Definition analyze_stats : M (dict Baseline) :=
  w <- get ;;
  let daily_totals := empty_totals (dict_keys (events w)) in
  files <- listdir ;;
  let log_files := sorted_log_files files in
  daily_totals <- fold_each log_files daily_totals accumulate_log ;;
  fold_each daily_totals [] add_baseline.

(** *** [main] *)

(** [json.dumps(obj, indent=4)] on a day record and on the baseline
    statistics; it is defined on every such dictionary of numbers. *)
Variable dumps_record : dict pynum -> string.
Variable dumps_baseline : dict Baseline -> string.

(** The regular files that exist when the program starts, by path, each
    with the list that [file.readlines()] returns on it; [os.path.isfile]
    holds of these paths.  [main] reads them before it writes anything. *)
Variable files : string -> option (list string).

(** How a run of [main] ends: it returns, it calls [sys.exit(code)], or
    an exception that no handler catches leaves it. *)
Inductive Termination : Type :=
| Returned
| Exited (code : Z)
| Uncaught (e : exn).

(** [print(msg); sys.exit(1)] *)
Definition exit_with (msg : string) : World -> Termination * World :=
  fun w => (Exited 1, with_stdout (stdout w ++ [msg])%list w).

(** The part of [main] that runs once the command line is accepted. *)
Definition pipeline (events_lines stats_lines : list string) (days : Z) : M unit :=
  read_events events_lines ;;;
  read_statistics stats_lines ;;;
  print "Generating events..." ;;;
  events_data <- generate_events days ;;
  for_each events_data (fun daily_events => print (dumps_record daily_events)) ;;;
  print "Analyzing statistics..." ;;;
  baseline_statistics <- analyze_stats ;;
  print (dumps_baseline baseline_statistics).

(** [argv] is [sys.argv]. *)
Definition main (argv : list string) : World -> Termination * World :=
  match argv with
  | [_; events_file; stats_file; days_arg] =>
      match int_of_str days_arg with
      | None =>
          exit_with ("Error: '" ++ days_arg ++ "' is not a valid number of days.")
      | Some days =>
          match files events_file, files stats_file with
          | Some events_lines, Some stats_lines =>
              fun w =>
                match pipeline events_lines stats_lines days w with
                | (Ok _, w') => (Returned, w')
                | (Raise e, w') => (Uncaught e, w')
                end
          | _, _ => exit_with "Error: Input files not found."
          end
      end
  | _ => exit_with "Usage: python IDS.py <Events.txt> <Stats.txt> <days>"
  end.

End Program.

Arguments Build_World {Rng}.
Arguments ret {Rng A}.
Arguments lift {Rng A}.
Arguments get {Rng}.
Arguments print {Rng}.
Arguments read_events_line float_of_str int_of_str {Rng}.
Arguments read_events float_of_str int_of_str {Rng}.
Arguments read_statistics_line float_of_str {Rng}.
Arguments read_statistics float_of_str int_of_str {Rng}.
Arguments sample_value {Rng}.
Arguments sample_event {Rng}.
Arguments sample_day {Rng}.
Arguments generate_day {Rng}.
Arguments generate_events {Rng}.
Arguments ensure_log_dir {Rng}.
Arguments json_dump {Rng}.
Arguments listdir {Rng}.
Arguments read_log {Rng}.
Arguments accumulate_log {Rng}.
Arguments add_baseline {Rng} pow2.
Arguments analyze_stats {Rng} pow2.
Arguments exit_with {Rng}.
Arguments pipeline float_of_str int_of_str {Rng}.
Arguments main float_of_str int_of_str {Rng}.
Arguments with_write_failure {Rng}.

(** ** One admissible choice of the parameters

    Plain decimal literals, a part of what [int] and [float] accept: an
    optional minus sign and digits, for [float] with an optional point and
    the words [inf], [-inf] and [nan]; and a generator that returns what
    its state holds. *)

Definition dec_int (s : string) : option Z :=
  option_map Z.of_int (NilZero.int_of_string s).

(** The literal without its point, and the number of digits after it. *)
Fixpoint digits_after_point (s : string) : option (string * nat) :=
  match s with
  | EmptyString => None
  | String "." r => Some (r, String.length r)
  | String c r =>
      match digits_after_point r with
      | Some (t, k) => Some (String c t, k)
      | None => None
      end
  end.

Definition dec_float (s : string) : option float :=
  if String.eqb s "inf" then Some F.inf
  else if String.eqb s "-inf" then Some (S754_infinity true)
  else if String.eqb s "nan" then Some F.nan
  else
    let neg := String.prefix "-" s in
    match digits_after_point s with
    | Some (t, k) =>
        option_map (fun n => F.div_round neg (Z.abs n) (10 ^ Z.of_nat k)) (dec_int t)
    | None => option_map (fun n => F.div_round neg (Z.abs n) 1) (dec_int s)
    end.

(** A generator whose every draw is the float it holds. *)
Definition const_gauss (r : float) (mu sigma : float) : float * float := (r, r).

(** A C library whose [pow(x, 2.0)] is the correctly rounded square. *)
Definition exact_pow2 (x : float) : float := F.mul x x.

(** A storage on which no write fails. *)
Definition no_failure (name : string) : option WriteFailure := None.

(** The world before [main] runs: empty globals, nothing printed,
    [logs/] as given, and a storage without failures. *)
Definition world0 {Rng : Type} (dir : option (dict FileData)) (r : Rng) : World Rng :=
  Build_World [] [] dir [] r no_failure.

(** ** The vocabulary of the properties

    The relations and functions in which the properties below are stated. *)

Section Vocabulary.

Variable float_of_str : string -> option float.
Variable int_of_str : string -> option Z.
Variable Rng : Type.
Variable gauss : Rng -> float -> float -> float * Rng.
Variable pow2 : float -> float.

Local Abbreviation World := (World Rng).
Local Abbreviation M := (M Rng).
Local Abbreviation py_pow2 := (py_pow2 pow2).
Local Abbreviation event_baseline := (event_baseline pow2).

Implicit Types (w : World).

(** Two worlds that differ at most in the state of the generator. *)
Definition same_but_rng w w' : Prop :=
  events w' = events w /\ statistics w' = statistics w /\
  log_dir w' = log_dir w /\ stdout w' = stdout w /\
  write_failure w' = write_failure w.

(** What [sample_value] stores, as a function of the raw draw [g]. *)
Definition clamped_value (event_info : EventInfo) (g : float) : result pynum :=
  if String.eqb (e_type event_info) "C" then
    Ok (py_round2
          (py_max (e_min event_info)
             (py_min (PyFloat g) (PyFloat (e_max event_info)))))
  else
    rbind (py_int (e_min event_info)) (fun lo =>
    rbind (py_int (PyFloat g)) (fun gi =>
    rbind (py_int (PyFloat (e_max event_info))) (fun hi =>
    Ok (py_max (PyInt lo) (py_min (PyInt gi) (PyInt hi)))))).

(** The key [name] is sampled by the loop over [l]: it is defined in [l]
    and has statistics. *)
Definition joined (l : dict EventInfo) (stats : dict StatInfo) (name : string) : Prop :=
  In name (dict_keys l) /\ dict_mem name stats = true.

(** A number as [read_events] stores a bound: the [int] [0] of an empty
    [min] field, or a binary64 value. *)
Definition valid_num (v : pynum) : bool :=
  match v with
  | PyInt z => z =? 0
  | PyFloat x => F.valid x
  end.

(** [g] is a draw for the event [name]: a value that [random.gauss]
    returns for the mean and the deviation of its statistics. *)
Definition is_draw w (name : string) (g : float) : Prop :=
  exists st r,
    dict_get name (statistics w) = Some st /\
    g = fst (gauss r (s_mean st) (s_std_dev st)).

(** What the program guarantees of the value [v] stored for an event
    whose draw was [g]:
    - Continuous: [v] is the rounding to two decimals of the clamped draw
      [c = max(min, min(g, max))].  As soon as [min <= max], [c] lies
      within the bounds, and [v] lies within the bounds rounded to two
      decimals when the bounds and the draw are binary64 values, hence
      within [min, max] on each side where the rounding leaves the bound
      as it is;
    - Discrete: [v] is the draw truncated toward zero and clamped between
      the bounds truncated toward zero: an integer between these as soon
      as they are ordered, and then within the declared bounds themselves
      on each side where truncation did not move the bound inward. *)
Definition stored_ok (event_info : EventInfo) (g : float) (v : pynum) : Prop :=
  let lo := e_min event_info in
  let hi := PyFloat (e_max event_info) in
  (e_type event_info = "C" ->
   let c := py_max lo (py_min (PyFloat g) hi) in
   v = py_round2 c /\
   (py_le lo hi = true ->
    py_le lo c = true /\ py_le c hi = true /\
    (valid_num lo = true -> F.valid (e_max event_info) = true ->
     F.valid g = true ->
     py_le (py_round2 lo) v = true /\ py_le v (py_round2 hi) = true /\
     (py_round2 lo = lo -> py_le lo v = true) /\
     (py_round2 hi = hi -> py_le v hi = true)))) /\
  (e_type event_info <> "C" ->
   exists ilo ihi z,
     py_int lo = Ok ilo /\ py_int hi = Ok ihi /\ v = PyInt z /\
     (exists gi, py_int (PyFloat g) = Ok gi /\ z = Z.max ilo (Z.min gi ihi)) /\
     (ilo <= ihi ->
      ilo <= z <= ihi /\
      (py_le lo (PyInt ilo) = true -> py_le lo v = true) /\
      (py_le (PyInt ihi) hi = true -> py_le v hi = true))).

(** Two worlds with the same [events] and [statistics]. *)
Definition same_config w w' : Prop :=
  events w' = events w /\ statistics w' = statistics w.

(** [r] is a record that [sample_day] can return for [day] under the
    configuration of [w]. *)
Definition day_record w (day : Z) (r : dict pynum) : Prop :=
  exists wa, same_config w wa /\ fst (sample_day gauss day wa) = Ok r.

(** The directory after the records [recs] of the days [days] were
    written, in this order. *)
Definition write_days (days : list Z) (recs : list (dict pynum)) (d : dict FileData)
  : dict FileData :=
  fold_left (fun d dr => dict_set (log_file (fst dr)) (json_of (snd dr)) d)
    (combine days recs) d.

(** The directory that [generate_events] starts from, once it exists. *)
Definition initial_dir w : dict FileData :=
  match log_dir w with
  | Some d => d
  | None => []
  end.

(** The calls of [random.gauss] of a loop over the items [l], in order,
    each with the event it is made for and its mean and deviation: one
    call for every event that has statistics. *)
Definition calls_in (l : dict EventInfo) (stats : dict StatInfo)
  : list (EventInfo * (float * float)) :=
  flat_map
    (fun item : string * EventInfo =>
       match dict_get (fst item) stats with
       | Some st => [(snd item, (s_mean st, s_std_dev st))]
       | None => []
       end)
    l.

(** The calls of one day. *)
Definition day_calls w : list (EventInfo * (float * float)) :=
  calls_in (events w) (statistics w).

(** The draws that the calls [calls] return from the state [r]. *)
Fixpoint draws (calls : list (EventInfo * (float * float))) (r : Rng)
  : list (EventInfo * float) :=
  match calls with
  | [] => []
  | call :: rest =>
      (fst call, fst (gauss r (fst (snd call)) (snd (snd call))))
      :: draws rest (snd (gauss r (fst (snd call)) (snd (snd call))))
  end.

(** The draws of a run of [days] days. *)
Definition run_draws w (days : Z) : list (EventInfo * float) :=
  draws (List.concat (repeat (day_calls w) (Z.to_nat days))) (rng w).

Definition converts (v : pynum) : bool :=
  match py_int v with
  | Ok _ => true
  | Raise _ => false
  end.

(** Sampling the event with this draw cannot raise: the event is
    Continuous, or its bounds convert to integers and the draw is
    finite. *)
Definition draw_safe (ed : EventInfo * float) : bool :=
  String.eqb (e_type (fst ed)) "C"
  || (converts (e_min (fst ed)) && F.is_finite (e_max (fst ed))
      && F.is_finite (snd ed)).

(** No draw of the run makes sampling raise. *)
Definition run_safe w (days : Z) : Prop :=
  forallb draw_safe (run_draws w days) = true.

(** The storage accepts the writes of the run. *)
Definition writes_succeed w (days : Z) : Prop :=
  forall day, In day (py_range days) -> write_failure w (log_file day) = None.

(** The integer part of a number, and its floor. *)
Definition py_trunc (v : pynum) : option Z :=
  match v with
  | PyInt z => Some z
  | PyFloat x => F.trunc x
  end.

Definition py_floor (v : pynum) : option Z :=
  match v with
  | PyInt z => Some z
  | PyFloat x => F.floor x
  end.

(** The Discrete value in the words of the specification: the draw
    truncated toward zero, clamped between the floors of the bounds. *)
Definition discrete_value_floor (event_info : EventInfo) (g : float) : option Z :=
  match F.trunc g, py_floor (e_min event_info), F.floor (e_max event_info) with
  | Some t, Some lo, Some hi => Some (Z.max lo (Z.min t hi))
  | _, _, _ => None
  end.

(** The same with the bounds truncated toward zero. *)
Definition discrete_value_trunc (event_info : EventInfo) (g : float) : option Z :=
  match F.trunc g, py_trunc (e_min event_info), F.trunc (e_max event_info) with
  | Some t, Some lo, Some hi => Some (Z.max lo (Z.min t hi))
  | _, _, _ => None
  end.

(** What a record line does: it is skipped with a diagnostic, it aborts
    the run with a [ValueError], or it assigns an entry. *)
Inductive line_outcome (V : Type) : Type :=
| Skipped
| Fatal
| Assign (name : string) (v : V).

Arguments Skipped {V}.
Arguments Fatal {V}.

Definition parse_event_line (line : string) : line_outcome EventInfo :=
  match PyStr.split ":" (PyStr.strip line) with
  | [name; event_type; min_val; max_val; weight] =>
      match
        match min_val with
        | EmptyString => Some (PyInt 0)
        | _ => option_map PyFloat (float_of_str min_val)
        end
      with
      | Some min_v =>
          match
            match max_val with
            | EmptyString => Some F.inf
            | _ => float_of_str max_val
            end
          with
          | Some max_v =>
              match int_of_str weight with
              | Some weight_v =>
                  Assign name {| e_type := event_type; e_min := min_v;
                                 e_max := max_v; e_weight := weight_v |}
              | None => Fatal
              end
          | None => Fatal
          end
      | None => Fatal
      end
  | _ => Skipped
  end.

Definition parse_statistics_line (line : string) : line_outcome StatInfo :=
  match PyStr.split ":" (PyStr.strip line) with
  | [name; mean; std_dev; _] =>
      match float_of_str mean with
      | Some mean_v =>
          match float_of_str std_dev with
          | Some std_dev_v =>
              Assign name {| s_mean := mean_v; s_std_dev := std_dev_v |}
          | None => Fatal
          end
      | None => Fatal
      end
  | _ => Skipped
  end.

Definition events_diagnostic (line : string) : string :=
  "Skipping invalid line in Events.txt: " ++ PyStr.strip line.

Definition statistics_diagnostic (line : string) : string :=
  "Skipping invalid line in Stats.txt: " ++ PyStr.strip line.

(** The effect of a line with a given outcome on the dictionary that
    [getd] reads and [setd] writes. *)
Definition line_effect {V : Type} (getd : World -> dict V)
  (setd : dict V -> World -> World) (diag : string) (o : line_outcome V) w
  : result unit * World :=
  match o with
  | Skipped => (Ok tt, with_stdout (stdout w ++ [diag])%list w)
  | Fatal => (Raise ValueError, w)
  | Assign name v => (Ok tt, setd (dict_set name v (getd w)) w)
  end.

(** The record lines of a file: the lines [lines[1:n + 1]] for the count
    [n] of its first line. *)
Definition record_lines (lines : list string) : list string :=
  match lines with
  | [] => []
  | first :: _ =>
      match int_of_str (PyStr.strip first) with
      | Some n => py_slice lines 1 (n + 1)
      | None => []
      end
  end.

(** The value that the last line assigning [name] gives it, if any. *)
Fixpoint last_assigned {V : Type} (name : string) (os : list (line_outcome V))
  : option V :=
  match os with
  | [] => None
  | o :: os' =>
      match last_assigned name os' with
      | Some v => Some v
      | None =>
          match o with
          | Assign n v => if String.eqb name n then Some v else None
          | _ => None
          end
      end
  end.

Definition is_skipped {V : Type} (o : line_outcome V) : bool :=
  match o with
  | Skipped => true
  | _ => false
  end.

Definition log_diagnostic (name msg : string) : string :=
  "Error reading log file " ++ name ++ ": " ++ msg.

(** The first loop of [analyze_stats] as a function of the directory:
    the lists it ends with, or the exception, and the diagnostics. *)
Fixpoint collect (d : dict FileData) (names : list string)
  (daily_totals : dict (list jval)) : result (dict (list jval)) * list string :=
  match names with
  | [] => (Ok daily_totals, [])
  | name :: names' =>
      match dict_get name d with
      | None => (Raise FileNotFoundError, [])
      | Some (Corrupt msg) =>
          let '(r, out) := collect d names' daily_totals in
          (r, log_diagnostic name msg :: out)
      | Some NonObject => (Raise AttributeError, [])
      | Some (Object items) =>
          collect d names' (fold_left append_value items daily_totals)
      end
  end.

(** The second loop of [analyze_stats]. *)
Fixpoint baselines (daily_totals : dict (list jval)) (acc : dict Baseline)
  : result (dict Baseline) :=
  match daily_totals with
  | [] => Ok acc
  | (name, []) :: rest => baselines rest acc
  | (name, values) :: rest =>
      rbind (event_baseline values) (fun b => baselines rest (dict_set name b acc))
  end.

(** [analyze_stats] as a function of the names of the definitions and of
    the directory. *)
Definition analysis (names : list string) (d : dict FileData)
  : result (dict Baseline) * list string :=
  let '(r, out) :=
    collect d (sorted_log_files (dict_keys d)) (empty_totals names) in
  (rbind r (fun daily_totals => baselines daily_totals []), out).

(** The values stored under [name] in one document. *)
Definition values_in (name : string) (items : dict jval) : list jval :=
  map snd (filter (fun it => String.eqb (fst it) name) items).

(** The values accumulated for [name] over the files [names], in this
    order; a file that is not a JSON object contributes nothing. *)
Fixpoint accumulated (d : dict FileData) (names : list string) (name : string)
  : list jval :=
  match names with
  | [] => []
  | f :: names' =>
      match dict_get f d with
      | Some (Object items) => (values_in name items ++ accumulated d names' name)%list
      | _ => accumulated d names' name
      end
  end.

(** The statistics in the words of the specification. *)
Definition spec_total (values : list jval) : result pynum :=
  py_sum num_of values.

Definition spec_mean (values : list jval) : result float :=
  rbind (spec_total values) (fun total =>
  py_truediv total (Z.of_nat (List.length values))).

Definition spec_variance (values : list jval) : result float :=
  rbind (spec_mean values) (fun mean =>
  rbind (py_sum (fun x => rbind (num_of x) (fun v =>
                          rbind (py_sub v (PyFloat mean)) py_pow2)) values) (fun sq =>
  py_truediv sq (Z.of_nat (List.length values)))).

Definition spec_std_dev (values : list jval) : result float :=
  rbind (spec_variance values) math_sqrt.

(** *** The record lines that are read *)

(** [int(lines[0].strip())], the first statement of both parsers after
    the file was read. *)
Definition header_count (lines : list string) : result Z :=
  match lines with
  | [] => Raise IndexError
  | first :: _ =>
      match int_of_str (PyStr.strip first) with
      | Some n => Ok n
      | None => Raise ValueError
      end
  end.

(** How many of the [available] lines after the first one are record
    lines for the count [n]: [n] of them (all when there are fewer) for
    [n >= 0], none for [n = -1], and all but the last [-(n + 1)] for a
    smaller [n]. *)
Definition records_read (n : Z) (available : nat) : nat :=
  if n <? -1 then Z.to_nat (Z.of_nat available + n + 1) else Z.to_nat n.

Definition is_fatal {V : Type} (o : line_outcome V) : bool :=
  match o with
  | Fatal => true
  | _ => false
  end.

(** A file that the parser with the line outcomes [outcome] reads to
    the end: its first line is an integer and none of its record lines
    is fatal. *)
Definition accepted {V : Type} (outcome : string -> line_outcome V)
  (lines : list string) : bool :=
  match header_count lines with
  | Ok _ => negb (existsb (fun l => is_fatal (outcome l)) (record_lines lines))
  | Raise _ => false
  end.

(** What a name holds after the lines with the outcomes [os], when it
    held [before]: the entry of the last line that assigns it, if any. *)
Definition updated {V : Type} (name : string) (os : list (line_outcome V))
  (before : option V) : option V :=
  match last_assigned name os with
  | Some v => Some v
  | None => before
  end.

(** *** The records and the draws *)

(** The names that follow ["Day"] in a record: the events that have
    statistics, in the order of the definitions. *)
Definition sampled_names w : list string :=
  filter (fun name => dict_mem name (statistics w) && negb (String.eqb name "Day"))
    (dict_keys (events w)).

(** The arguments of the calls of [random.gauss] of one day, in order. *)
Definition day_draws w : list (float * float) :=
  flat_map
    (fun item : string * EventInfo =>
       match dict_get (fst item) (statistics w) with
       | Some st => [(s_mean st, s_std_dev st)]
       | None => []
       end)
    (events w).

(** The state of the generator after the calls [params], from [r]. *)
Definition draw_all (params : list (float * float)) (r : Rng) : Rng :=
  fold_left (fun r p => snd (gauss r (fst p) (snd p))) params r.

(** *** The baseline *)

(** A float that is not below zero: a NaN, a zero of either sign, or a
    positive value. *)
Definition not_negative (x : float) : bool :=
  match x with
  | S754_infinity true | S754_finite true _ _ => false
  | _ => true
  end.

(** What a record contributes to the values of [name] once it has been
    written and read back. *)
Definition logged (name : string) (r : dict pynum) : list jval :=
  match dict_get name r with
  | Some v => [JNum v]
  | None => []
  end.

(** *** Rounding *)

(** A float of sign [s]: not a NaN. *)
Definition signed (s : bool) (x : float) : Prop :=
  match x with
  | S754_zero s' | S754_infinity s' | S754_finite s' _ _ => s' = s
  | S754_nan => False
  end.

(** The integer nearest to a hundred times the finite value [m * 2^e]. *)
Definition hundredths (m : positive) (e : Z) : Z :=
  if 0 <=? e then 100 * Z.pos m * 2 ^ e
  else F.div_half_even (100 * Z.pos m) (2 ^ (- e)).

(** [y] is [x] rounded to two decimals: a value that is no finite
    number, or that has no fractional part, is kept; otherwise [y] is the
    binary64 nearest to [n / 100] for the integer [n] nearest to a
    hundred times the exact value of [x], the even one of two nearest. *)
Definition rounded_to_hundredths (x y : float) : Prop :=
  match x with
  | S754_finite s m e =>
      if 0 <=? e then y = x
      else
        exists n,
          0 <= n /\ y = F.div_round s n 100 /\
          2 * Z.abs (100 * Z.pos m - n * 2 ^ (- e)) <= 2 ^ (- e) /\
          (2 * Z.abs (100 * Z.pos m - n * 2 ^ (- e)) = 2 ^ (- e) ->
           Z.even n = true)
  | _ => y = x
  end.

(** *** The weights *)

(** An entry, and a world, with the weights set to zero. *)
Definition without_weight (event_info : EventInfo) : EventInfo :=
  {| e_type := e_type event_info; e_min := e_min event_info;
     e_max := e_max event_info; e_weight := 0 |}.

Definition without_weights w : World :=
  with_events
    (map (fun item : string * EventInfo => (fst item, without_weight (snd item)))
       (events w))
    w.

(** *** Blanks *)

(** A string of white-space characters only. *)
Definition blank (s : string) : bool := PyStr.all_space s.

(** What follows the white-space character that [s] starts with, if it
    starts with one. *)
Definition skip_space (s : string) : option string :=
  match s with
  | EmptyString => None
  | String c1 s1 =>
      if PyStr.is_space c1 then Some s1
      else
        match s1 with
        | EmptyString => None
        | String c2 s2 =>
            if PyStr.is_space2 c1 c2 then Some s2
            else
              match s2 with
              | EmptyString => None
              | String c3 s3 => if PyStr.is_space3 c1 c2 c3 then Some s3 else None
              end
        end
  end.

(** A byte that continues the encoding of a character. *)
Definition continuation (c : ascii) : bool :=
  (128 <=? PyStr.byte c) && (PyStr.byte c <=? 191).

End Vocabulary.

Arguments Skipped {V}.
Arguments Fatal {V}.

(** ** Concrete configurations and directories *)

(** The world after [read_events] and [read_statistics] were run on the
    lines [ev] and [st], with the decimal parsers, the directory [dir]
    and a generator whose every draw is [r]. *)
Definition config_world (ev st : list string) (dir : option (dict FileData))
  (r : float) : World float :=
  snd (read_statistics dec_float dec_int st
         (snd (read_events dec_float dec_int ev (world0 dir r)))).

(** A directory holding one document [{"Day": i, name: v}] for each
    value [v], the [i]-th of [values]. *)
Definition day_logs (name : string) (values : list Z) : dict FileData :=
  map (fun iv =>
         (log_file (fst iv),
          Object [("Day", JNum (PyInt (fst iv + 1))); (name, JNum (PyInt (snd iv)))]))
    (combine (py_range (Z.of_nat (List.length values))) values).

(** A generator with two states whose draws are 7.3 and -2.0 in turn. *)
Definition flip_gauss (r : bool) (mu sigma : float) : float * bool :=
  (if r then F.of_dec 73 1 else F.of_dec (-20) 1, negb r).

Ltac nodup :=
  repeat (constructor; [simpl; intuition discriminate|]); constructor.

Ltac by_eval := repeat apply conj; vm_compute; reflexivity.

(** One Continuous event with bounds [0.125, 1440] and one Discrete event
    with bounds [0.5, 10]; every draw is -7.3. *)
Definition bounds_world : World float :=
  config_world
    ["2"; "Time:C:0.125:1440:3"; "Logins:D:0.5:10:2"]
    ["2"; "Time:150.5:25.0:"; "Logins:4:1.5:"]
    None (F.of_dec (-73) 1).

(** A Discrete event with bounds [-2.5, 10]. *)
Definition negative_min : EventInfo :=
  {| e_type := "D"; e_min := PyFloat (F.of_dec (-25) 1); e_max := F.of_Z 10;
     e_weight := 1 |}.

(** The only event is named ["Day"]; every draw is 7.3. *)
Definition day_named_world : World float :=
  config_world ["1"; "Day:D:0:10:1"] ["1"; "Day:5:1:"] None (F.of_dec 73 1).

(** The only event is Discrete with an empty [max] field; every draw is
    4.2. *)
Definition unbounded_world : World float :=
  config_world ["1"; "Logins:D:0::2"] ["1"; "Logins:4:1.5:"] None (F.of_dec 42 1).

(** The two events of [bounds_world] with integer bounds; the draws
    alternate between 7.3 and -2.0. *)
Definition shape_world : World bool :=
  snd (read_statistics dec_float dec_int
         ["2"; "Time:150.5:25.0:"; "Logins:4:1.5:"]
         (snd (read_events dec_float dec_int
                 ["2"; "Time:C:0:1440:3"; "Logins:D:0:10:2"]
                 (world0 None true)))).

(** A generator of the form [mu + sigma * z]: its state is the standard
    deviate [z] of the next draw, and the deviates alternate in sign. *)
Definition affine_gauss (z : float) (mu sigma : float) : float * float :=
  (F.add mu (F.mul sigma z), SFopp z).

(** The configuration of [shape_world] on this generator, from the
    deviate 1.5. *)
Definition affine_world : World float :=
  config_world
    ["2"; "Time:C:0:1440:3"; "Logins:D:0:10:2"]
    ["2"; "Time:150.5:25.0:"; "Logins:4:1.5:"]
    None (F.of_dec 15 1).

Definition nl : string := String (ascii_of_nat 10) EmptyString.

(** A definitions file whose count is 3 and whose second record has only
    4 fields; the line after the third record is not read. *)
Definition events_with_short_line : list string :=
  ["3" ++ nl; "Logins:D:0::2" ++ nl; "Emails:C:0:1" ++ nl;
   "Time online:C:0:1440:3" ++ nl; "Extra:D:0:5:1" ++ nl].

(** A definitions file that lists [Logins] twice, and a second file. *)
Definition events_with_duplicate : list string :=
  ["3"; "Logins:D:0:10:2"; "Time online:C:0:1440:3"; "Logins:C:1:5:9"].

Definition events_second_file : list string :=
  ["1"; "Emails:D:0:50:1"].

(** A statistics file that lists [Logins] twice around a line of wrong
    arity, and a second file. *)
Definition statistics_with_duplicate : list string :=
  ["3"; "Logins:4:1.5:"; "Logins 6 and 2"; "Logins:6:2:"].

Definition statistics_second_file : list string :=
  ["1"; "Emails:20:5:"].

(** The definitions name [Logins]; [logs/] holds eight days with the
    values 2, 4, 4, 4, 5, 5, 7, 9. *)
Definition logins_world : World float :=
  config_world ["1"; "Logins:D:0:20:2"] ["0"]
    (Some (day_logs "Logins" [2; 4; 4; 4; 5; 5; 7; 9])) F.nan.

(** Three days with the values 1, 2 and 2. *)
Definition thirds_world : World float :=
  config_world ["1"; "Logins:D:0:20:2"] ["0"]
    (Some (day_logs "Logins" [1; 2; 2])) F.nan.

(** One day whose value is the integer [10 ** 400]. *)
Definition overflow_world : World float :=
  config_world ["1"; "Logins:D:0:20:2"] ["0"]
    (Some (day_logs "Logins" [10 ^ 400])) F.nan.

(** Two days with the values 0.1 and 0.2. *)
Definition tenths_world : World float :=
  config_world ["1"; "Time:C:0:1440:3"] ["0"]
    (Some [(log_file 0,
            Object [("Day", JNum (PyInt 1)); ("Time", JNum (PyFloat (F.of_dec 1 1)))]);
           (log_file 1,
            Object [("Day", JNum (PyInt 2)); ("Time", JNum (PyFloat (F.of_dec 2 1)))])])
    F.nan.

(** One day with [Logins = 3], read with and without a definition of
    [Logins] in memory. *)
Definition defined_world : World float :=
  config_world ["1"; "Logins:D:0:20:2"] ["1"; "Logins:4:1.5:"]
    (Some (day_logs "Logins" [3])) F.nan.

Definition undefined_world : World float :=
  config_world ["0"] ["1"; "Logins:4:1.5:"] (Some (day_logs "Logins" [3])) F.nan.

(** The same name with another definition, other statistics and another
    random state. *)
Definition redefined_world : World float :=
  config_world ["1"; "Logins:C:1:2:7"] ["0"] (Some (day_logs "Logins" [3]))
    (F.of_Z 1).

(** The twelve log files of a run of twelve days; and a directory in
    which the logs of the days 2 and 10 are not JSON documents. *)
Definition twelve_days : list string := map log_file (py_range 12).

Definition corrupt_logs : dict FileData :=
  [("day_2.log", Corrupt "two"); ("day_10.log", Corrupt "ten")].

(** A generator that counts its calls and draws the count; and one that
    draws a NaN from its third call on. *)
Definition count_gauss (r : Z) (mu sigma : float) : float * Z :=
  (F.of_Z r, r + 1).

Definition fading_gauss (r : Z) (mu sigma : float) : float * Z :=
  (if r <? 2 then F.of_Z r else F.nan, r + 1).

(** Three definitions, of which [Emails] has no statistics, and
    statistics for [Downloads], which is not defined. *)
Definition partial_events : list string :=
  ["3"; "Logins:D:0:10:2"; "Emails:D:0:50:1"; "Time online:C:0:1440:3"].

Definition partial_statistics : list string :=
  ["3"; "Logins:4:1.5:"; "Downloads:9:2:"; "Time online:150.5:25.0:"].

Definition partial_world : World Z :=
  snd (read_statistics dec_float dec_int partial_statistics
         (snd (read_events dec_float dec_int partial_events (world0 None 0)))).

(** [partial_world] with an empty [logs/] on a storage that refuses to
    write [day_2.log] and leaves nothing behind. *)
Definition locked_day_2 (name : string) : option WriteFailure :=
  if String.eqb name "day_2.log"
  then Some {| wf_error := PermissionError; wf_left := None |}
  else None.

Definition locked_world : World Z :=
  with_write_failure locked_day_2 (with_log_dir (Some []) partial_world).

(** The same definitions with other weights. *)
Definition reweighted_world : World Z :=
  snd (read_statistics dec_float dec_int partial_statistics
         (snd (read_events dec_float dec_int
                 ["3"; "Logins:D:0:10:7"; "Emails:D:0:50:8"; "Time online:C:0:1440:9"]
                 (world0 None 0)))).

(** A definitions file whose second record has a weight that is not an
    integer. *)
Definition events_with_bad_weight : list string :=
  ["3"; "Logins:D:0:10:2"; "Time online:C:0:1440:heavy"; "Emails:D:0:50:1"].

(** One day log among files that are no day logs; a day log that holds a
    JSON list; and a day log that holds a string under [Logins]. *)
Definition logs_and_notes : dict FileData :=
  [("notes.txt", NonObject);
   ("day_1.log", Object [("Day", JNum (PyInt 1)); ("Logins", JNum (PyInt 3))]);
   ("day_1.log.bak", Corrupt "old")].

Definition list_log : dict FileData :=
  [("day_1.log", Object [("Day", JNum (PyInt 1)); ("Logins", JNum (PyInt 3))]);
   ("day_2.log", NonObject)].

Definition text_log : dict FileData :=
  [("day_1.log", Object [("Day", JNum (PyInt 1)); ("Logins", JOther)])].

(** The two input files of a run of [main], and a rendering of a
    dictionary that keeps its keys only. *)
Definition two_files (path : string) : option (list string) :=
  if String.eqb path "Events.txt" then Some partial_events
  else if String.eqb path "Stats.txt" then Some partial_statistics
  else None.

Definition keys_of {V : Type} (d : dict V) : string :=
  String.concat "," (dict_keys d).

(** A Continuous event with the bounds [0.125, 1440]. *)
Definition time_online : EventInfo :=
  {| e_type := "C"; e_min := PyFloat (F.of_dec 125 3); e_max := F.of_Z 1440;
     e_weight := 3 |}.

(** The end of a line of a file written on Windows. *)
Definition crlf : string := String (ascii_of_nat 13) nl.

(** A no-break space (U+00A0) and an em space (U+2003). *)
Definition nbsp : string :=
  String (ascii_of_nat 194) (String (ascii_of_nat 160) EmptyString).

Definition em_space : string :=
  String (ascii_of_nat 226)
    (String (ascii_of_nat 128) (String (ascii_of_nat 131) EmptyString)).

(** Quotients that are integers, ties and values between two floats,
    then subnormal values, values that round to zero and values at and
    beyond the largest float. *)
Definition sample_numerators : list Z :=
  [0; 1; 2; 3; 5; 7; 33; 125; 167; 2675; 2 ^ 53 - 1; 2 ^ 53 + 1; 2 ^ 54 + 3;
   10 ^ 17 + 3].

Definition sample_denominators : list Z :=
  [1; 2; 3; 7; 10; 100; 1000; 2 ^ 53 + 1; 10 ^ 17].

Definition sample_quotients : list (Z * Z) :=
  (list_prod sample_numerators sample_denominators ++
   [(1, 2 ^ 1074); (1, 2 ^ 1075); (1, 2 ^ 1075 + 1); (3, 2 ^ 1075); (3, 2 ^ 1076);
    (1, 3 * 2 ^ 1074); (5, 10 ^ 320); (7, 10 ^ 310); (18 * 10 ^ 307, 1);
    (2 ^ 1024 - 2 ^ 970, 1); (2 ^ 1024 - 2 ^ 970 - 1, 1); (2 ^ 1024 - 2 ^ 971, 1);
    (10 ^ 400, 1); (10 ^ 400, 10 ^ 92); (10 ^ 400, 10 ^ 100)])%list.

(** ** Facts about binary64 rounding *)

Unset Implicit Arguments.

(** *** Rounding a quotient to an integer *)

Lemma div_half_even_bracket a d :
  0 < d ->
  2 * a - d <= 2 * d * F.div_half_even a d <= 2 * a + d.
Proof.
  intros Hd. unfold F.div_half_even. cbv zeta.
  pose proof (Z.div_mod a d ltac:(lia)) as Ha.
  pose proof (Z.mod_pos_bound a d Hd) as Hr.
  set (q := a / d) in *. set (r := a mod d) in *. clearbody q r. subst a.
  destruct (2 * r ?= d) eqn:E.
  - apply Z.compare_eq in E. destruct (Z.even q); lia.
  - apply -> Z.compare_lt_iff in E. lia.
  - apply -> Z.compare_gt_iff in E. lia.
Qed.

Lemma div_half_even_tie a d :
  0 < d -> 2 * Z.abs (a - d * F.div_half_even a d) = d ->
  Z.even (F.div_half_even a d) = true.
Proof.
  intros Hd. unfold F.div_half_even. cbv zeta.
  pose proof (Z.div_mod a d ltac:(lia)) as Ha.
  pose proof (Z.mod_pos_bound a d Hd) as Hr.
  set (q := a / d) in *. set (r := a mod d) in *. clearbody q r. subst a.
  destruct (2 * r ?= d) eqn:E.
  - apply Z.compare_eq in E. destruct (Z.even q) eqn:Ev; [auto|].
    intros _. rewrite Z.even_add, Ev. reflexivity.
  - apply -> Z.compare_lt_iff in E. intros H. exfalso. lia.
  - apply -> Z.compare_gt_iff in E. intros H. exfalso. lia.
Qed.

Lemma div_half_even_exact m d : 0 < d -> F.div_half_even (m * d) d = m.
Proof.
  intros Hd. unfold F.div_half_even. cbv zeta.
  rewrite Z.div_mul, Z.mod_mul by lia.
  replace (2 * 0) with 0 by lia. now apply Z.compare_lt_iff in Hd as ->.
Qed.

Lemma div_half_even_mono a b d :
  0 < d -> a <= b -> F.div_half_even a d <= F.div_half_even b d.
Proof.
  intros Hd Hab.
  destruct (Z.eq_dec (a / d) (b / d)) as [Hq|Hq].
  - unfold F.div_half_even. cbv zeta. rewrite <- Hq.
    assert (Hr : a mod d <= b mod d).
    { pose proof (Z.div_mod a d ltac:(lia)). pose proof (Z.div_mod b d ltac:(lia)).
      rewrite <- Hq in *. lia. }
    destruct (2 * (a mod d) ?= d) eqn:Ea; destruct (2 * (b mod d) ?= d) eqn:Eb;
      try apply Z.compare_eq in Ea; try apply Z.compare_eq in Eb;
      try apply -> Z.compare_lt_iff in Ea; try apply -> Z.compare_lt_iff in Eb;
      try apply -> Z.compare_gt_iff in Ea; try apply -> Z.compare_gt_iff in Eb;
      destruct (Z.even (a / d)); lia.
  - pose proof (Z.div_le_mono a b d Hd Hab) as Hle.
    assert (Ha : F.div_half_even a d <= a / d + 1).
    { unfold F.div_half_even. cbv zeta.
      destruct (2 * (a mod d) ?= d); [destruct (Z.even (a / d))| |]; lia. }
    assert (Hb : b / d <= F.div_half_even b d).
    { unfold F.div_half_even. cbv zeta.
      destruct (2 * (b mod d) ?= d); [destruct (Z.even (b / d))| |]; lia. }
    lia.
Qed.

Lemma div_half_even_scale a d c :
  0 < d -> 0 < c -> F.div_half_even (a * c) (d * c) = F.div_half_even a d.
Proof.
  intros Hd Hc. unfold F.div_half_even. cbv zeta.
  rewrite Z.div_mul_cancel_r by lia.
  rewrite Z.mul_mod_distr_r by lia.
  replace (2 * (a mod d * c)) with (2 * (a mod d) * c) by lia.
  now rewrite <- Zmult_compare_compat_r by lia.
Qed.

Lemma div_half_even_nonneg a d : 0 <= a -> 0 < d -> 0 <= F.div_half_even a d.
Proof.
  intros Ha Hd. pose proof (div_half_even_mono 0 a d Hd Ha) as H.
  replace 0 with (0 * d) in H at 1 by lia. now rewrite div_half_even_exact in H.
Qed.

(** *** Powers of two *)

(** [n / d < 2^(b - a)] stays true when the exponent grows. *)
Lemma pow_shift_lt n d a b a' b' :
  0 < n -> 0 < d -> 0 <= a -> 0 <= b -> 0 <= a' -> 0 <= b' ->
  b - a <= b' - a' ->
  n * 2 ^ a < d * 2 ^ b -> n * 2 ^ a' < d * 2 ^ b'.
Proof.
  intros Hn Hd Ha Hb Ha' Hb' Hle H.
  assert (Hp : forall x, 0 <= x -> 0 < 2 ^ x) by (intros; now apply Z.pow_pos_nonneg).
  pose proof (Hp a Ha). pose proof (Hp b Hb). pose proof (Hp a' Ha'). pose proof (Hp b' Hb').
  set (k := (b' - a') - (b - a)).
  assert (Hk : 0 <= k) by (unfold k; lia).
  pose proof (Hp k Hk) as Hpk.
  assert (E : 2 ^ a * 2 ^ b' = 2 ^ k * (2 ^ b * 2 ^ a')).
  { rewrite <- !Z.pow_add_r by lia. f_equal. unfold k. lia. }
  apply Z.mul_lt_mono_pos_r with (p := 2 ^ b * 2 ^ a'); [nia|].
  apply Z.le_lt_trans with (n * 2 ^ a' * 2 ^ k * (2 ^ b * 2 ^ a')).
  - assert (1 <= 2 ^ k) by lia. nia.
  - replace (n * 2 ^ a' * 2 ^ k * (2 ^ b * 2 ^ a'))
      with ((n * 2 ^ a) * (2 ^ a' * 2 ^ b')) by (rewrite (Z.mul_comm (2 ^ a') (2 ^ b')); nia).
    replace (d * 2 ^ b' * (2 ^ b * 2 ^ a')) with ((d * 2 ^ b) * (2 ^ a' * 2 ^ b')) by nia.
    apply Z.mul_lt_mono_pos_r; [nia|exact H].
Qed.

(** [2^(b - a) <= n / d] stays true when the exponent shrinks. *)
Lemma pow_shift_le n d a b a' b' :
  0 < n -> 0 < d -> 0 <= a -> 0 <= b -> 0 <= a' -> 0 <= b' ->
  b' - a' <= b - a ->
  d * 2 ^ b <= n * 2 ^ a -> d * 2 ^ b' <= n * 2 ^ a'.
Proof.
  intros Hn Hd Ha Hb Ha' Hb' Hle H.
  destruct (Z_le_gt_dec (d * 2 ^ b') (n * 2 ^ a')) as [|Hgt]; [assumption|].
  exfalso. apply Z.gt_lt in Hgt.
  pose proof (pow_shift_lt n d a' b' a b Hn Hd Ha' Hb' Ha Hb Hle Hgt). lia.
Qed.

(** *** The order of magnitude of a quotient *)

Lemma mag_mono n1 n2 d :
  0 < d -> 0 < n1 -> n1 <= n2 -> F.mag n1 d <= F.mag n2 d.
Proof.
  intros Hd H1 H12. unfold F.mag.
  destruct (Z.leb_spec d n1), (Z.leb_spec d n2); try lia.
  - apply Z.add_le_mono_r, Z.log2_le_mono, Z.div_le_mono; lia.
  - pose proof (Z.log2_nonneg ((d - 1) / n1)). pose proof (Z.log2_nonneg (n2 / d)). lia.
  - enough (Z.log2 ((d - 1) / n2) <= Z.log2 ((d - 1) / n1)) by lia.
    apply Z.log2_le_mono, Z.div_le_compat_l; lia.
Qed.

Lemma mag_hi n d :
  0 < n -> 0 < d ->
  n * 2 ^ Z.max 0 (- F.mag n d) < d * 2 ^ Z.max 0 (F.mag n d).
Proof.
  intros Hn Hd. unfold F.mag. destruct (Z.leb_spec d n) as [Hle|Hlt].
  - pose proof (Z.div_mod n d ltac:(lia)) as Hdiv.
    pose proof (Z.mod_pos_bound n d Hd) as Hmod.
    assert (Hq : 0 < n / d) by (apply Z.div_str_pos; lia).
    destruct (Z.log2_spec _ Hq) as [Hlo Hhi]. pose proof (Z.log2_nonneg (n / d)) as HL.
    set (q := n / d) in *. set (r := n mod d) in *. set (L := Z.log2 q) in *.
    rewrite Z.max_l, Z.max_r by lia. rewrite Z.pow_0_r, Z.mul_1_r.
    replace (L + 1) with (Z.succ L) by lia. clearbody q r L. nia.
  - pose proof (Z.div_mod (d - 1) n ltac:(lia)) as Hdiv.
    pose proof (Z.mod_pos_bound (d - 1) n Hn) as Hmod.
    assert (Hq : 0 < (d - 1) / n) by (apply Z.div_str_pos; lia).
    destruct (Z.log2_spec _ Hq) as [Hlo Hhi].
    pose proof (Z.log2_nonneg ((d - 1) / n)) as HL.
    set (q := (d - 1) / n) in *. set (r := (d - 1) mod n) in *. set (L := Z.log2 q) in *.
    rewrite Z.max_r, Z.max_l by lia. rewrite Z.opp_involutive, Z.pow_0_r, Z.mul_1_r.
    clearbody q r L. nia.
Qed.

Lemma mag_lo n d :
  0 < n -> 0 < d ->
  d * 2 ^ Z.max 0 (F.mag n d - 1) <= n * 2 ^ Z.max 0 (1 - F.mag n d).
Proof.
  intros Hn Hd. unfold F.mag. destruct (Z.leb_spec d n) as [Hle|Hlt].
  - pose proof (Z.div_mod n d ltac:(lia)) as Hdiv.
    pose proof (Z.mod_pos_bound n d Hd) as Hmod.
    assert (Hq : 0 < n / d) by (apply Z.div_str_pos; lia).
    destruct (Z.log2_spec _ Hq) as [Hlo Hhi]. pose proof (Z.log2_nonneg (n / d)) as HL.
    set (q := n / d) in *. set (r := n mod d) in *. set (L := Z.log2 q) in *.
    rewrite Z.max_r, Z.max_l by lia. rewrite Z.pow_0_r, Z.mul_1_r.
    replace (L + 1 - 1) with L by lia. clearbody q r L. nia.
  - pose proof (Z.div_mod (d - 1) n ltac:(lia)) as Hdiv.
    pose proof (Z.mod_pos_bound (d - 1) n Hn) as Hmod.
    assert (Hq : 0 < (d - 1) / n) by (apply Z.div_str_pos; lia).
    destruct (Z.log2_spec _ Hq) as [Hlo Hhi].
    pose proof (Z.log2_nonneg ((d - 1) / n)) as HL.
    set (q := (d - 1) / n) in *. set (r := (d - 1) mod n) in *. set (L := Z.log2 q) in *.
    rewrite Z.max_l, Z.max_r by lia. rewrite Z.pow_0_r, Z.mul_1_r.
    replace (1 - - L) with (Z.succ L) by lia. clearbody q r L. nia.
Qed.

(** *** The mantissa of a rounded quotient *)

Lemma quotient_exponent_min n d : F.emin <= F.quotient_exponent n d.
Proof. unfold F.quotient_exponent. lia. Qed.

Lemma quotient_exponent_mono n1 n2 d :
  0 < d -> 0 < n1 -> n1 <= n2 ->
  F.quotient_exponent n1 d <= F.quotient_exponent n2 d.
Proof.
  intros Hd H1 H12. unfold F.quotient_exponent.
  pose proof (mag_mono n1 n2 d Hd H1 H12). lia.
Qed.

Lemma pow2_pos x : 0 < 2 ^ Z.max 0 x.
Proof. apply Z.pow_pos_nonneg; lia. Qed.

Lemma quotient_mantissa_le n d :
  0 < n -> 0 < d -> 0 <= F.quotient_mantissa n d <= 2 ^ F.prec.
Proof.
  intros Hn Hd. unfold F.quotient_mantissa. cbv zeta.
  set (e := F.quotient_exponent n d).
  pose proof (pow2_pos (- e)) as Hpa. pose proof (pow2_pos e) as Hpb.
  assert (HD : 0 < d * 2 ^ Z.max 0 e) by nia.
  split; [apply div_half_even_nonneg; nia|].
  apply Z.le_trans with (F.div_half_even (2 ^ F.prec * (d * 2 ^ Z.max 0 e))
                           (d * 2 ^ Z.max 0 e));
    [|rewrite div_half_even_exact by exact HD; lia].
  apply div_half_even_mono; [exact HD|].
  pose proof (mag_hi n d Hn Hd) as Hhi.
  assert (Hlt : n * 2 ^ Z.max 0 (- e) < d * 2 ^ (Z.max 0 e + F.prec)).
  { assert (Hside : Z.max 0 (F.mag n d) - Z.max 0 (- F.mag n d) <=
                    Z.max 0 e + F.prec - Z.max 0 (- e))
      by (unfold e, F.quotient_exponent, F.prec; lia).
    apply (pow_shift_lt n d (Z.max 0 (- F.mag n d)) (Z.max 0 (F.mag n d))
             (Z.max 0 (- e)) (Z.max 0 e + F.prec)); try assumption;
      unfold F.prec; lia. }
  rewrite Z.pow_add_r in Hlt by (unfold F.prec; lia). lia.
Qed.

Lemma quotient_mantissa_normal n d :
  0 < n -> 0 < d -> F.emin < F.quotient_exponent n d ->
  2 ^ (F.prec - 1) <= F.quotient_mantissa n d.
Proof.
  intros Hn Hd He. unfold F.quotient_mantissa. cbv zeta.
  set (e := F.quotient_exponent n d) in *.
  pose proof (pow2_pos (- e)) as Hpa. pose proof (pow2_pos e) as Hpb.
  assert (HD : 0 < d * 2 ^ Z.max 0 e) by nia.
  apply Z.le_trans with (F.div_half_even (2 ^ (F.prec - 1) * (d * 2 ^ Z.max 0 e))
                           (d * 2 ^ Z.max 0 e));
    [rewrite div_half_even_exact by exact HD; lia|].
  apply div_half_even_mono; [exact HD|].
  pose proof (mag_lo n d Hn Hd) as Hlo.
  assert (Hle : d * 2 ^ (Z.max 0 e + (F.prec - 1)) <= n * 2 ^ Z.max 0 (- e)).
  { assert (Hside : Z.max 0 e + (F.prec - 1) - Z.max 0 (- e) <=
                    Z.max 0 (F.mag n d - 1) - Z.max 0 (1 - F.mag n d))
      by (unfold e, F.quotient_exponent, F.emin, F.emax, F.prec in *; lia).
    apply (pow_shift_le n d (Z.max 0 (1 - F.mag n d)) (Z.max 0 (F.mag n d - 1))
             (Z.max 0 (- e)) (Z.max 0 e + (F.prec - 1))); try assumption;
      unfold F.prec; lia. }
  rewrite Z.pow_add_r in Hle by (unfold F.prec; lia). lia.
Qed.

Lemma quotient_mantissa_mono n1 n2 d :
  0 < d -> 0 < n1 -> n1 <= n2 ->
  F.quotient_exponent n1 d = F.quotient_exponent n2 d ->
  F.quotient_mantissa n1 d <= F.quotient_mantissa n2 d.
Proof.
  intros Hd H1 H12 He. unfold F.quotient_mantissa. cbv zeta. rewrite He.
  set (e := F.quotient_exponent n2 d).
  pose proof (pow2_pos (- e)) as Hpa. pose proof (pow2_pos e) as Hpb.
  apply div_half_even_mono; nia.
Qed.

(** The rounded quotient grows with the numerator: its exponent grows,
    and its mantissa grows while the exponent stays. *)
Lemma rounded_quotient_mono n1 n2 d :
  0 < d -> 0 < n1 -> n1 <= n2 ->
  F.rounded_exponent n1 d < F.rounded_exponent n2 d \/
  (F.rounded_exponent n1 d = F.rounded_exponent n2 d /\
   F.rounded_mantissa n1 d <= F.rounded_mantissa n2 d).
Proof.
  intros Hd H1 H12. unfold F.rounded_exponent, F.rounded_mantissa. cbv zeta.
  pose proof (quotient_exponent_mono n1 n2 d Hd H1 H12) as He.
  pose proof (quotient_exponent_min n1 d) as Hmin.
  pose proof (quotient_mantissa_le n1 d H1 Hd) as Hm1.
  pose proof (quotient_mantissa_le n2 d ltac:(lia) Hd) as Hm2.
  assert (Hpow : 2 ^ (F.prec - 1) < 2 ^ F.prec) by (apply Z.pow_lt_mono_r; unfold F.prec; lia).
  destruct (Z.eq_dec (F.quotient_exponent n1 d) (F.quotient_exponent n2 d)) as [Heq|Hne].
  - pose proof (quotient_mantissa_mono n1 n2 d Hd H1 H12 Heq) as Hm.
    destruct (Z.eqb_spec (F.quotient_mantissa n1 d) (2 ^ F.prec)),
             (Z.eqb_spec (F.quotient_mantissa n2 d) (2 ^ F.prec)); lia.
  - assert (Hn2 : 2 ^ (F.prec - 1) <= F.quotient_mantissa n2 d)
      by (apply quotient_mantissa_normal; lia).
    destruct (Z.eqb_spec (F.quotient_mantissa n1 d) (2 ^ F.prec)),
             (Z.eqb_spec (F.quotient_mantissa n2 d) (2 ^ F.prec)); lia.
Qed.

Lemma rounded_mantissa_zero n1 n2 d :
  0 < d -> 0 < n1 -> n1 <= n2 ->
  F.rounded_mantissa n2 d = 0 -> F.rounded_mantissa n1 d = 0.
Proof.
  intros Hd H1 H12. unfold F.rounded_mantissa. cbv zeta.
  pose proof (quotient_exponent_mono n1 n2 d Hd H1 H12) as He.
  pose proof (quotient_exponent_min n1 d) as Hmin.
  pose proof (quotient_mantissa_le n1 d H1 Hd) as Hm1.
  assert (Hpow : 0 < 2 ^ (F.prec - 1) < 2 ^ F.prec)
    by (split; [apply Z.pow_pos_nonneg|apply Z.pow_lt_mono_r]; unfold F.prec; lia).
  destruct (Z.eqb_spec (F.quotient_mantissa n2 d) (2 ^ F.prec)); [lia|]. intros H2.
  destruct (Z.eq_dec (F.quotient_exponent n2 d) F.emin) as [E2|N2].
  - pose proof (quotient_mantissa_mono n1 n2 d Hd H1 H12 ltac:(lia)) as Hm.
    destruct (Z.eqb_spec (F.quotient_mantissa n1 d) (2 ^ F.prec)); lia.
  - pose proof (quotient_exponent_min n2 d).
    pose proof (quotient_mantissa_normal n2 d ltac:(lia) Hd ltac:(lia)). lia.
Qed.

(** *** The order of rounded quotients *)

Lemma le_finite m1 e1 m2 e2 :
  0 < m1 -> 0 < m2 ->
  e1 < e2 \/ (e1 = e2 /\ m1 <= m2) ->
  F.le (S754_finite false (Z.to_pos m1) e1) (S754_finite false (Z.to_pos m2) e2) = true.
Proof.
  intros H1 H2 H. unfold F.le, SFcompare.
  destruct H as [Hlt|[-> Hle]].
  - apply Z.compare_lt_iff in Hlt. now rewrite Hlt.
  - rewrite Z.compare_refl.
    change (Pos.compare_cont Eq (Z.to_pos m1) (Z.to_pos m2))
      with (Pos.compare (Z.to_pos m1) (Z.to_pos m2)).
    destruct (Pos.compare_spec (Z.to_pos m1) (Z.to_pos m2)) as [E|E|E]; try reflexivity.
    apply Pos2Z.pos_lt_pos in E. rewrite !Z2Pos.id in E by lia. lia.
Qed.

Lemma div_round_mono n1 n2 d :
  0 < d -> 0 <= n1 -> n1 <= n2 ->
  F.le (F.div_round false n1 d) (F.div_round false n2 d) = true.
Proof.
  intros Hd H1 H12. unfold F.div_round. cbv zeta.
  destruct (Z.leb_spec n1 0) as [Hz1|Hp1].
  - destruct (n2 <=? 0); [reflexivity|].
    destruct (_ =? 0); [reflexivity|]. now destruct (_ <=? _).
  - destruct (Z.leb_spec n2 0); [lia|].
    pose proof (rounded_quotient_mono n1 n2 d Hd Hp1 H12) as Hlex.
    pose proof (rounded_mantissa_zero n1 n2 d Hd Hp1 H12) as Hzero.
    assert (Hnn : forall n, 0 < n -> 0 <= F.rounded_mantissa n d).
    { intros n Hn. unfold F.rounded_mantissa. cbv zeta.
      pose proof (quotient_mantissa_le n d Hn Hd).
      destruct (_ =? _); [apply Z.pow_nonneg|]; lia. }
    pose proof (Hnn n1 Hp1). pose proof (Hnn n2 ltac:(lia)).
    destruct (Z.eqb_spec (F.rounded_mantissa n1 d) 0) as [E1|N1].
    + destruct (_ =? 0); [reflexivity|]. now destruct (_ <=? _).
    + destruct (Z.eqb_spec (F.rounded_mantissa n2 d) 0) as [E2|N2]; [tauto|].
      destruct (Z.leb_spec (F.rounded_exponent n1 d) (F.emax - F.prec)),
               (Z.leb_spec (F.rounded_exponent n2 d) (F.emax - F.prec));
        try reflexivity; [apply le_finite; lia|lia].
Qed.

(** *** Valid binary64 values *)

Lemma digits2_size (p : positive) : digits2_pos p = Pos.size p.
Proof. induction p; simpl; congruence. Qed.

Lemma digits2_log2 (m : positive) : Z.pos (digits2_pos m) = Z.log2 (Z.pos m) + 1.
Proof. destruct m; simpl; rewrite ?digits2_size; lia. Qed.

Lemma valid_finite s m e :
  F.valid (S754_finite s m e) = true ->
  Z.max (Z.log2 (Z.pos m) + 1 + e - F.prec) F.emin = e /\ e <= F.emax - F.prec.
Proof.
  unfold F.valid, valid_binary, bounded, canonical_mantissa, fexp, emin.
  intros H. apply andb_prop in H as [H1 H2].
  apply Z.eqb_eq in H1. apply Z.leb_le in H2. rewrite digits2_log2 in H1.
  split; [exact H1|exact H2].
Qed.

Lemma valid_mantissa s m e :
  F.valid (S754_finite s m e) = true ->
  Z.pos m < 2 ^ F.prec /\ (F.emin < e -> 2 ^ (F.prec - 1) <= Z.pos m) /\
  F.emin <= e <= F.emax - F.prec.
Proof.
  intros H. apply valid_finite in H as [Hc He].
  destruct (Z.log2_spec (Z.pos m) ltac:(lia)) as [Hlo Hhi].
  pose proof (Z.log2_nonneg (Z.pos m)) as HL.
  unfold F.prec, F.emin, F.emax in *.
  split; [|split; [|lia]].
  - apply Z.lt_le_trans with (2 ^ Z.succ (Z.log2 (Z.pos m))); [exact Hhi|].
    apply Z.pow_le_mono_r; lia.
  - intros Hn. apply Z.le_trans with (2 ^ Z.log2 (Z.pos m)); [|exact Hlo].
    apply Z.pow_le_mono_r; lia.
Qed.

(** *** The sign of a rounded value *)

Lemma div_round_cases s n d :
  F.div_round s n d = S754_zero s \/ F.div_round s n d = S754_infinity s \/
  exists m e, F.div_round s n d = S754_finite s m e.
Proof.
  unfold F.div_round. destruct (n <=? 0); [now left|]. cbv zeta.
  destruct (F.rounded_mantissa n d =? 0); [now left|].
  destruct (_ <=? F.emax - F.prec); [right; right; eauto|now right; left].
Qed.

Lemma div_round_signed s n d : signed s (F.div_round s n d).
Proof.
  destruct (div_round_cases s n d) as [H|[H|(m & e & H)]]; now rewrite H.
Qed.

Lemma div_round_opp s n d : F.div_round (negb s) n d = SFopp (F.div_round s n d).
Proof.
  unfold F.div_round. destruct (n <=? 0); [reflexivity|]. cbv zeta.
  destruct (F.rounded_mantissa n d =? 0); [reflexivity|].
  now destruct (_ <=? F.emax - F.prec).
Qed.

Lemma round2_signed s x : signed s x -> signed s (F.round2 x).
Proof.
  destruct x as [s'|s'| |s' m e]; unfold F.round2; auto.
  intros H. simpl in H. subst s'. destruct (0 <=? e); [reflexivity|].
  apply div_round_signed.
Qed.

Lemma round2_opp x : F.round2 (SFopp x) = SFopp (F.round2 x).
Proof.
  destruct x as [s|s| |s m e]; try reflexivity. unfold F.round2, SFopp.
  destruct (0 <=? e); [reflexivity|]. apply div_round_opp.
Qed.

Lemma valid_opp x : F.valid (SFopp x) = F.valid x.
Proof. now destruct x. Qed.

(** *** The order of floats *)

Lemma le_opp x y : F.le (SFopp x) (SFopp y) = F.le y x.
Proof.
  unfold F.le.
  destruct x as [[]|[]| |[] m1 e1], y as [[]|[]| |[] m2 e2]; simpl;
    try reflexivity;
    rewrite (Z.compare_antisym e1 e2);
    destruct (e1 ?= e2); simpl; try reflexivity;
    change (Pos.compare_cont Eq m2 m1) with (Pos.compare m2 m1);
    change (Pos.compare_cont Eq m1 m2) with (Pos.compare m1 m2);
    rewrite (Pos.compare_antisym m1 m2); now destruct (m1 ?= m2)%positive.
Qed.

Lemma le_signed x y : signed true x -> signed false y -> F.le x y = true.
Proof.
  destruct x as [s1|s1| |s1 m1 e1], y as [s2|s2| |s2 m2 e2]; simpl;
    try contradiction; intros -> ->; reflexivity.
Qed.

Lemma le_signed_zero x y :
  signed false x -> signed true y -> F.le x y = true ->
  exists s1 s2, x = S754_zero s1 /\ y = S754_zero s2.
Proof.
  destruct x as [s1|s1| |s1 m1 e1], y as [s2|s2| |s2 m2 e2]; simpl;
    try contradiction; intros -> ->; try discriminate; eauto.
Qed.

(** *** Rounding to two decimals is monotone *)

Lemma div_round_exact s c m e :
  0 < c -> 0 <= e -> F.valid (S754_finite s m e) = true ->
  F.div_round s (c * Z.pos m * 2 ^ e) c = S754_finite s m e.
Proof.
  intros Hc He Hv. pose proof (valid_mantissa _ _ _ Hv) as (Hm & _ & Hmin & Hmax).
  apply valid_finite in Hv as [Hcan _].
  assert (Hp : 0 < 2 ^ e) by now apply Z.pow_pos_nonneg.
  assert (Hn : 0 < c * Z.pos m * 2 ^ e) by nia.
  assert (Hmag : F.mag (c * Z.pos m * 2 ^ e) c = Z.log2 (Z.pos m) + 1 + e).
  { assert (Hone : 1 <= Z.pos m * 2 ^ e) by nia.
    assert (Hge : c <= c * Z.pos m * 2 ^ e)
      by (replace (c * Z.pos m * 2 ^ e) with (c * (Z.pos m * 2 ^ e)) by lia; nia).
    unfold F.mag. destruct (Z.leb_spec c (c * Z.pos m * 2 ^ e)) as [_|Hlt]; [|lia].
    replace (c * Z.pos m * 2 ^ e) with (Z.pos m * 2 ^ e * c) by lia.
    rewrite Z.div_mul by lia. rewrite Z.log2_mul_pow2 by lia. lia. }
  assert (Hexp : F.quotient_exponent (c * Z.pos m * 2 ^ e) c = e)
    by (unfold F.quotient_exponent; now rewrite Hmag).
  assert (Hman : F.quotient_mantissa (c * Z.pos m * 2 ^ e) c = Z.pos m).
  { unfold F.quotient_mantissa. cbv zeta. rewrite Hexp.
    rewrite Z.max_l, Z.max_r by lia. rewrite Z.pow_0_r, Z.mul_1_r.
    replace (c * Z.pos m * 2 ^ e) with (Z.pos m * (c * 2 ^ e)) by lia.
    apply div_half_even_exact. nia. }
  unfold F.div_round, F.rounded_mantissa, F.rounded_exponent. cbv zeta.
  rewrite Hexp, Hman.
  destruct (Z.leb_spec (c * Z.pos m * 2 ^ e) 0); [lia|].
  destruct (Z.eqb_spec (Z.pos m) (2 ^ F.prec)); [lia|].
  destruct (Z.eqb_spec (Z.pos m) 0); [lia|].
  destruct (Z.leb_spec e (F.emax - F.prec)); [reflexivity|lia].
Qed.

Lemma round2_hundredths s m e :
  F.valid (S754_finite s m e) = true ->
  F.round2 (S754_finite s m e) = F.div_round s (hundredths m e) 100.
Proof.
  intros Hv. unfold F.round2, hundredths.
  destruct (Z.leb_spec 0 e) as [He|He]; [|reflexivity].
  symmetry. now apply div_round_exact.
Qed.

(** [hundredths] with the exact value written over a common power of
    two. *)
Lemma hundredths_scaled m e E :
  E <= e -> E <= 0 ->
  hundredths m e = F.div_half_even (100 * Z.pos m * 2 ^ (e - E)) (2 ^ (- E)).
Proof.
  intros HE H0. unfold hundredths.
  assert (Hd : 0 < 2 ^ (- E)) by (apply Z.pow_pos_nonneg; lia).
  destruct (Z.leb_spec 0 e) as [He|He].
  - replace (e - E) with (e + - E) by lia. rewrite Z.pow_add_r by lia.
    replace (100 * Z.pos m * (2 ^ e * 2 ^ (- E)))
      with (100 * Z.pos m * 2 ^ e * 2 ^ (- E)) by lia.
    now rewrite div_half_even_exact.
  - assert (Hc : 0 < 2 ^ (e - E)) by (apply Z.pow_pos_nonneg; lia).
    replace (2 ^ (- E)) with (2 ^ (- e) * 2 ^ (e - E))
      by (rewrite <- Z.pow_add_r by lia; f_equal; lia).
    rewrite div_half_even_scale; [reflexivity| |exact Hc].
    apply Z.pow_pos_nonneg; lia.
Qed.

Lemma hundredths_mono m1 e1 m2 e2 :
  F.valid (S754_finite false m1 e1) = true ->
  F.valid (S754_finite false m2 e2) = true ->
  F.le (S754_finite false m1 e1) (S754_finite false m2 e2) = true ->
  hundredths m1 e1 <= hundredths m2 e2.
Proof.
  intros H1 H2 Hle.
  pose proof (valid_mantissa _ _ _ H1) as (Hm1 & _ & Hmin1 & _).
  pose proof (valid_mantissa _ _ _ H2) as (_ & Hm2 & _ & _).
  set (E := Z.min (Z.min e1 e2) 0).
  rewrite (hundredths_scaled m1 e1 E), (hundredths_scaled m2 e2 E) by (unfold E; lia).
  apply div_half_even_mono; [apply Z.pow_pos_nonneg; unfold E; lia|].
  assert (Hp1 : 0 < 2 ^ (e1 - E)) by (apply Z.pow_pos_nonneg; unfold E; lia).
  unfold F.le, SFcompare in Hle.
  destruct (Z.compare_spec e1 e2) as [Heq|Hlt|Hgt]; [| |discriminate].
  - subst e2. change (Pos.compare_cont Eq m1 m2) with (Pos.compare m1 m2) in Hle.
    destruct (Pos.compare_spec m1 m2) as [E'|E'|E']; try discriminate.
    + subst. lia.
    + apply Pos2Z.pos_lt_pos in E'. nia.
  - specialize (Hm2 ltac:(lia)).
    assert (Hpow : 2 * 2 ^ (e1 - E) <= 2 ^ (e2 - E)).
    { replace (2 * 2 ^ (e1 - E)) with (2 ^ (e1 - E + 1))
        by (rewrite Z.pow_add_r by (unfold E; lia); lia).
      apply Z.pow_le_mono_r; unfold E; lia. }
    assert (Hhalf : 2 ^ F.prec = 2 * 2 ^ (F.prec - 1))
      by (unfold F.prec; reflexivity).
    nia.
Qed.

Lemma hundredths_nonneg m e : 0 <= hundredths m e.
Proof.
  unfold hundredths. destruct (Z.leb_spec 0 e).
  - assert (0 < 2 ^ e) by now apply Z.pow_pos_nonneg. nia.
  - apply div_half_even_nonneg; [lia|]. apply Z.pow_pos_nonneg; lia.
Qed.

Lemma round2_mono_nonneg x y :
  signed false x -> signed false y ->
  F.valid x = true -> F.valid y = true ->
  F.le x y = true -> F.le (F.round2 x) (F.round2 y) = true.
Proof.
  intros Sx Sy Vx Vy Hle.
  destruct y as [s2|s2| |s2 m2 e2]; simpl in Sy; try contradiction; subst.
  - destruct x as [s1|s1| |s1 m1 e1]; simpl in Sx; try contradiction; subst;
      [reflexivity|discriminate|discriminate].
  - pose proof (round2_signed false x Sx) as S.
    unfold F.round2 at 2. now destruct (F.round2 x) as [?|[]| |[] ? ?].
  - destruct x as [s1|s1| |s1 m1 e1]; simpl in Sx; try contradiction; subst.
    + rewrite (round2_hundredths _ _ _ Vy).
      change (F.round2 (S754_zero false)) with (F.div_round false 0 100).
      apply div_round_mono; [lia|lia|apply hundredths_nonneg].
    + discriminate.
    + rewrite (round2_hundredths _ _ _ Vx), (round2_hundredths _ _ _ Vy).
      apply div_round_mono; [lia|apply hundredths_nonneg|now apply hundredths_mono].
Qed.

(** [round(x, 2)] is monotone on the binary64 values. *)
Lemma round2_mono x y :
  F.valid x = true -> F.valid y = true ->
  F.le x y = true -> F.le (F.round2 x) (F.round2 y) = true.
Proof.
  intros Vx Vy Hle.
  assert (Hsx : exists s, signed s x)
    by (destruct x as [s|s| |s m e]; simpl; eauto; discriminate).
  assert (Hsy : exists s, signed s y)
    by (destruct y as [s|s| |s m e], x as [?|?| |? ? ?]; simpl; eauto; discriminate).
  destruct Hsx as [[] Sx], Hsy as [[] Sy].
  - rewrite <- le_opp, <- !round2_opp.
    rewrite <- le_opp in Hle.
    apply round2_mono_nonneg; try (now rewrite valid_opp); try exact Hle.
    + destruct y as [s|s| |s m e]; simpl in *; subst; try contradiction; reflexivity.
    + destruct x as [s|s| |s m e]; simpl in *; subst; try contradiction; reflexivity.
  - apply le_signed; now apply round2_signed.
  - destruct (le_signed_zero x y Sx Sy Hle) as (s1 & s2 & -> & ->). reflexivity.
  - now apply round2_mono_nonneg.
Qed.

Set Implicit Arguments.

(** ** Facts about dictionaries *)

Section DictFacts.

Context {V : Type}.
Implicit Types (d : dict V) (k : string) (v : V).

Lemma dict_get_set_same k v d : dict_get k (dict_set k v d) = Some v.
Proof.
  induction d as [|[k' v'] d IH]; simpl.
  - now rewrite String.eqb_refl.
  - destruct (String.eqb k k') eqn:E; simpl.
    + now rewrite String.eqb_refl.
    + now rewrite E.
Qed.

Lemma dict_get_set_other k k' v d :
  k' <> k -> dict_get k' (dict_set k v d) = dict_get k' d.
Proof.
  intros Hne. induction d as [|[k0 v0] d IH]; simpl.
  - apply String.eqb_neq in Hne. now rewrite Hne.
  - destruct (String.eqb k k0) eqn:E; simpl.
    + apply String.eqb_eq in E. subst k0.
      apply String.eqb_neq in Hne. now rewrite Hne.
    + now rewrite IH.
Qed.

Lemma dict_get_set k k' v d :
  dict_get k' (dict_set k v d) = if String.eqb k' k then Some v else dict_get k' d.
Proof.
  destruct (String.eqb_spec k' k) as [->|Hne].
  - apply dict_get_set_same.
  - now apply dict_get_set_other.
Qed.

Lemma dict_get_some_in k v d : dict_get k d = Some v -> In (k, v) d.
Proof.
  induction d as [|[k' v'] d IH]; simpl; [discriminate|].
  destruct (String.eqb_spec k k') as [->|Hne].
  - intros [= ->]. now left.
  - intros H. right. now apply IH.
Qed.

Lemma dict_get_none_keys k d : dict_get k d = None <-> ~ In k (dict_keys d).
Proof.
  induction d as [|[k' v'] d IH]; simpl.
  - tauto.
  - destruct (String.eqb_spec k k') as [->|Hne].
    + split; [discriminate|]. intros H. exfalso. apply H. now left.
    + rewrite IH. split; [intros H [E|H']; [congruence|tauto]|tauto].
Qed.

Lemma dict_in_get k v d : NoDup (dict_keys d) -> In (k, v) d -> dict_get k d = Some v.
Proof.
  induction d as [|[k' v'] d IH]; simpl; [tauto|].
  intros Hnd [E|Hin].
  - inversion E; subst. now rewrite String.eqb_refl.
  - inversion Hnd as [|? ? Hnotin Hnd']; subst.
    destruct (String.eqb_spec k k') as [->|Hne].
    + exfalso. apply Hnotin. change k' with (fst (k', v)). now apply in_map.
    + now apply IH.
Qed.

Lemma dict_keys_set_mem k v v0 d :
  dict_get k d = Some v0 -> dict_keys (dict_set k v d) = dict_keys d.
Proof.
  induction d as [|[k' v'] d IH]; simpl; [discriminate|].
  destruct (String.eqb_spec k k') as [->|Hne]; simpl.
  - reflexivity.
  - intros H. now rewrite IH.
Qed.

Lemma dict_keys_set_new k v d :
  dict_get k d = None -> dict_keys (dict_set k v d) = (dict_keys d ++ [k])%list.
Proof.
  induction d as [|[k' v'] d IH]; simpl; [reflexivity|].
  destruct (String.eqb_spec k k') as [->|Hne]; simpl.
  - discriminate.
  - intros H. now rewrite IH.
Qed.

Lemma dict_set_nodup k v d : NoDup (dict_keys d) -> NoDup (dict_keys (dict_set k v d)).
Proof.
  intros Hnd. destruct (dict_get k d) eqn:E.
  - now erewrite dict_keys_set_mem by eassumption.
  - erewrite dict_keys_set_new by eassumption.
    apply NoDup_app; [assumption|repeat constructor; simpl; tauto|].
    intros x Hx [<-|[]]. now apply dict_get_none_keys in E.
Qed.

End DictFacts.

(** ** Facts about the order of numbers *)

Lemma SFcompare_antisym (x y : float) :
  SFcompare y x = option_map CompOpp (SFcompare x y).
Proof.
  destruct x as [sx|sx| |sx mx ex], y as [sy|sy| |sy my ey]; simpl;
    try reflexivity;
    try (destruct sx; reflexivity); try (destruct sy; reflexivity);
    try (destruct sx, sy; reflexivity).
  destruct sx, sy; simpl; try reflexivity;
    rewrite (Z.compare_antisym ex ey); destruct (ex ?= ey); simpl;
    try reflexivity;
    rewrite ?CompOpp_involutive, Pos.compare_cont_antisym; reflexivity.
Qed.

Lemma SFcompare_refl (x : float) : x <> S754_nan -> SFcompare x x = Some Eq.
Proof.
  destruct x as [s|s| |s m e]; simpl; intros H; try congruence.
  - now destruct s.
  - rewrite Z.compare_refl.
    change (Pos.compare_cont Eq m m) with (Pos.compare m m).
    rewrite Pos.compare_refl. now destruct s.
Qed.

Lemma SFcompare_some (x y : float) :
  x <> S754_nan -> y <> S754_nan -> exists c, SFcompare x y = Some c.
Proof.
  destruct x, y; simpl; intros; try congruence; eauto.
Qed.

Lemma py_compare_antisym (a b : pynum) :
  py_compare b a = option_map CompOpp (py_compare a b).
Proof.
  destruct a as [x|x], b as [y|y]; simpl.
  - now rewrite (Z.compare_antisym x y).
  - reflexivity.
  - destruct (Zfcompare y x) as [[]|]; reflexivity.
  - apply SFcompare_antisym.
Qed.

Lemma Zfcompare_some (z : Z) (x : float) :
  x <> S754_nan -> exists c, Zfcompare z x = Some c.
Proof.
  destruct x; simpl; intros; try congruence; eauto.
Qed.

Lemma py_compare_some (a b : pynum) :
  py_is_nan a = false -> py_is_nan b = false -> exists c, py_compare a b = Some c.
Proof.
  destruct a as [x|x], b as [y|y]; simpl; intros Ha Hb.
  - eauto.
  - apply Zfcompare_some. now destruct y.
  - destruct (@Zfcompare_some y x) as [c ->]; [now destruct x|]. simpl. eauto.
  - apply SFcompare_some; [now destruct x|now destruct y].
Qed.

Lemma py_compare_nan (a b : pynum) c :
  py_compare a b = Some c -> py_is_nan a = false /\ py_is_nan b = false.
Proof.
  destruct a as [x|x], b as [y|y]; simpl; intros H; auto.
  - now destruct y.
  - now destruct x.
  - destruct x, y; simpl in *; auto; discriminate.
Qed.

Lemma py_compare_refl (a : pynum) : py_is_nan a = false -> py_compare a a = Some Eq.
Proof.
  destruct a as [x|x]; simpl; intros H.
  - now rewrite Z.compare_refl.
  - apply SFcompare_refl. now destruct x.
Qed.

Lemma py_le_refl (a : pynum) : py_is_nan a = false -> py_le a a = true.
Proof. intros H. unfold py_le. now rewrite py_compare_refl. Qed.

Lemma py_gt_le (a b : pynum) : py_gt b a = true -> py_le a b = true.
Proof.
  unfold py_gt, py_le. rewrite (py_compare_antisym b a).
  destruct (py_compare b a) as [[]|]; simpl; congruence.
Qed.

Lemma py_not_lt_le (a b : pynum) :
  py_is_nan a = false -> py_is_nan b = false -> py_lt b a = false -> py_le a b = true.
Proof.
  intros Ha Hb. unfold py_lt, py_le. rewrite (py_compare_antisym b a).
  destruct (py_compare_some _ _ Hb Ha) as [c ->]. destruct c; simpl; congruence.
Qed.

(** [max(lo, min(x, hi))] lies between [lo] and [hi] as soon as
    [lo <= hi], whatever [x] is (a NaN included). *)
Lemma clamp_between (lo x hi : pynum) :
  py_le lo hi = true ->
  py_le lo (py_max lo (py_min x hi)) = true /\
  py_le (py_max lo (py_min x hi)) hi = true.
Proof.
  intros Hle.
  assert (Hnan : py_is_nan lo = false /\ py_is_nan hi = false).
  { unfold py_le in Hle. destruct (py_compare lo hi) eqn:E; [|discriminate].
    eapply py_compare_nan; eauto. }
  destruct Hnan as [Hlo Hhi].
  unfold py_max. destruct (py_gt (py_min x hi) lo) eqn:Hgt.
  - split; [now apply py_gt_le|].
    unfold py_min in *. destruct (py_lt hi x) eqn:Hlt.
    + now apply py_le_refl.
    + apply py_not_lt_le; auto.
      unfold py_gt in Hgt. destruct (py_compare x lo) eqn:E; [|discriminate].
      now apply py_compare_nan in E.
  - split; [now apply py_le_refl|assumption].
Qed.

(** ** Facts about the names of the log files *)

Lemma to_int_normal (z : Z) :
  Z.to_int z <> Decimal.Pos Decimal.Nil /\ Z.to_int z <> Decimal.Neg Decimal.Nil.
Proof.
  assert (E : Z.to_int z = Decimal.norm (Z.to_int z))
    by (now rewrite <- DecimalZ.to_of, DecimalZ.of_to).
  rewrite E. destruct (Z.to_int z) as [u|u]; simpl.
  - split; [|discriminate]. intros [= H]. now apply DecimalFacts.unorm_nonnil in H.
  - destruct (Decimal.nzhead u); split; discriminate.
Qed.

Lemma of_int_inj (z1 z2 : Z) : PyStr.of_int z1 = PyStr.of_int z2 -> z1 = z2.
Proof.
  unfold PyStr.of_int. intros H. apply DecimalZ.to_int_inj.
  assert (Hp : forall z,
             NilZero.int_of_string (NilZero.string_of_int (Z.to_int z)) =
             Some (Z.to_int z)).
  { intros z. apply NilZero.isi; apply to_int_normal. }
  pose proof (Hp z1) as H1. rewrite H, Hp in H1. congruence.
Qed.

Lemma append_length (a b : string) :
  String.length (a ++ b) = (String.length a + String.length b)%nat.
Proof. induction a; simpl; congruence. Qed.

Lemma append_inj_r (s a b : string) : a ++ s = b ++ s -> a = b.
Proof.
  revert b. induction a as [|c a IH]; intros [|c' b] H; simpl in *.
  - reflexivity.
  - apply (f_equal String.length) in H. simpl in H. rewrite append_length in H. lia.
  - apply (f_equal String.length) in H. simpl in H. rewrite append_length in H. lia.
  - injection H as -> H. f_equal. now apply IH.
Qed.

(** Different days are logged under different names. *)
Lemma log_file_inj (d1 d2 : Z) : log_file d1 = log_file d2 -> d1 = d2.
Proof.
  unfold log_file. intros H. simpl in H. injection H as H.
  apply append_inj_r, of_int_inj in H. lia.
Qed.

Lemma py_range_nodup (n : Z) : NoDup (py_range n).
Proof.
  unfold py_range. apply Injective_map_NoDup.
  - intros a b. apply Nat2Z.inj.
  - apply seq_NoDup.
Qed.

Lemma log_files_nodup (n : Z) : NoDup (map log_file (py_range n)).
Proof.
  apply Injective_map_NoDup; [exact log_file_inj|apply py_range_nodup].
Qed.

(** ** Facts about sorting *)

Lemma insert_sorted_perm (x : string) (l : list string) :
  Permutation (x :: l) (insert_sorted x l).
Proof.
  induction l as [|y l IH]; simpl; [reflexivity|].
  destruct (String.leb x y); [reflexivity|].
  rewrite perm_swap. now apply perm_skip.
Qed.

Lemma py_sort_perm (l : list string) : Permutation l (py_sort l).
Proof.
  induction l as [|x l IH]; simpl; [constructor|].
  rewrite <- insert_sorted_perm. now apply perm_skip.
Qed.

Lemma insert_sorted_hdrel (a x : string) (l : list string) :
  HdRel str_le a l -> str_le a x -> HdRel str_le a (insert_sorted x l).
Proof.
  intros Hl Hx. destruct l as [|y l]; simpl; [now constructor|].
  destruct (String.leb x y); constructor; [exact Hx|now inversion Hl].
Qed.

Lemma insert_sorted_sorted (x : string) (l : list string) :
  Sorted str_le l -> Sorted str_le (insert_sorted x l).
Proof.
  induction 1 as [|y l Hs IH Hhd]; simpl; [repeat constructor|].
  destruct (String.leb x y) eqn:E.
  - constructor; [now constructor|constructor; exact E].
  - constructor; [exact IH|].
    apply insert_sorted_hdrel; [exact Hhd|].
    destruct (String.leb_total x y) as [H|H]; [congruence|exact H].
Qed.

(** The files are processed in ascending order of their names as
    strings. *)
Lemma py_sort_sorted (l : list string) : Sorted str_le (py_sort l).
Proof.
  induction l as [|x l IH]; simpl; [constructor|now apply insert_sorted_sorted].
Qed.

(** ** The conversions on examples *)

(** [round(0.125, 2)] is [0.12] and [round(0.375, 2)] is [0.38]: both are
    exact ties, which go to the even digit. *)
Example round2_ties_to_even :
  F.round2 (F.of_dec 125 3) = F.of_dec 12 2 /\
  F.round2 (F.of_dec 375 3) = F.of_dec 38 2.
Proof. by_eval. Qed.

(** [round(2.675, 2)] is [2.67] and [round(0.005, 2)] is [0.01]: the
    floats nearest to 2.675 and 0.005 lie below and above the tie. *)
Example round2_of_binary_value :
  F.round2 (F.of_dec 2675 3) = F.of_dec 267 2 /\
  F.round2 (F.of_dec 5 3) = F.of_dec 1 2 /\
  F.round2 (F.of_dec (-1) 3) = S754_zero true.
Proof. by_eval. Qed.

(** On the sample quotients [F.div_round] is the division of [SpecFloat]
    followed by its rounding. *)
Example div_round_is_specfloat_division :
  map (fun nd => F.div_round false (fst nd) (snd nd)) sample_quotients =
  map (fun nd => F.div_round_ref false (fst nd) (snd nd)) sample_quotients /\
  map (fun n => F.div_round true n 100) sample_numerators =
  map (fun n => F.div_round_ref true n 100) sample_numerators.
Proof. by_eval. Qed.

Example literals_are_binary64 :
  forallb F.valid
    [F.of_dec 125 3; F.of_dec 12 2; F.of_dec (-73) 1; F.of_dec 5 1; F.of_Z 1440] =
  true.
Proof. by_eval. Qed.

Example int_of_float :
  py_int (PyFloat (F.of_dec (-73) 1)) = Ok (-7) /\
  py_int (PyFloat (F.of_dec 79 1)) = Ok 7 /\
  py_int (PyFloat F.inf) = Raise OverflowError /\
  py_int (PyFloat F.nan) = Raise ValueError.
Proof. by_eval. Qed.

Example min_max_of_nan :
  py_min (PyFloat F.nan) (PyFloat (F.of_Z 10)) = PyFloat F.nan /\
  py_max (PyInt 0) (PyFloat F.nan) = PyInt 0.
Proof. by_eval. Qed.

Example split_fields :
  PyStr.split ":" "Logins:D:0::2" = ["Logins"; "D"; "0"; ""; "2"] /\
  PyStr.split ":" "" = [""].
Proof. by_eval. Qed.

(** A negative count: [lines[1:-1]]. *)
Example slice_negative_stop :
  py_slice ["-2"; "a"; "b"; "c"] 1 (-2 + 1) = ["a"; "b"].
Proof. by_eval. Qed.

(** ** Properties of the program *)

Section Properties.

Variable float_of_str : string -> option float.
Variable int_of_str : string -> option Z.
Variable Rng : Type.
Variable gauss : Rng -> float -> float -> float * Rng.
Variable pow2 : float -> float.

Local Abbreviation World := (World Rng).
Local Abbreviation M := (M Rng).
Local Abbreviation py_pow2 := (py_pow2 pow2).
Local Abbreviation event_baseline := (event_baseline pow2).
Local Abbreviation add_baseline := (add_baseline pow2).
Local Abbreviation analyze_stats := (analyze_stats pow2).
Local Abbreviation baselines := (baselines pow2).
Local Abbreviation analysis := (analysis pow2).
Local Abbreviation spec_variance := (spec_variance pow2).
Local Abbreviation spec_std_dev := (spec_std_dev pow2).

Set Default Proof Using "Type".

Implicit Types (w : World).

Local Abbreviation day_record := (day_record gauss).
Local Abbreviation is_draw := (is_draw gauss).
Local Abbreviation draws := (draws gauss).
Local Abbreviation run_draws := (run_draws gauss).
Local Abbreviation run_safe := (run_safe gauss).
Local Abbreviation parse_event_line := (parse_event_line float_of_str int_of_str).
Local Abbreviation parse_statistics_line := (parse_statistics_line float_of_str).
Local Abbreviation record_lines := (record_lines int_of_str).
Local Abbreviation accepted := (accepted int_of_str).

(** *** Loops *)

Lemma fold_each_app {X S : Type} (l1 l2 : list X) (acc : S) (body : S -> X -> M S) w :
  fold_each (l1 ++ l2)%list acc body w =
  match fold_each l1 acc body w with
  | (Ok acc', w') => fold_each l2 acc' body w'
  | (Raise e, w') => (Raise e, w')
  end.
Proof.
  revert acc w. induction l1 as [|x l1 IH]; intros acc w; simpl.
  - reflexivity.
  - unfold bind. destruct (body acc x w) as [[acc'|e] w']; [apply IH|reflexivity].
Qed.

Lemma for_each_app {X : Type} (l1 l2 : list X) (body : X -> M unit) w :
  for_each (l1 ++ l2)%list body w =
  match for_each l1 body w with
  | (Ok _, w') => for_each l2 body w'
  | (Raise e, w') => (Raise e, w')
  end.
Proof.
  revert w. induction l1 as [|x l1 IH]; intros w; simpl.
  - reflexivity.
  - unfold bind. destruct (body x w) as [[[]|e] w']; [apply IH|reflexivity].
Qed.

(** A set of worlds that every iteration stays in is never left by the
    loop, whether it completes or raises. *)
Lemma for_each_invariant {X : Type} (P : World -> Prop) (body : X -> M unit)
  (l : list X) :
  (forall x w, P w -> P (snd (body x w))) ->
  forall w, P w -> P (snd (for_each l body w)).
Proof.
  intros Hbody. induction l as [|x l IH]; intros w Hw; simpl; [exact Hw|].
  unfold bind. pose proof (Hbody x w Hw) as Hx.
  destruct (body x w) as [[[]|e] w']; simpl in *; [now apply IH|exact Hx].
Qed.

(** A relation between worlds that every iteration respects is
    respected by the loop, whether it completes or raises. *)
Lemma fold_each_preserves {X S : Type} (R : World -> World -> Prop)
  (body : S -> X -> M S) (l : list X) :
  (forall w, R w w) ->
  (forall w1 w2 w3, R w1 w2 -> R w2 w3 -> R w1 w3) ->
  (forall acc x w, In x l -> R w (snd (body acc x w))) ->
  forall acc w, R w (snd (fold_each l acc body w)).
Proof.
  intros Hrefl Htrans. induction l as [|x l IH]; intros Hbody acc w; simpl.
  - apply Hrefl.
  - unfold bind. pose proof (Hbody acc x w (or_introl eq_refl)) as Hx.
    destruct (body acc x w) as [[acc'|e] w']; simpl in *.
    + eapply Htrans; [exact Hx|]. apply IH. intros; apply Hbody. now right.
    + exact Hx.
Qed.

(** An iteration that raises in every world of an invariant set makes
    the loop raise from any such world. *)
Lemma fold_each_raises {X S : Type} (P : World -> Prop)
  (body : S -> X -> M S) (l : list X) (x : X) :
  In x l ->
  (forall acc y w, P w -> P (snd (body acc y w))) ->
  (forall acc w, P w -> exists e, fst (body acc x w) = Raise e) ->
  forall acc w, P w -> exists e, fst (fold_each l acc body w) = Raise e.
Proof.
  intros Hin Hinv Hx. induction l as [|y l IH]; [contradiction|].
  intros acc w Hw. simpl. unfold bind.
  pose proof (Hinv acc y w Hw) as Hw'.
  destruct Hin as [->|Hin].
  - destruct (Hx acc w Hw) as [e He].
    destruct (body acc x w) as [[acc'|e'] w']; simpl in *; [discriminate|eauto].
  - destruct (body acc y w) as [[acc'|e'] w']; simpl in *; [now apply IH|eauto].
Qed.

(** *** Sampling one value *)

Lemma same_but_rng_refl w : same_but_rng w w.
Proof. now repeat split. Qed.

Lemma same_but_rng_trans w1 w2 w3 :
  same_but_rng w1 w2 -> same_but_rng w2 w3 -> same_but_rng w1 w3.
Proof.
  unfold same_but_rng. intros (A1 & A2 & A3 & A4 & A5) (B1 & B2 & B3 & B4 & B5).
  repeat split; congruence.
Qed.

Lemma sample_value_result event_info mean std_dev w :
  fst (sample_value gauss event_info mean std_dev w) =
  clamped_value event_info (fst (gauss (rng w) mean std_dev)).
Proof.
  unfold sample_value, clamped_value, bind, lift, ret, random_gauss.
  destruct (String.eqb (e_type event_info) "C").
  - destruct (gauss (rng w) mean std_dev) as [g r]. reflexivity.
  - destruct (py_int (e_min event_info)) as [lo|e]; [|reflexivity].
    destruct (gauss (rng w) mean std_dev) as [g r]. cbn [fst rbind].
    destruct (py_int (PyFloat g)) as [gi|e]; [|reflexivity].
    destruct (py_int (PyFloat (e_max event_info))) as [hi|e]; reflexivity.
Qed.

Lemma sample_value_world event_info mean std_dev w :
  same_but_rng w (snd (sample_value gauss event_info mean std_dev w)).
Proof.
  unfold sample_value, bind, lift, ret, random_gauss.
  destruct (String.eqb (e_type event_info) "C").
  - destruct (gauss (rng w) mean std_dev) as [g r]. now repeat split.
  - destruct (py_int (e_min event_info)) as [lo|e]; [|now repeat split].
    destruct (gauss (rng w) mean std_dev) as [g r].
    destruct (py_int (PyFloat g)) as [gi|e]; [|now repeat split].
    destruct (py_int (PyFloat (e_max event_info))) as [hi|e]; now repeat split.
Qed.

(** *** Sampling one day *)

Lemma sample_event_result daily_events item w :
  fst (sample_event gauss daily_events item w) =
  match dict_get (fst item) (statistics w) with
  | Some st =>
      rbind (clamped_value (snd item)
               (fst (gauss (rng w) (s_mean st) (s_std_dev st))))
        (fun value => Ok (dict_set (fst item) value daily_events))
  | None => Ok daily_events
  end.
Proof.
  unfold sample_event, bind, get, ret.
  destruct (dict_get (fst item) (statistics w)) as [st|]; [|reflexivity].
  rewrite <- sample_value_result.
  destruct (sample_value gauss (snd item) (s_mean st) (s_std_dev st) w) as [[v|e] w'];
    reflexivity.
Qed.

Lemma sample_event_world daily_events item w :
  same_but_rng w (snd (sample_event gauss daily_events item w)).
Proof.
  unfold sample_event, bind, get, ret.
  destruct (dict_get (fst item) (statistics w)) as [st|]; [|apply same_but_rng_refl].
  pose proof (sample_value_world (snd item) (s_mean st) (s_std_dev st) w) as H.
  destruct (sample_value gauss (snd item) (s_mean st) (s_std_dev st) w) as [[v|e] w'];
    exact H.
Qed.

Lemma sample_loop_world l daily_events w :
  same_but_rng w (snd (fold_each l daily_events (sample_event gauss) w)).
Proof.
  apply fold_each_preserves.
  - apply same_but_rng_refl.
  - apply same_but_rng_trans.
  - intros; apply sample_event_world.
Qed.

Lemma sample_day_world day w : same_but_rng w (snd (sample_day gauss day w)).
Proof. unfold sample_day, bind, get. apply sample_loop_world. Qed.

(** After the loop over the items [l], a key that is not sampled keeps
    what the record held, and a sampled key holds the clamped value of
    some draw. *)
Lemma sample_loop_spec l :
  forall daily_events w r,
    fst (fold_each l daily_events (sample_event gauss) w) = Ok r ->
    (forall name, ~ joined l (statistics w) name ->
       dict_get name r = dict_get name daily_events) /\
    (NoDup (dict_keys l) ->
     forall name event_info, In (name, event_info) l ->
       dict_mem name (statistics w) = true ->
       exists g v,
         is_draw w name g /\ clamped_value event_info g = Ok v /\
         dict_get name r = Some v).
Proof.
  induction l as [|[n i] l IH]; intros daily w r; simpl.
  - intros [= <-]. split; [reflexivity|]. intros _ name info [].
  - unfold bind.
    pose proof (sample_event_result daily (n, i) w) as Hres.
    pose proof (sample_event_world daily (n, i) w) as (_ & Hst & _).
    destruct (sample_event gauss daily (n, i) w) as [[daily'|e] w'];
      simpl in Hres, Hst; [|discriminate].
    intros Hr. destruct (IH _ _ _ Hr) as [IHa IHb]. unfold is_draw in IHb.
    rewrite Hst in IHa, IHb.
    assert (Hstep : forall name, name <> n \/ dict_mem n (statistics w) = false ->
                      dict_get name daily' = dict_get name daily).
    { intros name Hname. unfold dict_mem in Hname.
      destruct (dict_get n (statistics w)) as [st|].
      - destruct (clamped_value i _) as [v|]; [|discriminate].
        injection Hres as ->. apply dict_get_set_other.
        destruct Hname as [H|H]; [exact H|discriminate].
      - now injection Hres as ->. }
    split.
    + intros name Hnot. rewrite IHa.
      * apply Hstep. destruct (String.eqb_spec name n) as [->|Hne]; [|now left].
        right. destruct (dict_mem n (statistics w)) eqn:E; [|reflexivity].
        exfalso. apply Hnot. split; [now left|exact E].
      * intros [Hin Hmem]. apply Hnot. split; [now right|exact Hmem].
    + intros Hnd name info Hin Hmem. inversion Hnd as [|? ? Hnotin Hnd']; subst.
      destruct Hin as [E|Hin].
      * injection E as -> ->.
        assert (Hkeep : dict_get name r = dict_get name daily').
        { apply IHa. intros [Hin' _]. contradiction. }
        unfold dict_mem in Hmem.
        destruct (dict_get name (statistics w)) as [st|] eqn:Est; [|discriminate].
        destruct (clamped_value info _) as [v|] eqn:Ev; [|discriminate].
        injection Hres as ->. exists (fst (gauss (rng w) (s_mean st) (s_std_dev st))), v.
        split; [now exists st, (rng w)|].
        split; [exact Ev|]. rewrite Hkeep. apply dict_get_set_same.
      * eapply IHb; eauto.
Qed.

(** *** What a stored value satisfies *)

Lemma py_max_int (a b : Z) : py_max (PyInt a) (PyInt b) = PyInt (Z.max a b).
Proof.
  unfold py_max, py_gt. simpl. unfold Z.max.
  rewrite (Z.compare_antisym b a). now destruct (b ?= a).
Qed.

Lemma py_min_int (a b : Z) : py_min (PyInt a) (PyInt b) = PyInt (Z.min a b).
Proof.
  unfold py_min, py_lt. simpl. unfold Z.min.
  rewrite (Z.compare_antisym b a). now destruct (b ?= a).
Qed.

(** Comparing a float with growing integers. *)
Lemma py_le_float_int_mono (a : pynum) (z1 z2 : Z) :
  z1 <= z2 -> py_le a (PyInt z1) = true -> py_le a (PyInt z2) = true.
Proof.
  intros Hz. destruct a as [x|x]; unfold py_le; simpl.
  - destruct (x ?= z1) eqn:E1; try discriminate; intros _;
      destruct (x ?= z2) eqn:E2; try reflexivity;
      rewrite ?Z.compare_eq_iff, ?Z.compare_lt_iff, ?Z.compare_gt_iff in *; lia.
  - destruct x as [s|s| |s m e]; simpl; try discriminate.
    + destruct (z1 ?= 0) eqn:E1; simpl; try discriminate; intros _;
        destruct (z2 ?= 0) eqn:E2; simpl; try reflexivity;
        rewrite ?Z.compare_eq_iff, ?Z.compare_lt_iff, ?Z.compare_gt_iff in *; lia.
    + now destruct s.
    + assert (Hp : 0 < 2 ^ (- e) \/ e >= 0)
        by (destruct (Z_lt_le_dec e 0); [left; apply Z.pow_pos_nonneg; lia|right; lia]).
      destruct (0 <=? e) eqn:Ee.
      * destruct (z1 ?= _) eqn:E1; simpl; try discriminate; intros _;
          destruct (z2 ?= _) eqn:E2; simpl; try reflexivity;
          rewrite ?Z.compare_eq_iff, ?Z.compare_lt_iff, ?Z.compare_gt_iff in *; lia.
      * apply Z.leb_gt in Ee. destruct Hp as [Hp|Hp]; [|lia].
        destruct (z1 * _ ?= _) eqn:E1; simpl; try discriminate; intros _;
          destruct (z2 * _ ?= _) eqn:E2; simpl; try reflexivity;
          rewrite ?Z.compare_eq_iff, ?Z.compare_lt_iff, ?Z.compare_gt_iff in *; nia.
Qed.

Lemma py_le_int_float_mono (a : pynum) (z1 z2 : Z) :
  z1 <= z2 -> py_le (PyInt z2) a = true -> py_le (PyInt z1) a = true.
Proof.
  intros Hz. destruct a as [x|x]; unfold py_le; simpl.
  - destruct (z2 ?= x) eqn:E1; try discriminate; intros _;
      destruct (z1 ?= x) eqn:E2; try reflexivity;
      rewrite ?Z.compare_eq_iff, ?Z.compare_lt_iff, ?Z.compare_gt_iff in *; lia.
  - destruct x as [s|s| |s m e]; simpl; try discriminate.
    + destruct (z2 ?= 0) eqn:E1; simpl; try discriminate; intros _;
        destruct (z1 ?= 0) eqn:E2; simpl; try reflexivity;
        rewrite ?Z.compare_eq_iff, ?Z.compare_lt_iff, ?Z.compare_gt_iff in *; lia.
    + now destruct s.
    + assert (Hp : 0 < 2 ^ (- e) \/ e >= 0)
        by (destruct (Z_lt_le_dec e 0); [left; apply Z.pow_pos_nonneg; lia|right; lia]).
      destruct (0 <=? e) eqn:Ee.
      * destruct (z2 ?= _) eqn:E1; simpl; try discriminate; intros _;
          destruct (z1 ?= _) eqn:E2; simpl; try reflexivity;
          rewrite ?Z.compare_eq_iff, ?Z.compare_lt_iff, ?Z.compare_gt_iff in *; lia.
      * apply Z.leb_gt in Ee. destruct Hp as [Hp|Hp]; [|lia].
        destruct (z2 * _ ?= _) eqn:E1; simpl; try discriminate; intros _;
          destruct (z1 * _ ?= _) eqn:E2; simpl; try reflexivity;
          rewrite ?Z.compare_eq_iff, ?Z.compare_lt_iff, ?Z.compare_gt_iff in *; nia.
Qed.

(** Comparisons with the [int] [0] are decided by the sign. *)
Lemma py_le_zero_float (y : float) :
  py_le (PyInt 0) (PyFloat y) = true <->
  (exists s, y = S754_zero s) \/ signed false y.
Proof.
  unfold py_le, py_compare, Zfcompare.
  destruct y as [s|[]| |[] m e]; cbn [signed cond_Zopp]; split; intros H;
    try discriminate; try reflexivity; eauto;
    try (destruct H as [[s' H]|H]; (discriminate || contradiction)).
  - exfalso. destruct (Z.leb_spec 0 e); [|discriminate].
    assert (0 < 2 ^ e) by now apply Z.pow_pos_nonneg.
    assert (Hn : - Z.pos m * 2 ^ e < 0) by nia.
    apply Z.compare_gt_iff in Hn. rewrite Hn in H. discriminate.
  - destruct (Z.leb_spec 0 e); [|reflexivity].
    assert (0 < 2 ^ e) by now apply Z.pow_pos_nonneg.
    assert (Hn : 0 < Z.pos m * 2 ^ e) by nia.
    apply Z.compare_lt_iff in Hn. now rewrite Hn.
Qed.

Lemma py_le_float_zero (x : float) :
  py_le (PyFloat x) (PyInt 0) = true <->
  (exists s, x = S754_zero s) \/ signed true x.
Proof.
  unfold py_le, py_compare, Zfcompare.
  destruct x as [s|[]| |[] m e]; cbn [signed cond_Zopp option_map CompOpp];
    split; intros H;
    try discriminate; try reflexivity; eauto;
    try (destruct H as [[s' H]|H]; (discriminate || contradiction)).
  - destruct (Z.leb_spec 0 e); [|reflexivity].
    assert (0 < 2 ^ e) by now apply Z.pow_pos_nonneg.
    assert (Hn : - Z.pos m * 2 ^ e < 0) by nia.
    apply Z.compare_gt_iff in Hn. now rewrite Hn.
  - exfalso. destruct (Z.leb_spec 0 e); [|discriminate].
    assert (0 < 2 ^ e) by now apply Z.pow_pos_nonneg.
    assert (Hn : 0 < Z.pos m * 2 ^ e) by nia.
    apply Z.compare_lt_iff in Hn. rewrite Hn in H. discriminate.
Qed.

Lemma round2_zero_or_signed s (x : float) :
  (exists s', x = S754_zero s') \/ signed s x ->
  (exists s', F.round2 x = S754_zero s') \/ signed s (F.round2 x).
Proof.
  intros [[s' ->]|H]; [left; now exists s'|right; now apply round2_signed].
Qed.

(** [round(v, 2)] is monotone on the numbers that the program compares. *)
Lemma py_round2_mono (a b : pynum) :
  valid_num a = true -> valid_num b = true ->
  py_le a b = true -> py_le (py_round2 a) (py_round2 b) = true.
Proof.
  destruct a as [za|x], b as [zb|y]; simpl; intros Va Vb Hle.
  - exact Hle.
  - apply Z.eqb_eq in Va. subst za.
    apply py_le_zero_float. apply py_le_zero_float in Hle.
    now apply round2_zero_or_signed.
  - apply Z.eqb_eq in Vb. subst zb.
    apply py_le_float_zero. apply py_le_float_zero in Hle.
    now apply round2_zero_or_signed.
  - now apply round2_mono.
Qed.

Lemma py_max_valid (a b : pynum) :
  valid_num a = true -> valid_num b = true -> valid_num (py_max a b) = true.
Proof. intros Ha Hb. unfold py_max. now destruct (py_gt b a). Qed.

Lemma py_min_valid (a b : pynum) :
  valid_num a = true -> valid_num b = true -> valid_num (py_min a b) = true.
Proof. intros Ha Hb. unfold py_min. now destruct (py_lt b a). Qed.

Lemma clamped_value_ok event_info g v :
  clamped_value event_info g = Ok v -> stored_ok event_info g v.
Proof.
  unfold clamped_value, stored_ok.
  destruct (String.eqb_spec (e_type event_info) "C") as [HC|HD].
  - intros [= <-]. split; [intros _|contradiction].
    cbv zeta. split; [reflexivity|]. intros Hle.
    destruct (clamp_between (e_min event_info) (PyFloat g)
                (PyFloat (e_max event_info)) Hle) as [Hlo Hhi].
    split; [exact Hlo|]. split; [exact Hhi|]. intros Vlo Vhi Vg.
    assert (Vc : valid_num (py_max (e_min event_info)
                              (py_min (PyFloat g) (PyFloat (e_max event_info)))) = true)
      by (apply py_max_valid; [exact Vlo|now apply py_min_valid]).
    pose proof (py_round2_mono _ _ Vlo Vc Hlo) as Rlo.
    pose proof (py_round2_mono _ (PyFloat (e_max event_info)) Vc Vhi Hhi) as Rhi.
    split; [exact Rlo|]. split; [exact Rhi|].
    split; [intros E; now rewrite E in Rlo|intros E; now rewrite E in Rhi].
  - intros H. split; [contradiction|intros _].
    destruct (py_int (e_min event_info)) as [ilo|]; [|discriminate].
    destruct (py_int (PyFloat g)) as [gi|]; [|discriminate].
    destruct (py_int (PyFloat (e_max event_info))) as [ihi|]; [|discriminate].
    cbn [rbind] in H. rewrite py_min_int, py_max_int in H. injection H as <-.
    exists ilo, ihi, (Z.max ilo (Z.min gi ihi)).
    split; [reflexivity|]. split; [reflexivity|]. split; [reflexivity|].
    split; [now exists gi|]. intros Hord.
    split; [lia|]. split.
    + apply py_le_float_int_mono. lia.
    + apply py_le_int_float_mono. lia.
Qed.

(** *** The loop over the days *)

Lemma generate_day_spec all_events day w :
  let '(r, w1) := sample_day gauss day w in
  generate_day gauss all_events day w =
  match r, log_dir w with
  | Ok daily, Some d =>
      match write_failure w (log_file day) with
      | None =>
          (Ok (all_events ++ [daily])%list,
           with_log_dir (Some (dict_set (log_file day) (json_of daily) d)) w1)
      | Some f =>
          (Raise (wf_error f),
           match wf_left f with
           | Some data => with_log_dir (Some (dict_set (log_file day) data d)) w1
           | None => w1
           end)
      end
  | Ok daily, None => (Raise FileNotFoundError, w1)
  | Raise e, _ => (Raise e, w1)
  end.
Proof.
  pose proof (sample_day_world day w) as (_ & _ & Hdir & _ & Hwf).
  unfold generate_day, bind, json_dump, ret.
  destruct (sample_day gauss day w) as [[daily|e] w1]; simpl in Hdir, Hwf.
  - rewrite Hdir, Hwf. destruct (log_dir w); [|reflexivity].
    now destruct (write_failure w (log_file day)).
  - now destruct (log_dir w).
Qed.

Lemma generate_loop_spec days :
  forall acc w recs w',
    fold_each days acc (generate_day gauss) w = (Ok recs, w') ->
    exists new,
      recs = (acc ++ new)%list /\
      Forall2 (day_record w) days new /\
      log_dir w' = option_map (write_days days new) (log_dir w) /\
      same_config w w' /\ stdout w' = stdout w.
Proof.
  induction days as [|day days IH]; intros acc w recs w'; simpl.
  - intros [= <- <-]. exists []. rewrite app_nil_r.
    repeat split; [constructor|now destruct (log_dir w)].
  - unfold bind. pose proof (generate_day_spec acc day w) as Hday.
    pose proof (sample_day_world day w) as (Hev & Hst & Hdir & Hout & _).
    destruct (sample_day gauss day w) as [[daily|e] w1] eqn:Es; simpl in *;
      rewrite Hday; [|discriminate].
    destruct (log_dir w) as [d|] eqn:Ed; [|discriminate].
    destruct (write_failure w (log_file day)) as [f|]; [discriminate|].
    intros Hrest. apply IH in Hrest as (new & -> & Hall & Hdir' & [Hev' Hst'] & Hout').
    exists (daily :: new). rewrite <- app_assoc. simpl in *.
    repeat split; try congruence.
    + constructor.
      * exists w. split; [now split|]. now rewrite Es.
      * eapply Forall2_impl; [|exact Hall].
        intros a b (wa & [Ha Hb] & Hs). simpl in Ha, Hb.
        exists wa. split; [split; congruence|exact Hs].
    + exact Hdir'.
Qed.

Lemma write_days_other days :
  forall recs d f,
    ~ In f (map log_file days) ->
    dict_get f (write_days days recs d) = dict_get f d.
Proof.
  clear int_of_str float_of_str.
  unfold write_days.
  induction days as [|day days IH]; intros recs d f Hf; [reflexivity|].
  destruct recs as [|r recs]; [reflexivity|]. simpl in *.
  rewrite IH by tauto. apply dict_get_set_other. intros ->. tauto.
Qed.

Lemma write_days_get days :
  forall recs d i day r,
    NoDup (map log_file days) ->
    nth_error days i = Some day -> nth_error recs i = Some r ->
    dict_get (log_file day) (write_days days recs d) = Some (json_of r).
Proof.
  induction days as [|day0 days IH]; intros recs d i day r Hnd Hday Hr.
  - now destruct i.
  - destruct recs as [|r0 recs]; [now destruct i|].
    inversion Hnd as [|? ? Hnotin Hnd']; subst.
    destruct i as [|i]; simpl in *.
    + injection Hday as <-. injection Hr as <-.
      change (dict_get (log_file day0)
                (write_days days recs (dict_set (log_file day0) (json_of r0) d)) =
              Some (json_of r0)).
      rewrite write_days_other by assumption. apply dict_get_set_same.
    + exact (IH recs _ i day r Hnd' Hday Hr).
Qed.

Lemma write_days_keys days :
  forall recs d,
    NoDup (map log_file days) -> List.length recs = List.length days ->
    (forall day, In day days -> dict_get (log_file day) d = None) ->
    dict_keys (write_days days recs d) = (dict_keys d ++ map log_file days)%list.
Proof.
  induction days as [|day days IH]; intros recs d Hnd Hlen Hfresh.
  - destruct recs; [|discriminate]. simpl. now rewrite List.app_nil_r.
  - destruct recs as [|r recs]; [discriminate|].
    inversion Hnd as [|? ? Hnotin Hnd']; subst.
    change (dict_keys (write_days days recs (dict_set (log_file day) (json_of r) d)) =
            (dict_keys d ++ log_file day :: map log_file days)%list).
    rewrite IH; try assumption.
    + rewrite dict_keys_set_new by (apply Hfresh; now left).
      now rewrite <- List.app_assoc.
    + simpl in Hlen. lia.
    + intros day' Hin. rewrite dict_get_set_other.
      * apply Hfresh. now right.
      * intros E. apply Hnotin. rewrite <- E. now apply in_map.
Qed.

Lemma generate_events_spec days w recs w' :
  generate_events gauss days w = (Ok recs, w') ->
  Forall2 (day_record w) (py_range days) recs /\
  log_dir w' = Some (write_days (py_range days) recs (initial_dir w)) /\
  same_config w w' /\ stdout w' = stdout w.
Proof.
  unfold generate_events, bind, ensure_log_dir, modify, initial_dir. intros H.
  apply generate_loop_spec in H as (new & -> & Hall & Hdir & Hcfg & Hout).
  destruct (log_dir w) eqn:Ed; simpl in *.
  - rewrite Ed in Hdir. tauto.
  - split; [|tauto].
    eapply Forall2_impl; [|exact Hall].
    intros a b (wa & [Ha Hb] & Hs). exists wa. now repeat split.
Qed.

Lemma day_record_values w day r :
  day_record w day r ->
  (~ joined (events w) (statistics w) "Day" ->
   dict_get "Day" r = Some (PyInt (day + 1))) /\
  (NoDup (dict_keys (events w)) ->
   forall name event_info,
     In (name, event_info) (events w) -> dict_mem name (statistics w) = true ->
     exists g v,
       is_draw w name g /\ dict_get name r = Some v /\ stored_ok event_info g v).
Proof.
  intros (wa & [Hev Hst] & Hs). unfold sample_day, bind, get in Hs.
  apply sample_loop_spec in Hs as [Ha Hb]. unfold is_draw in *.
  rewrite Hev, Hst in *. split.
  - intros Hday. now rewrite Ha.
  - intros Hnd name info Hin Hmem.
    destruct (Hb Hnd name info Hin Hmem) as (g & v & Hg & Hv & Hget).
    exists g, v. split; [exact Hg|]. split; [exact Hget|].
    now apply clamped_value_ok.
Qed.

(** C1 (amended): in every record that [generate_events] returns, every
    event that has a definition and statistics holds a value [v] that
    satisfies [stored_ok] for a draw [g] made for that event, whatever
    the generator draws.  For a Continuous event [v] is [round(c, 2)] for
    the clamped draw [c = max(min, min(g, max))]; when [min <= max],
    [min <= c <= max] and [round(min, 2) <= v <= round(max, 2)], so
    [min <= v] holds when [round(min, 2) = min] and [v <= max] holds when
    [round(max, 2) = max].  For a Discrete event [v] is the truncated
    draw clamped between the truncated bounds. *)
Theorem generate_events_values_clamped w days recs w' :
  NoDup (dict_keys (events w)) ->
  generate_events gauss days w = (Ok recs, w') ->
  forall r name event_info,
    In r recs ->
    In (name, event_info) (events w) ->
    dict_mem name (statistics w) = true ->
    exists g v,
      is_draw w name g /\ dict_get name r = Some v /\ stored_ok event_info g v.
Proof.
  intros Hnd Hgen r name info Hr Hin Hmem.
  apply generate_events_spec in Hgen as (Hall & _).
  assert (Hex : exists day, day_record w day r).
  { clear -Hall Hr. induction Hall as [|day r' ds recs' Hd Hall IH]; [contradiction|].
    destruct Hr as [->|Hr]; eauto. }
  destruct Hex as [day Hd]. eapply day_record_values; eauto.
Qed.

(** *** The state of the generator *)

Lemma sample_value_rng event_info mean std_dev w v w' :
  sample_value gauss event_info mean std_dev w = (Ok v, w') ->
  rng w' = snd (gauss (rng w) mean std_dev).
Proof.
  unfold sample_value, bind, lift, ret, random_gauss.
  destruct (String.eqb (e_type event_info) "C").
  - destruct (gauss (rng w) mean std_dev) as [g r]. now intros [= _ <-].
  - destruct (py_int (e_min event_info)) as [lo|e]; [|discriminate].
    destruct (gauss (rng w) mean std_dev) as [g r].
    destruct (py_int (PyFloat g)) as [gi|e]; [|discriminate].
    destruct (py_int (PyFloat (e_max event_info))) as [hi|e]; [|discriminate].
    now intros [= _ <-].
Qed.

Lemma sample_loop_rng l :
  forall daily_events w r w',
    fold_each l daily_events (sample_event gauss) w = (Ok r, w') ->
    rng w' =
    draw_all gauss
      (flat_map
         (fun item : string * EventInfo =>
            match dict_get (fst item) (statistics w) with
            | Some st => [(s_mean st, s_std_dev st)]
            | None => []
            end) l)
      (rng w).
Proof.
  induction l as [|[n i] l IH]; intros daily w r w'; simpl.
  - now intros [= _ <-].
  - unfold bind.
    pose proof (sample_event_world daily (n, i) w) as (_ & Hst & _).
    destruct (sample_event gauss daily (n, i) w) as [[daily'|e] w1] eqn:Ev;
      [|discriminate].
    simpl in Hst. intros Hr. apply IH in Hr. rewrite Hst in Hr. rewrite Hr.
    unfold draw_all. rewrite fold_left_app. f_equal.
    unfold sample_event, bind, get, ret in Ev. simpl in Ev.
    destruct (dict_get n (statistics w)) as [st|].
    + destruct (sample_value gauss i (s_mean st) (s_std_dev st) w)
        as [[v|e] w2] eqn:Es; [|discriminate].
      injection Ev as _ <-. simpl. eapply sample_value_rng; eauto.
    + now injection Ev as _ <-.
Qed.

(** *** When sampling cannot raise *)

Lemma py_int_finite (x : float) :
  F.is_finite x = true -> exists z, py_int (PyFloat x) = Ok z.
Proof. destruct x; simpl; intros H; try discriminate; eauto. Qed.

Lemma clamped_value_safe event_info g :
  draw_safe (event_info, g) = true -> exists v, clamped_value event_info g = Ok v.
Proof.
  unfold draw_safe, clamped_value, converts. cbn [fst snd].
  destruct (String.eqb (e_type event_info) "C"); [eauto|]. cbn [orb].
  intros H. apply andb_prop in H as [H Hg]. apply andb_prop in H as [Hlo Hmax].
  destruct (py_int (e_min event_info)) as [lo|]; [|discriminate].
  destruct (py_int_finite _ Hg) as [gi ->].
  destruct (py_int_finite _ Hmax) as [hi ->]. simpl. eauto.
Qed.

Lemma calls_in_params l stats :
  map snd (calls_in l stats) =
  flat_map
    (fun item : string * EventInfo =>
       match dict_get (fst item) stats with
       | Some st => [(s_mean st, s_std_dev st)]
       | None => []
       end) l.
Proof.
  unfold calls_in. induction l as [|[n i] l IH]; [reflexivity|]. simpl.
  rewrite map_app, IH. now destruct (dict_get n stats).
Qed.

Lemma draws_app a :
  forall b r,
    draws (a ++ b) r =
    (draws a r ++ draws b (draw_all gauss (map snd a) r))%list.
Proof.
  induction a as [|c a IH]; intros b r; [reflexivity|]. simpl.
  now rewrite IH.
Qed.

Lemma sample_loop_safe l :
  forall daily_events w,
    forallb draw_safe (draws (calls_in l (statistics w)) (rng w)) = true ->
    exists r w', fold_each l daily_events (sample_event gauss) w = (Ok r, w').
Proof.
  induction l as [|[n i] l IH]; intros daily w Hsafe; simpl; [unfold ret; eauto|].
  unfold bind.
  pose proof (sample_event_result daily (n, i) w) as Hres.
  pose proof (sample_event_world daily (n, i) w) as (_ & Hst & _).
  destruct (sample_event gauss daily (n, i) w) as [[daily'|e] w1] eqn:Ev;
    simpl in Hres, Hst, Hsafe.
  - apply IH. rewrite Hst.
    unfold sample_event, bind, get, ret in Ev. simpl in Ev.
    destruct (dict_get n (statistics w)) as [st|].
    + destruct (sample_value gauss i (s_mean st) (s_std_dev st) w)
        as [[v|e] w2] eqn:Es; [|discriminate].
      injection Ev as _ <-. rewrite (sample_value_rng _ _ _ _ Es).
      unfold calls_in in Hsafe. simpl in Hsafe. now apply andb_prop in Hsafe.
    + injection Ev as _ <-. exact Hsafe.
  - exfalso. unfold calls_in in Hsafe. simpl in Hsafe.
    destruct (dict_get n (statistics w)) as [st|]; [|discriminate].
    simpl in Hsafe. apply andb_prop in Hsafe as [Hg _].
    destruct (clamped_value_safe _ _ Hg) as [v Hv].
    rewrite Hv in Hres. discriminate.
Qed.

Lemma generate_loop_safe days :
  forall acc w d,
    log_dir w = Some d ->
    forallb draw_safe
      (draws (List.concat (repeat (day_calls w) (List.length days))) (rng w)) = true ->
    (forall day, In day days -> write_failure w (log_file day) = None) ->
    exists recs w', fold_each days acc (generate_day gauss) w = (Ok recs, w').
Proof.
  induction days as [|day days IH]; intros acc w d Hdir Hsafe Hwr; simpl;
    [unfold ret; eauto|].
  unfold bind. pose proof (generate_day_spec acc day w) as Hday.
  pose proof (sample_day_world day w) as (Hev & Hst & _ & _ & Hwf).
  simpl in Hsafe. rewrite draws_app, forallb_app in Hsafe.
  apply andb_prop in Hsafe as [Hfirst Hrest].
  destruct (sample_loop_safe (events w) [("Day", PyInt (day + 1))] w Hfirst)
    as (r & w1 & Hr).
  change (sample_day gauss day w = (Ok r, w1)) in Hr.
  pose proof Hr as Hrng. unfold sample_day, bind, get in Hrng.
  apply sample_loop_rng in Hrng.
  rewrite Hr in Hday, Hev, Hst, Hwf. simpl in Hev, Hst, Hwf.
  rewrite Hday, Hdir, (Hwr day (or_introl eq_refl)).
  eapply IH; [reflexivity| |].
  - cbn [rng with_log_dir]. unfold day_calls in *. cbn [events statistics with_log_dir].
    rewrite Hev, Hst, Hrng.
    rewrite <- calls_in_params. exact Hrest.
  - intros day' Hin. cbn [write_failure with_log_dir]. rewrite Hwf.
    apply Hwr. now right.
Qed.


(** *** An infinite upper bound on a Discrete event *)

Lemma sample_value_inf_max event_info mean std_dev w :
  e_type event_info <> "C" -> e_max event_info = F.inf ->
  (exists e, fst (sample_value gauss event_info mean std_dev w) = Raise e) /\
  (forall lo gi,
     py_int (e_min event_info) = Ok lo ->
     py_int (PyFloat (fst (gauss (rng w) mean std_dev))) = Ok gi ->
     fst (sample_value gauss event_info mean std_dev w) = Raise OverflowError).
Proof.
  intros HD Hmax. rewrite sample_value_result. unfold clamped_value.
  apply String.eqb_neq in HD. rewrite HD, Hmax. split.
  - destruct (py_int (e_min event_info)); [|simpl; eauto].
    destruct (py_int (PyFloat _)); simpl; eauto.
  - intros lo gi -> ->. reflexivity.
Qed.

(** C9: when an event that has statistics is Discrete (its type is not
    ["C"]) and its upper bound is [+inf], the value an empty [max] field
    is given, sampling that event raises for every draw (an
    [OverflowError] from [int(max)] once [int(min)] and the truncation of
    the draw have succeeded), so [generate_events] raises for every
    [days >= 1]: it returns no record and writes no file. *)
Theorem generate_events_infinite_max_raises w days name event_info :
  In (name, event_info) (events w) ->
  dict_mem name (statistics w) = true ->
  e_type event_info <> "C" ->
  e_max event_info = F.inf ->
  1 <= days ->
  (exists e w',
     generate_events gauss days w = (Raise e, w') /\
     log_dir w' = Some (initial_dir w)) /\
  (forall mean std_dev w0,
     (exists e, fst (sample_value gauss event_info mean std_dev w0) = Raise e) /\
     (forall lo gi,
        py_int (e_min event_info) = Ok lo ->
        py_int (PyFloat (fst (gauss (rng w0) mean std_dev))) = Ok gi ->
        fst (sample_value gauss event_info mean std_dev w0) = Raise OverflowError)).
Proof.
  intros Hin Hmem HD Hmax Hdays. split; [|intros; now apply sample_value_inf_max].
  assert (Hday : forall day w0, statistics w0 = statistics w -> events w0 = events w ->
                   exists e, fst (sample_day gauss day w0) = Raise e).
  { intros day w0 Hst Hev. unfold sample_day, bind, get. rewrite Hev.
    apply (fold_each_raises (fun w1 => statistics w1 = statistics w)
             (sample_event gauss) (events w) (name, event_info) Hin).
    - intros acc y w1 Hw1.
      pose proof (sample_event_world acc y w1) as (_ & H & _). congruence.
    - intros acc w1 Hw1. rewrite sample_event_result. simpl. rewrite Hw1.
      unfold dict_mem in Hmem.
      destruct (dict_get name (statistics w)) as [st|]; [|discriminate].
      destruct (sample_value_inf_max event_info (s_mean st) (s_std_dev st) w1 HD Hmax)
        as [[e He] _].
      rewrite sample_value_result in He. rewrite He. simpl. eauto.
    - exact Hst. }
  unfold generate_events, bind, ensure_log_dir, modify, py_range.
  destruct (Z.to_nat days) as [|n] eqn:En; [lia|]. simpl. unfold bind.
  set (w0 := match log_dir w with None => with_log_dir (Some []) w | Some _ => w end).
  assert (Hw0 : statistics w0 = statistics w /\ events w0 = events w /\
                log_dir w0 = Some (initial_dir w)).
  { unfold w0, initial_dir. destruct (log_dir w) eqn:Ed; simpl; auto. }
  destruct Hw0 as (Hst & Hev & Hdir).
  pose proof (generate_day_spec [] 0 w0) as Hg.
  pose proof (sample_day_world 0 w0) as (_ & _ & Hdir1 & _).
  destruct (Hday 0 w0 Hst Hev) as [e He].
  destruct (sample_day gauss 0 w0) as [[daily|e'] w1]; simpl in *; [discriminate|].
  rewrite Hg. exists e', w1. split; [reflexivity|congruence].
Qed.

(** *** The Discrete branch *)

Lemma py_int_trunc (v : pynum) :
  match py_trunc v with
  | Some z => py_int v = Ok z
  | None => exists e, py_int v = Raise e
  end.
Proof.
  destruct v as [z|x]; simpl; [reflexivity|].
  destruct (F.trunc x); eauto.
Qed.

Lemma floor_trunc_nonneg (x : float) :
  py_le (PyInt 0) (PyFloat x) = true -> F.floor x = F.trunc x.
Proof.
  destruct x as [s|s| |[] m e]; try reflexivity.
  unfold py_le. simpl. intros H. exfalso.
  destruct (0 <=? e) eqn:Ee.
  - apply Z.leb_le in Ee. assert (0 < 2 ^ e) by (apply Z.pow_pos_nonneg; lia).
    destruct (2 ^ e); [lia|discriminate|lia].
  - discriminate.
Qed.

(** C6 (amended): for a Discrete event the stored value is the draw
    truncated toward zero and then clamped between [int(min)] and
    [int(max)], the bounds truncated toward zero as well (and the
    sampling raises when one of the three conversions does); this is the
    clamp between the floors of the bounds whenever both bounds are
    non-negative. *)
Theorem sample_value_discrete event_info mean std_dev w :
  e_type event_info <> "C" ->
  let g := fst (gauss (rng w) mean std_dev) in
  match discrete_value_trunc event_info g with
  | Some z => fst (sample_value gauss event_info mean std_dev w) = Ok (PyInt z)
  | None => exists e, fst (sample_value gauss event_info mean std_dev w) = Raise e
  end /\
  (py_le (PyInt 0) (e_min event_info) = true ->
   py_le (PyInt 0) (PyFloat (e_max event_info)) = true ->
   discrete_value_floor event_info g = discrete_value_trunc event_info g).
Proof.
  intros HD g. split.
  - rewrite sample_value_result. fold g. unfold clamped_value, discrete_value_trunc.
    apply String.eqb_neq in HD. rewrite HD.
    pose proof (py_int_trunc (e_min event_info)) as Hlo.
    pose proof (py_int_trunc (PyFloat g)) as Hg.
    pose proof (py_int_trunc (PyFloat (e_max event_info))) as Hhi.
    simpl py_trunc in Hg, Hhi.
    destruct (F.trunc g) as [t|].
    + destruct (py_trunc (e_min event_info)) as [lo|].
      * destruct (F.trunc (e_max event_info)) as [hi|].
        -- rewrite Hlo, Hg, Hhi. cbn [rbind]. now rewrite py_min_int, py_max_int.
        -- destruct Hhi as [e Hhi]. rewrite Hlo, Hg, Hhi. simpl. eauto.
      * destruct Hlo as [e Hlo]. rewrite Hlo. simpl. eauto.
    + destruct Hg as [e Hg]. rewrite Hg.
      destruct (py_trunc (e_min event_info)) as [lo|].
      * rewrite Hlo. simpl. eauto.
      * destruct Hlo as [e' Hlo]. rewrite Hlo. simpl. eauto.
  - intros Hmin Hmax. unfold discrete_value_floor, discrete_value_trunc.
    rewrite (floor_trunc_nonneg _ Hmax).
    destruct (e_min event_info) as [z|x]; simpl; [reflexivity|].
    now rewrite (floor_trunc_nonneg _ Hmin).
Qed.

(** *** The configuration parsers *)

Lemma read_events_line_spec line w :
  read_events_line float_of_str int_of_str line w =
  line_effect (@events Rng) (@with_events Rng) (events_diagnostic line)
    (parse_event_line line) w.
Proof.
  unfold read_events_line, parse_event_line, events_diagnostic.
  destruct (PyStr.split ":" (PyStr.strip line)) as [|name [|ty [|mn [|mx [|wt [|]]]]]];
    try reflexivity.
  unfold bind, py_float, py_int_str, lift, ret, modify.
  destruct mn as [|c mn].
  - destruct mx as [|c' mx].
    + destruct (int_of_str wt); reflexivity.
    + destruct (float_of_str (String c' mx)); [|reflexivity].
      destruct (int_of_str wt); reflexivity.
  - destruct (float_of_str (String c mn)); [|reflexivity]. simpl.
    destruct mx as [|c' mx].
    + destruct (int_of_str wt); reflexivity.
    + destruct (float_of_str (String c' mx)); [|reflexivity].
      destruct (int_of_str wt); reflexivity.
Qed.

Lemma read_statistics_line_spec line w :
  read_statistics_line float_of_str line w =
  line_effect (@statistics Rng) (@with_statistics Rng) (statistics_diagnostic line)
    (parse_statistics_line line) w.
Proof.
  unfold read_statistics_line, parse_statistics_line, statistics_diagnostic.
  destruct (PyStr.split ":" (PyStr.strip line)) as [|name [|mean [|sd [|x [|]]]]];
    try reflexivity.
  unfold bind, py_float, lift, ret, modify.
  destruct (float_of_str mean); [|reflexivity].
  destruct (float_of_str sd); reflexivity.
Qed.

Lemma read_events_unfold lines w :
  read_events float_of_str int_of_str lines w =
  match lines with
  | [] => (Raise IndexError, w)
  | first :: _ =>
      match int_of_str (PyStr.strip first) with
      | Some _ => for_each (record_lines lines) (read_events_line float_of_str int_of_str) w
      | None => (Raise ValueError, w)
      end
  end.
Proof.
  unfold read_events, record_lines, bind, lift, py_int_str.
  destruct lines as [|first rest]; [reflexivity|].
  destruct (int_of_str (PyStr.strip first)); reflexivity.
Qed.

Lemma read_statistics_unfold lines w :
  read_statistics float_of_str int_of_str lines w =
  match lines with
  | [] => (Raise IndexError, w)
  | first :: _ =>
      match int_of_str (PyStr.strip first) with
      | Some _ => for_each (record_lines lines) (read_statistics_line float_of_str) w
      | None => (Raise ValueError, w)
      end
  end.
Proof.
  unfold read_statistics, record_lines, bind, lift, py_int_str.
  destruct lines as [|first rest]; [reflexivity|].
  destruct (int_of_str (PyStr.strip first)); reflexivity.
Qed.

(** An empty [max] field is read as [+inf] and an empty [min] field as
    the [int] [0]. *)
Lemma parse_event_line_defaults line name event_type min_val max_val weight v :
  PyStr.split ":" (PyStr.strip line) = [name; event_type; min_val; max_val; weight] ->
  parse_event_line line = Assign name v ->
  (max_val = EmptyString -> e_max v = F.inf) /\
  (min_val = EmptyString -> e_min v = PyInt 0).
Proof.
  unfold parse_event_line. intros ->.
  destruct min_val as [|c mn]; destruct max_val as [|c' mx];
    repeat match goal with
           | |- context [float_of_str ?x] => destruct (float_of_str x); simpl
           | |- context [int_of_str ?x] => destruct (int_of_str x); simpl
           end;
    try discriminate; intros H; inversion H; subst; simpl; split; congruence.
Qed.

(** The keys of the two dictionaries stay pairwise distinct, which they
    are in the empty dictionaries the program starts with. *)
Lemma read_events_keys_nodup lines w :
  NoDup (dict_keys (events w)) ->
  NoDup (dict_keys (events (snd (read_events float_of_str int_of_str lines w)))).
Proof.
  intros Hw. rewrite read_events_unfold.
  destruct lines as [|first rest]; [exact Hw|].
  destruct (int_of_str (PyStr.strip first)); [|exact Hw].
  apply (for_each_invariant (fun w0 => NoDup (dict_keys (events w0)))); [|exact Hw].
  intros line w0 Hw0. rewrite read_events_line_spec.
  destruct (parse_event_line line); simpl; auto using dict_set_nodup.
Qed.

Lemma read_statistics_keys_nodup lines w :
  NoDup (dict_keys (events w)) ->
  NoDup (dict_keys (events (snd (read_statistics float_of_str int_of_str lines w)))).
Proof.
  intros Hw. rewrite read_statistics_unfold.
  destruct lines as [|first rest]; [exact Hw|].
  destruct (int_of_str (PyStr.strip first)); [|exact Hw].
  apply (for_each_invariant (fun w0 => NoDup (dict_keys (events w0)))); [|exact Hw].
  intros line w0 Hw0. rewrite read_statistics_line_spec.
  destruct (parse_statistics_line line); simpl; exact Hw0.
Qed.

(** When the count is the number of record lines that follow, these are
    the record lines, whatever comes after them. *)
Lemma record_lines_exact first recs extra :
  int_of_str (PyStr.strip first) = Some (Z.of_nat (List.length recs)) ->
  record_lines (first :: recs ++ extra) = recs.
Proof.
  unfold record_lines, py_slice, slice_index. intros ->.
  cbn [List.length]. rewrite length_app.
  set (n := List.length recs). set (k := List.length extra).
  replace (1 <? 0) with false by reflexivity.
  replace (Z.of_nat n + 1 <? 0) with false by (symmetry; apply Z.ltb_ge; lia).
  rewrite (Z.min_l 1) by lia. rewrite (Z.min_l (Z.of_nat n + 1)) by lia.
  replace (Z.to_nat (Z.of_nat n + 1 - 1)) with n by lia.
  change (Z.to_nat 1) with 1%nat. cbn [skipn].
  unfold n. rewrite firstn_app, firstn_all, Nat.sub_diag. simpl. apply List.app_nil_r.
Qed.

Section LineLoop.

Context {V : Type}.
Variable step : string -> M unit.
Variable outcome : string -> line_outcome V.
Variable diag : string -> string.
Variable getd : World -> dict V.
Variable setd : dict V -> World -> World.

Hypothesis step_spec :
  forall line w, step line w = line_effect getd setd (diag line) (outcome line) w.
Hypothesis getd_setd : forall d w, getd (setd d w) = d.
Hypothesis getd_stdout : forall l w, getd (with_stdout l w) = getd w.
Hypothesis stdout_setd : forall d w, stdout (setd d w) = stdout w.

Lemma line_loop_skip pre bad post w :
  outcome bad = Skipped ->
  for_each (pre ++ bad :: post)%list step w =
  match for_each pre step w with
  | (Ok _, w1) =>
      for_each post step (with_stdout (stdout w1 ++ [diag bad])%list w1)
  | (Raise e, w1) => (Raise e, w1)
  end.
Proof using step_spec.
  intros Hbad. rewrite for_each_app.
  destruct (for_each pre step w) as [[[]|e] w1]; [|reflexivity].
  simpl. unfold bind. rewrite step_spec, Hbad. reflexivity.
Qed.

Lemma line_loop_spec lines :
  forall w w',
    for_each lines step w = (Ok tt, w') ->
    (forall name,
       dict_get name (getd w') =
       match last_assigned name (map outcome lines) with
       | Some v => Some v
       | None => dict_get name (getd w)
       end) /\
    stdout w' =
      (stdout w ++ map diag (filter (fun l => is_skipped (outcome l)) lines))%list.
Proof using step_spec getd_setd getd_stdout stdout_setd.
  induction lines as [|line lines IH]; intros w w'; simpl.
  - intros [= <-]. split; [reflexivity|now rewrite List.app_nil_r].
  - unfold bind. rewrite step_spec.
    destruct (outcome line) as [| |n v] eqn:Eo; simpl; [|discriminate|];
      intros H; apply IH in H as [Hget Hout]; split.
    + intros name. rewrite Hget, getd_stdout. now destruct (last_assigned name _).
    + rewrite Hout. simpl. now rewrite <- List.app_assoc.
    + intros name. rewrite Hget, getd_setd, dict_get_set.
      destruct (last_assigned name _); [reflexivity|].
      now destruct (String.eqb name n).
    + now rewrite Hout, stdout_setd.
Qed.

End LineLoop.

Lemma parse_event_line_arity line :
  List.length (PyStr.split ":" (PyStr.strip line)) <> 5%nat ->
  parse_event_line line = Skipped.
Proof.
  unfold parse_event_line.
  destruct (PyStr.split ":" (PyStr.strip line)) as [|a [|b [|c [|d [|e [|]]]]]];
    simpl; intros H; try reflexivity.
  now contradiction H.
Qed.

Lemma parse_statistics_line_arity line :
  List.length (PyStr.split ":" (PyStr.strip line)) <> 4%nat ->
  parse_statistics_line line = Skipped.
Proof.
  unfold parse_statistics_line.
  destruct (PyStr.split ":" (PyStr.strip line)) as [|a [|b [|c [|d [|]]]]];
    simpl; intros H; try reflexivity.
  now contradiction H.
Qed.

(** C7: in both parsers a record line whose number of colon-separated
    fields is not the expected one (5 for [read_events], 4 for
    [read_statistics]) only prints a diagnostic, and the lines after it
    are processed as they would have been without it; in particular a
    definitions file whose count is 3 and whose three record lines are a
    line of 4 fields and two well-formed records of different names
    gives, from an empty [events], a dictionary of 2 entries and no
    exception. *)
Theorem wrong_arity_line_skipped :
  (forall first pre bad post extra w,
     int_of_str (PyStr.strip first) =
       Some (Z.of_nat (List.length (pre ++ bad :: post))) ->
     List.length (PyStr.split ":" (PyStr.strip bad)) <> 5%nat ->
     read_events float_of_str int_of_str (first :: (pre ++ bad :: post) ++ extra) w =
     match for_each pre (read_events_line float_of_str int_of_str) w with
     | (Ok _, w1) =>
         for_each post (read_events_line float_of_str int_of_str)
           (with_stdout (stdout w1 ++ [events_diagnostic bad])%list w1)
     | (Raise e, w1) => (Raise e, w1)
     end) /\
  (forall first pre bad post extra w,
     int_of_str (PyStr.strip first) =
       Some (Z.of_nat (List.length (pre ++ bad :: post))) ->
     List.length (PyStr.split ":" (PyStr.strip bad)) <> 4%nat ->
     read_statistics float_of_str int_of_str (first :: (pre ++ bad :: post) ++ extra) w =
     match for_each pre (read_statistics_line float_of_str) w with
     | (Ok _, w1) =>
         for_each post (read_statistics_line float_of_str)
           (with_stdout (stdout w1 ++ [statistics_diagnostic bad])%list w1)
     | (Raise e, w1) => (Raise e, w1)
     end) /\
  (forall first pre bad post extra w n1 v1 n2 v2,
     int_of_str (PyStr.strip first) = Some 3 ->
     List.length (PyStr.split ":" (PyStr.strip bad)) = 4%nat ->
     map parse_event_line (pre ++ post) = [Assign n1 v1; Assign n2 v2] ->
     n1 <> n2 ->
     events w = [] ->
     exists w',
       read_events float_of_str int_of_str (first :: (pre ++ bad :: post) ++ extra) w =
         (Ok tt, w') /\
       events w' = [(n1, v1); (n2, v2)] /\
       stdout w' = (stdout w ++ [events_diagnostic bad])%list).
Proof.
  split; [|split].
  - intros first pre bad post extra w Hn Hbad.
    rewrite read_events_unfold, Hn, (record_lines_exact _ _ _ Hn).
    apply (line_loop_skip _ _ _ _ _ read_events_line_spec).
    now apply parse_event_line_arity.
  - intros first pre bad post extra w Hn Hbad.
    rewrite read_statistics_unfold, Hn, (record_lines_exact _ _ _ Hn).
    apply (line_loop_skip _ _ _ _ _ read_statistics_line_spec).
    now apply parse_statistics_line_arity.
  - intros first pre bad post extra w n1 v1 n2 v2 Hn Hbad Hrecs Hne Hev.
    assert (Hlen : List.length (pre ++ bad :: post) = 3%nat).
    { apply (f_equal (@List.length _)) in Hrecs.
      rewrite length_map, length_app in Hrecs. rewrite length_app. simpl in *. lia. }
    assert (Hn' : int_of_str (PyStr.strip first) =
                  Some (Z.of_nat (List.length (pre ++ bad :: post))))
      by now rewrite Hlen.
    assert (Hskip : parse_event_line bad = Skipped)
      by (apply parse_event_line_arity; lia).
    rewrite read_events_unfold, Hn, (record_lines_exact _ _ _ Hn').
    apply String.eqb_neq in Hne. rewrite String.eqb_sym in Hne.
    destruct pre as [|a [|b [|c pre]]]; simpl in Hrecs.
    + destruct post as [|a [|b [|c post]]]; try discriminate.
      injection Hrecs as Ha Hb. simpl. unfold bind.
      rewrite !read_events_line_spec, Hskip. simpl.
      rewrite read_events_line_spec, Ha. simpl.
      rewrite read_events_line_spec, Hb. simpl. rewrite Hev. simpl. rewrite Hne.
      eexists; split; [reflexivity|]. now split.
    + destruct post as [|b [|c post]]; try discriminate.
      injection Hrecs as Ha Hb. simpl. unfold bind.
      rewrite !read_events_line_spec, Ha. simpl.
      rewrite read_events_line_spec, Hskip. simpl.
      rewrite read_events_line_spec, Hb. simpl. rewrite Hev. simpl. rewrite Hne.
      eexists; split; [reflexivity|]. now split.
    + destruct post as [|c post]; try discriminate.
      injection Hrecs as Ha Hb. simpl. unfold bind.
      rewrite !read_events_line_spec, Ha. simpl.
      rewrite read_events_line_spec, Hb. simpl.
      rewrite read_events_line_spec, Hskip. simpl. rewrite Hev. simpl. rewrite Hne.
      eexists; split; [reflexivity|]. now split.
    + destruct (pre ++ post)%list; discriminate.
Qed.

(** *** When the parsers complete *)

Section LineErrors.

Context {V : Type}.
Variable step : string -> M unit.
Variable outcome : string -> line_outcome V.
Variable diag : string -> string.
Variable getd : World -> dict V.
Variable setd : dict V -> World -> World.

Hypothesis step_spec :
  forall line w, step line w = line_effect getd setd (diag line) (outcome line) w.

Lemma line_loop_completes lines :
  existsb (fun l => is_fatal (outcome l)) lines = false ->
  forall w, exists w', for_each lines step w = (Ok tt, w').
Proof using step_spec.
  induction lines as [|line lines IH]; simpl; intros H w; [unfold ret; eauto|].
  apply orb_false_iff in H as [Hl H]. unfold bind. rewrite step_spec.
  destruct (outcome line); simpl in *; try discriminate; now apply IH.
Qed.

Lemma line_loop_fatal pre bad post w :
  existsb (fun l => is_fatal (outcome l)) pre = false ->
  is_fatal (outcome bad) = true ->
  exists w1,
    for_each pre step w = (Ok tt, w1) /\
    for_each (pre ++ bad :: post)%list step w = (Raise ValueError, w1).
Proof using step_spec.
  intros Hpre Hbad. destruct (line_loop_completes _ Hpre w) as [w1 H1].
  exists w1. split; [exact H1|]. rewrite for_each_app, H1. simpl.
  unfold bind. rewrite step_spec. now destruct (outcome bad).
Qed.

Lemma line_loop_outcome lines w :
  exists w',
    for_each lines step w =
    (if existsb (fun l => is_fatal (outcome l)) lines
     then Raise ValueError else Ok tt, w').
Proof using step_spec.
  revert w. induction lines as [|line lines IH]; intros w; simpl;
    [unfold ret; eauto|].
  unfold bind. rewrite step_spec.
  destruct (outcome line); simpl; [apply IH|eauto|apply IH].
Qed.

End LineErrors.

Lemma read_events_spec lines w w' :
  read_events float_of_str int_of_str lines w = (Ok tt, w') ->
  (forall name,
     dict_get name (events w') =
     match last_assigned name (map parse_event_line (record_lines lines)) with
     | Some v => Some v
     | None => dict_get name (events w)
     end) /\
  stdout w' =
    (stdout w ++
     map events_diagnostic
       (filter (fun l => is_skipped (parse_event_line l)) (record_lines lines)))%list.
Proof.
  rewrite read_events_unfold. destruct lines as [|first rest]; [discriminate|].
  destruct (int_of_str (PyStr.strip first)) eqn:En; [|discriminate].
  now apply (line_loop_spec _ _ _ _ _ read_events_line_spec).
Qed.

Lemma read_statistics_spec lines w w' :
  read_statistics float_of_str int_of_str lines w = (Ok tt, w') ->
  (forall name,
     dict_get name (statistics w') =
     match last_assigned name (map parse_statistics_line (record_lines lines)) with
     | Some v => Some v
     | None => dict_get name (statistics w)
     end) /\
  stdout w' =
    (stdout w ++
     map statistics_diagnostic
       (filter (fun l => is_skipped (parse_statistics_line l)) (record_lines lines)))%list.
Proof.
  rewrite read_statistics_unfold. destruct lines as [|first rest]; [discriminate|].
  destruct (int_of_str (PyStr.strip first)) eqn:En; [|discriminate].
  now apply (line_loop_spec _ _ _ _ _ read_statistics_line_spec).
Qed.

Lemma read_events_completes lines w :
  accepted parse_event_line lines = true ->
  exists w', read_events float_of_str int_of_str lines w = (Ok tt, w').
Proof.
  unfold accepted, header_count. rewrite read_events_unfold.
  destruct lines as [|first rest]; [discriminate|].
  destruct (int_of_str (PyStr.strip first)); [|discriminate].
  intros H. apply negb_true_iff in H.
  now apply (line_loop_completes _ _ _ _ _ read_events_line_spec).
Qed.

Lemma read_statistics_completes lines w :
  accepted parse_statistics_line lines = true ->
  exists w', read_statistics float_of_str int_of_str lines w = (Ok tt, w').
Proof.
  unfold accepted, header_count. rewrite read_statistics_unfold.
  destruct lines as [|first rest]; [discriminate|].
  destruct (int_of_str (PyStr.strip first)); [|discriminate].
  intros H. apply negb_true_iff in H.
  now apply (line_loop_completes _ _ _ _ _ read_statistics_line_spec).
Qed.

Lemma read_events_statistics lines w :
  statistics (snd (read_events float_of_str int_of_str lines w)) = statistics w.
Proof.
  rewrite read_events_unfold. destruct lines as [|first rest]; [reflexivity|].
  destruct (int_of_str (PyStr.strip first)); [|reflexivity].
  apply (for_each_invariant (fun w0 => statistics w0 = statistics w)); [|reflexivity].
  intros line w0 Hw0. rewrite read_events_line_spec.
  destruct (parse_event_line line); exact Hw0.
Qed.

Lemma read_statistics_events lines w :
  events (snd (read_statistics float_of_str int_of_str lines w)) = events w.
Proof.
  rewrite read_statistics_unfold. destruct lines as [|first rest]; [reflexivity|].
  destruct (int_of_str (PyStr.strip first)); [|reflexivity].
  apply (for_each_invariant (fun w0 => events w0 = events w)); [|reflexivity].
  intros line w0 Hw0. rewrite read_statistics_line_spec.
  destruct (parse_statistics_line line); exact Hw0.
Qed.

(** C10: both parsers update the module-level dictionary that the world
    holds instead of building a new one.  On files that they read to the
    end, a first call and then a second call both complete; after each
    call a name holds the entry of the last record line of that call
    that assigns it, and a name that no record line of the call assigns
    holds what it held before the call, so the second call keeps every
    entry of the first that it does not assign again.  The only lines
    printed are the diagnostics of the lines of wrong arity, so an
    overwritten entry is not reported, and the other dictionary is left
    as it was. *)
Theorem parsers_accumulate :
  (forall lines1 lines2 w,
     accepted parse_event_line lines1 = true ->
     accepted parse_event_line lines2 = true ->
     exists w1 w2,
       read_events float_of_str int_of_str lines1 w = (Ok tt, w1) /\
       read_events float_of_str int_of_str lines2 w1 = (Ok tt, w2) /\
       (forall name,
          dict_get name (events w1) =
          updated name (map parse_event_line (record_lines lines1))
            (dict_get name (events w))) /\
       (forall name,
          dict_get name (events w2) =
          updated name (map parse_event_line (record_lines lines2))
            (dict_get name (events w1))) /\
       stdout w1 =
         (stdout w ++
          map events_diagnostic
            (filter (fun l => is_skipped (parse_event_line l))
               (record_lines lines1)))%list /\
       stdout w2 =
         (stdout w1 ++
          map events_diagnostic
            (filter (fun l => is_skipped (parse_event_line l))
               (record_lines lines2)))%list /\
       statistics w2 = statistics w) /\
  (forall lines1 lines2 w,
     accepted parse_statistics_line lines1 = true ->
     accepted parse_statistics_line lines2 = true ->
     exists w1 w2,
       read_statistics float_of_str int_of_str lines1 w = (Ok tt, w1) /\
       read_statistics float_of_str int_of_str lines2 w1 = (Ok tt, w2) /\
       (forall name,
          dict_get name (statistics w1) =
          updated name (map parse_statistics_line (record_lines lines1))
            (dict_get name (statistics w))) /\
       (forall name,
          dict_get name (statistics w2) =
          updated name (map parse_statistics_line (record_lines lines2))
            (dict_get name (statistics w1))) /\
       stdout w1 =
         (stdout w ++
          map statistics_diagnostic
            (filter (fun l => is_skipped (parse_statistics_line l))
               (record_lines lines1)))%list /\
       stdout w2 =
         (stdout w1 ++
          map statistics_diagnostic
            (filter (fun l => is_skipped (parse_statistics_line l))
               (record_lines lines2)))%list /\
       events w2 = events w).
Proof.
  split; intros lines1 lines2 w Ha1 Ha2.
  - destruct (@read_events_completes lines1 w Ha1) as [w1 H1].
    destruct (@read_events_completes lines2 w1 Ha2) as [w2 H2].
    exists w1, w2.
    pose proof (read_events_statistics lines1 w) as Hs1.
    pose proof (read_events_statistics lines2 w1) as Hs2.
    rewrite H1 in Hs1. rewrite H2 in Hs2. simpl in Hs1, Hs2.
    destruct (read_events_spec _ _ H1) as [Hg1 Ho1].
    destruct (read_events_spec _ _ H2) as [Hg2 Ho2].
    repeat split; try assumption; congruence.
  - destruct (@read_statistics_completes lines1 w Ha1) as [w1 H1].
    destruct (@read_statistics_completes lines2 w1 Ha2) as [w2 H2].
    exists w1, w2.
    pose proof (read_statistics_events lines1 w) as Hs1.
    pose proof (read_statistics_events lines2 w1) as Hs2.
    rewrite H1 in Hs1. rewrite H2 in Hs2. simpl in Hs1, Hs2.
    destruct (read_statistics_spec _ _ H1) as [Hg1 Ho1].
    destruct (read_statistics_spec _ _ H2) as [Hg2 Ho2].
    repeat split; try assumption; congruence.
Qed.

(** *** The aggregation *)

Lemma with_stdout_app_nil w : with_stdout (stdout w ++ [])%list w = w.
Proof. destruct w. unfold with_stdout. simpl. now rewrite List.app_nil_r. Qed.

Lemma collect_spec d names :
  forall daily_totals w,
    log_dir w = Some d ->
    fold_each names daily_totals accumulate_log w =
    (fst (collect d names daily_totals),
     with_stdout (stdout w ++ snd (collect d names daily_totals))%list w).
Proof.
  induction names as [|name names IH]; intros totals w Hd; simpl.
  - unfold ret. now rewrite with_stdout_app_nil.
  - unfold bind, accumulate_log, read_log, bind. rewrite Hd.
    destruct (dict_get name d) as [[msg| |items]|]; simpl.
    + unfold print, modify, ret. rewrite IH by exact Hd. simpl.
      destruct (collect d names totals) as [r out]. simpl.
      unfold with_stdout. simpl. now rewrite <- List.app_assoc.
    + unfold lift. now rewrite with_stdout_app_nil.
    + unfold ret. now apply IH.
    + now rewrite with_stdout_app_nil.
Qed.

Lemma baselines_spec daily_totals :
  forall acc w,
    fold_each daily_totals acc add_baseline w = (baselines daily_totals acc, w).
Proof.
  induction daily_totals as [|[name values] rest IH]; intros acc w; simpl.
  - reflexivity.
  - unfold bind, add_baseline. simpl. destruct values as [|v vs].
    + unfold ret. apply IH.
    + unfold bind, lift, ret. destruct (event_baseline (v :: vs)); simpl.
      * apply IH.
      * reflexivity.
Qed.

Lemma analyze_stats_spec w :
  analyze_stats w =
  match log_dir w with
  | None => (Raise FileNotFoundError, w)
  | Some d =>
      (fst (analysis (dict_keys (events w)) d),
       with_stdout (stdout w ++ snd (analysis (dict_keys (events w)) d))%list w)
  end.
Proof.
  unfold analyze_stats, analysis, bind, get, listdir.
  destruct (log_dir w) as [d|] eqn:Hd; [|reflexivity].
  rewrite (collect_spec _ _ _ Hd).
  destruct (collect d _ _) as [[totals|e] out]; simpl; [|reflexivity].
  now rewrite baselines_spec.
Qed.

(** C3 (amended): the result of [analyze_stats] is a function of the
    content of [logs/] and of the names of the in-memory definitions
    only: it is the same in two worlds that agree on these two, whatever
    their statistics, the other fields of their definitions, their random
    state and their output; the names matter because only events that the
    in-memory definitions name are collected. *)
Theorem analyze_stats_depends_on_logs_and_names w1 w2 :
  log_dir w1 = log_dir w2 ->
  dict_keys (events w1) = dict_keys (events w2) ->
  fst (analyze_stats w1) = fst (analyze_stats w2).
Proof.
  intros Hd Hk. rewrite !analyze_stats_spec, Hd, Hk.
  now destruct (log_dir w2).
Qed.

Lemma baselines_empty_totals names acc :
  baselines (empty_totals names) acc = Ok acc.
Proof. induction names as [|n names IH]; simpl; [reflexivity|exact IH]. Qed.


(** *** What the aggregation computes *)

Lemma event_baseline_spec values b :
  event_baseline values = Ok b ->
  exists total mean std_dev,
    spec_total values = Ok total /\ spec_mean values = Ok mean /\
    spec_std_dev values = Ok std_dev /\
    b = {| b_total := total; b_mean := F.round2 mean;
           b_std_dev := F.round2 std_dev |}.
Proof.
  unfold event_baseline, spec_std_dev, spec_variance, spec_mean, spec_total.
  destruct (py_sum num_of values) as [s|]; [|discriminate]. cbn [rbind].
  destruct (py_truediv s _) as [mean|]; [|discriminate]. cbn [rbind].
  destruct (py_sum _ values) as [sq|]; [|discriminate]. cbn [rbind].
  destruct (py_truediv sq _) as [variance|]; [|discriminate]. cbn [rbind].
  destruct (math_sqrt variance) as [sd|]; [|discriminate]. cbn [rbind].
  intros [= <-]. now exists s, mean, sd.
Qed.

Lemma py_sum_ints (zs : list Z) :
  py_sum num_of (map (fun z => JNum (PyInt z)) zs) = Ok (PyInt (fold_left Z.add zs 0)).
Proof.
  unfold py_sum.
  assert (H : forall a,
             fold_left
               (fun acc x => rbind acc (fun a0 => rbind (num_of x) (fun v => py_add a0 v)))
               (map (fun z => JNum (PyInt z)) zs) (Ok (PyInt a)) =
             Ok (PyInt (fold_left Z.add zs a))).
  { induction zs as [|z zs IH]; intros a; simpl; [reflexivity|apply IH]. }
  apply H.
Qed.

Lemma append_value_get name daily_totals item :
  dict_get name (append_value daily_totals item) =
  option_map (fun vs => (vs ++ values_in name [item])%list)
    (dict_get name daily_totals).
Proof.
  unfold append_value, values_in. destruct item as [k v]. simpl.
  destruct (dict_get k daily_totals) as [vs|] eqn:Ek.
  - rewrite dict_get_set. rewrite (String.eqb_sym k name).
    destruct (String.eqb_spec name k) as [->|Hne].
    + now rewrite Ek.
    + destruct (dict_get name daily_totals); simpl; [|reflexivity].
      now rewrite List.app_nil_r.
  - destruct (String.eqb_spec k name) as [->|Hne].
    + now rewrite Ek.
    + destruct (dict_get name daily_totals); simpl; [|reflexivity].
      now rewrite List.app_nil_r.
Qed.

Lemma fold_append_get name items :
  forall daily_totals,
    dict_get name (fold_left append_value items daily_totals) =
    option_map (fun vs => (vs ++ values_in name items)%list)
      (dict_get name daily_totals).
Proof.
  induction items as [|item items IH]; intros totals; simpl.
  - destruct (dict_get name totals); simpl; [|reflexivity].
    now rewrite List.app_nil_r.
  - rewrite IH, append_value_get.
    destruct (dict_get name totals); simpl; [|reflexivity].
    rewrite <- List.app_assoc. do 2 f_equal.
    unfold values_in. simpl. now destruct (String.eqb (fst item) name).
Qed.

Lemma fold_append_keys items :
  forall daily_totals,
    dict_keys (fold_left append_value items daily_totals) = dict_keys daily_totals.
Proof.
  induction items as [|item items IH]; intros totals; simpl; [reflexivity|].
  rewrite IH. unfold append_value.
  destruct (dict_get (fst item) totals) eqn:E; [|reflexivity].
  eapply dict_keys_set_mem; eauto.
Qed.

Lemma collect_get d names :
  forall daily_totals totals' out,
    collect d names daily_totals = (Ok totals', out) ->
    dict_keys totals' = dict_keys daily_totals /\
    forall name,
      dict_get name totals' =
      option_map (fun vs => (vs ++ accumulated d names name)%list)
        (dict_get name daily_totals).
Proof.
  induction names as [|f names IH]; intros totals totals' out; simpl.
  - intros [= <- <-]. split; [reflexivity|]. intros name.
    destruct (dict_get name totals); simpl; [|reflexivity].
    now rewrite List.app_nil_r.
  - destruct (dict_get f d) as [[msg| |items]|]; try discriminate.
    + destruct (collect d names totals) as [r out'] eqn:Ec.
      intros [= -> <-]. eapply IH; eauto.
    + intros H. apply IH in H as [Hk Hg]. split.
      * now rewrite Hk, fold_append_keys.
      * intros name. rewrite Hg, fold_append_get.
        destruct (dict_get name totals); simpl; [|reflexivity].
        now rewrite <- List.app_assoc.
Qed.

Lemma empty_totals_get name names :
  dict_get name (empty_totals names) =
  if in_dec string_dec name names then Some [] else None.
Proof.
  induction names as [|n names IH]; simpl; [reflexivity|].
  destruct (String.eqb_spec name n) as [E|Hne].
  - destruct (string_dec n name); [reflexivity|congruence].
  - rewrite IH. destruct (string_dec n name) as [E|Hn]; [congruence|].
    now destruct (in_dec string_dec name names).
Qed.

Lemma empty_totals_keys names : dict_keys (empty_totals names) = names.
Proof.
  unfold dict_keys, empty_totals. rewrite map_map. simpl. apply map_id.
Qed.

Lemma baselines_get daily_totals :
  forall acc b,
    NoDup (dict_keys daily_totals) ->
    baselines daily_totals acc = Ok b ->
    forall name,
      match dict_get name daily_totals with
      | Some (v :: vs) =>
          exists bs, event_baseline (v :: vs) = Ok bs /\ dict_get name b = Some bs
      | _ => dict_get name b = dict_get name acc
      end.
Proof.
  induction daily_totals as [|[n values] rest IH]; intros acc b Hnd Hb name.
  - simpl in *. now injection Hb as <-.
  - inversion Hnd as [|? ? Hnotin Hnd']; subst.
    assert (Hn : dict_get n rest = None) by now apply dict_get_none_keys.
    simpl in Hb. simpl dict_get. destruct values as [|v vs].
    + pose proof (IH _ _ Hnd' Hb name) as Hrest.
      destruct (String.eqb_spec name n) as [->|Hne]; [|exact Hrest].
      now rewrite Hn in Hrest.
    + destruct (event_baseline (v :: vs)) as [bs|] eqn:Eb; [|discriminate].
      cbn [rbind] in Hb. pose proof (IH _ _ Hnd' Hb name) as Hrest.
      destruct (String.eqb_spec name n) as [->|Hne].
      * rewrite Hn in Hrest. exists bs. split; [exact Eb|].
        now rewrite Hrest, dict_get_set_same.
      * destruct (dict_get name rest) as [[|v' vs']|]; try exact Hrest;
          now rewrite Hrest, dict_get_set_other.
Qed.

Lemma py_sum_raises {X : Type} (f : X -> result pynum) (l : list X) x :
  In x l -> (exists e, f x = Raise e) -> exists e, py_sum f l = Raise e.
Proof.
  intros Hin [e0 Hx]. unfold py_sum. generalize (Ok (PyInt 0)) as acc.
  induction l as [|y l IH]; intros acc; [contradiction|]. simpl.
  destruct Hin as [->|Hin]; [|now apply IH].
  rewrite Hx.
  assert (Hstay : forall e (l' : list X),
             fold_left
               (fun acc x => rbind acc (fun a => rbind (f x) (fun v => py_add a v)))
               l' (Raise e) = Raise e)
    by (intros e l'; induction l'; simpl; auto).
  destruct acc as [a|e]; simpl; rewrite Hstay; eauto.
Qed.

Lemma baselines_raises daily_totals :
  forall acc name values,
    In (name, values) daily_totals -> values <> [] ->
    (exists e, event_baseline values = Raise e) ->
    exists e, baselines daily_totals acc = Raise e.
Proof.
  induction daily_totals as [|[n vs] rest IH]; intros acc name values Hin Hne Hraise;
    [contradiction|].
  simpl. destruct vs as [|v vs].
  - destruct Hin as [E|Hin]; [injection E as _ <-; now contradiction Hne|].
    eapply IH; eauto.
  - destruct (event_baseline (v :: vs)) as [bs|e] eqn:Eb; simpl; [|eauto].
    destruct Hin as [E|Hin]; [|eapply IH; eauto].
    injection E as _ <-. destruct Hraise as [e He]. congruence.
Qed.

Lemma sorted_log_files_in f listing :
  In f (sorted_log_files listing) <-> In f listing /\ is_log_file f = true.
Proof.
  unfold sorted_log_files. rewrite <- filter_In. split; intros H.
  - eapply Permutation_in; [|exact H]. symmetry. apply py_sort_perm.
  - eapply Permutation_in; [|exact H]. apply py_sort_perm.
Qed.

Lemma collect_completes d names :
  (forall f, In f names ->
     dict_get f d <> None /\ dict_get f d <> Some NonObject) ->
  forall daily_totals, exists t out, collect d names daily_totals = (Ok t, out).
Proof.
  induction names as [|f names IH]; intros H totals; simpl; [eauto|].
  destruct (H f (or_introl eq_refl)) as [H1 H2].
  assert (Hrest : forall g, In g names ->
                    dict_get g d <> None /\ dict_get g d <> Some NonObject)
    by (intros g Hg; apply H; now right).
  destruct (dict_get f d) as [[msg| |items]|]; try congruence.
  - destruct (IH Hrest totals) as (t & out & ->). eauto.
  - apply IH, Hrest.
Qed.

Lemma baselines_completes daily_totals :
  (forall name values, In (name, values) daily_totals -> values <> [] ->
     exists b, event_baseline values = Ok b) ->
  forall acc, exists b, baselines daily_totals acc = Ok b.
Proof.
  induction daily_totals as [|[n vs] rest IH]; intros H acc; simpl; [eauto|].
  assert (Hrest : forall name values, In (name, values) rest -> values <> [] ->
                    exists b, event_baseline values = Ok b)
    by (intros name values Hin; apply (H name); now right).
  destruct vs as [|v vs]; [now apply IH|].
  destruct (H n (v :: vs) (or_introl eq_refl) ltac:(discriminate)) as [b ->].
  simpl. now apply IH.
Qed.

Lemma event_baseline_computable values :
  match spec_std_dev values with
  | Ok _ => exists b, event_baseline values = Ok b
  | Raise _ => exists e, event_baseline values = Raise e
  end.
Proof.
  unfold event_baseline, spec_std_dev, spec_variance, spec_mean, spec_total.
  destruct (py_sum num_of values) as [s|]; cbn [rbind]; [|eauto].
  destruct (py_truediv s _) as [mean|]; cbn [rbind]; [|eauto].
  destruct (py_sum _ values) as [sq|]; cbn [rbind]; [|eauto].
  destruct (py_truediv sq _) as [variance|]; cbn [rbind]; [|eauto].
  destruct (math_sqrt variance) as [sd|]; cbn [rbind]; eauto.
Qed.

(** [round(x, 2)] is the rounding that [rounded_to_hundredths]
    describes. *)
Lemma round2_rounded (x : float) : rounded_to_hundredths x (F.round2 x).
Proof.
  destruct x as [s|s| |s m e]; unfold rounded_to_hundredths, F.round2;
    try reflexivity.
  destruct (Z.leb_spec 0 e) as [He|He]; [reflexivity|].
  assert (Hd : 0 < 2 ^ (- e)) by (apply Z.pow_pos_nonneg; lia).
  exists (F.div_half_even (100 * Z.pos m) (2 ^ (- e))).
  pose proof (div_half_even_bracket (100 * Z.pos m) _ Hd) as Hb.
  pose proof (div_half_even_tie (100 * Z.pos m) _ Hd) as Ht.
  pose proof (div_half_even_nonneg (100 * Z.pos m) (2 ^ (- e)) ltac:(lia) Hd) as Hq.
  revert Hb Ht Hq.
  generalize (F.div_half_even (100 * Z.pos m) (2 ^ (- e))) as q.
  generalize dependent (2 ^ (- e)). intros p Hp q Hb Ht Hq.
  split; [exact Hq|]. split; [reflexivity|].
  replace (q * p) with (p * q) by apply Z.mul_comm.
  split; [|exact Ht]. lia.
Qed.

(** C2 (amended): over a directory whose day logs are JSON objects or
    are skipped, [analyze_stats] completes exactly when the statistics
    of every name of the definitions that accumulated at least one value
    can be computed, and raises otherwise (a [TypeError] on a value that
    is no number, an [OverflowError] on a number too large).  When it
    completes, every such name has an entry whose [total] is the sum of
    its values added in the order of reading (the exact sum when the
    values are integers, and then the mean is the binary64 nearest to
    [total / count]), whose [mean] is [total / count] rounded to two
    decimals and whose [std_dev] is the square root of the population
    variance (the squared deviations from the unrounded mean, divided by
    [count]) rounded to two decimals; rounding to two decimals takes the
    nearest hundredth of the exact binary value, the even one of two
    nearest.  Every other name has no entry. *)
Theorem analyze_stats_statistics w d :
  log_dir w = Some d ->
  NoDup (dict_keys (events w)) ->
  (forall f, In f (sorted_log_files (dict_keys d)) ->
     dict_get f d <> Some NonObject) ->
  let values := accumulated d (sorted_log_files (dict_keys d)) in
  let counted name := In name (dict_keys (events w)) /\ values name <> [] in
  ((forall name, counted name -> exists sd, spec_std_dev (values name) = Ok sd) ->
   exists b w',
     analyze_stats w = (Ok b, w') /\
     forall name,
       (counted name ->
        exists total mean std_dev,
          spec_total (values name) = Ok total /\
          spec_mean (values name) = Ok mean /\
          spec_std_dev (values name) = Ok std_dev /\
          dict_get name b =
            Some {| b_total := total; b_mean := F.round2 mean;
                    b_std_dev := F.round2 std_dev |} /\
          rounded_to_hundredths mean (F.round2 mean) /\
          rounded_to_hundredths std_dev (F.round2 std_dev) /\
          (forall zs, values name = map (fun z => JNum (PyInt z)) zs ->
             total = PyInt (fold_left Z.add zs 0) /\
             mean = F.div_round (fold_left Z.add zs 0 <? 0)
                      (Z.abs (fold_left Z.add zs 0)) (Z.of_nat (List.length zs)))) /\
       (~ counted name -> dict_get name b = None)) /\
  (forall name e,
     counted name -> spec_std_dev (values name) = Raise e ->
     exists e', fst (analyze_stats w) = Raise e').
Proof.
  intros Hd Hnd Hobj values counted.
  destruct (collect_completes d (sorted_log_files (dict_keys d))) with
    (daily_totals := empty_totals (dict_keys (events w))) as (totals & out & Ec).
  { intros f Hf. split; [|now apply Hobj].
    apply sorted_log_files_in in Hf as [Hf _]. intros Hn.
    now apply dict_get_none_keys in Hn. }
  pose proof (collect_get _ _ _ Ec) as [Hkeys Hget].
  rewrite empty_totals_keys in Hkeys.
  assert (Hnd' : NoDup (dict_keys totals)) by now rewrite Hkeys.
  assert (Hval : forall name,
             dict_get name totals =
             if in_dec string_dec name (dict_keys (events w))
             then Some (values name) else None).
  { intros name. rewrite Hget, empty_totals_get.
    now destruct (in_dec string_dec name (dict_keys (events w))). }
  rewrite analyze_stats_spec, Hd. unfold analysis. rewrite Ec. cbn [rbind fst snd].
  split.
  - intros Hcomp.
    destruct (baselines_completes totals) with (acc := @nil (string * Baseline))
      as [b Hb].
    { intros name vs Hin Hne. apply dict_in_get in Hin; [|exact Hnd'].
      rewrite Hval in Hin.
      destruct (in_dec string_dec name (dict_keys (events w))) as [Hdef|];
        [|discriminate].
      injection Hin as <-. destruct (Hcomp name (conj Hdef Hne)) as [sd Hsd].
      pose proof (event_baseline_computable (values name)) as H.
      now rewrite Hsd in H. }
    exists b. eexists. split; [now rewrite Hb|]. intros name.
    pose proof (baselines_get _ _ Hnd' Hb name) as Hname. rewrite Hval in Hname.
    split.
    + intros [Hdef Hne].
      destruct (in_dec string_dec name (dict_keys (events w))); [|contradiction].
      destruct (values name) as [|v vs] eqn:Ev; [contradiction|].
      destruct Hname as (bs & Hbs & Hgetb).
      apply event_baseline_spec in Hbs as (total & mean & sd & Ht & Hm & Hs & ->).
      exists total, mean, sd. repeat split; try assumption;
        try apply round2_rounded.
      * rewrite H, py_sum_ints in Ht. congruence.
      * assert (Hsum : total = PyInt (fold_left Z.add zs 0))
          by (rewrite H, py_sum_ints in Ht; congruence).
        subst total. unfold spec_mean, spec_total in Hm. rewrite H in Hm.
        rewrite py_sum_ints in Hm. cbn [rbind] in Hm. rewrite length_map in Hm.
        unfold py_truediv in Hm.
        destruct (F.div_round _ _ _); congruence.
    + intros Hnot.
      destruct (in_dec string_dec name (dict_keys (events w))) as [Hdef|];
        [|exact Hname].
      destruct (values name) as [|v vs] eqn:Ev; [exact Hname|].
      exfalso. apply Hnot. split; [exact Hdef|]. fold (values name). now rewrite Ev.
  - intros name e [Hdef Hne] Hraise.
    pose proof (event_baseline_computable (values name)) as H.
    rewrite Hraise in H.
    apply (@baselines_raises totals [] name (values name)); [|exact Hne|exact H].
    apply dict_get_some_in. rewrite Hval.
    now destruct (in_dec string_dec name (dict_keys (events w))).
Qed.

Lemma analyze_stats_missing_dir w :
  log_dir w = None -> analyze_stats w = (Raise FileNotFoundError, w).
Proof. intros H. now rewrite analyze_stats_spec, H. Qed.

(** *** The record lines that are read, and when the parsers fail *)

Lemma py_slice_records {X : Type} (first : X) (rest : list X) (n : Z) :
  py_slice (first :: rest) 1 (n + 1) =
  firstn (records_read n (List.length rest)) rest.
Proof.
  unfold py_slice, slice_index, records_read. cbn [List.length].
  set (L := List.length rest).
  replace (1 <? 0) with false by reflexivity.
  rewrite (Z.min_l 1) by lia. change (Z.to_nat 1) with 1%nat. cbn [skipn].
  destruct (n <? -1) eqn:En.
  - apply Z.ltb_lt in En.
    replace (n + 1 <? 0) with true by (symmetry; apply Z.ltb_lt; lia).
    f_equal. lia.
  - apply Z.ltb_ge in En.
    replace (n + 1 <? 0) with false by (symmetry; apply Z.ltb_ge; lia).
    destruct (Z_le_gt_dec n (Z.of_nat L)) as [Hn|Hn].
    + f_equal. lia.
    + replace (Z.to_nat (Z.min (n + 1) (Z.of_nat (S L)) - 1)) with L by lia.
      unfold L. rewrite firstn_all, firstn_all2 by lia. reflexivity.
Qed.

(** X1: the count of the first line bounds the record lines from above
    and is not checked against the file.  Both parsers process the first
    [n] lines after the first one when [n >= 0], all of them when the
    file holds fewer, and never raise for a missing line; for [n = -1]
    they process none, and for [n < -1] all but the last [-(n + 1)]. *)
Theorem header_count_bounds_records first rest n w :
  int_of_str (PyStr.strip first) = Some n ->
  read_events float_of_str int_of_str (first :: rest) w =
    for_each (firstn (records_read n (List.length rest)) rest)
      (read_events_line float_of_str int_of_str) w /\
  read_statistics float_of_str int_of_str (first :: rest) w =
    for_each (firstn (records_read n (List.length rest)) rest)
      (read_statistics_line float_of_str) w.
Proof.
  intros Hn.
  rewrite read_events_unfold, read_statistics_unfold, Hn.
  unfold record_lines. rewrite Hn, py_slice_records. now split.
Qed.


(** X2: each parser raises an [IndexError] on a file without lines and
    a [ValueError] when [int] rejects its first line, in both cases
    before anything is changed; otherwise it completes exactly when no
    record line it reads has the right number of fields and a field that
    [float] or [int] rejects, and raises a [ValueError] when one has. *)
Theorem parsers_fail_exactly_on_bad_fields :
  (forall lines w,
     match header_count int_of_str lines with
     | Raise e => read_events float_of_str int_of_str lines w = (Raise e, w)
     | Ok _ =>
         exists w',
           read_events float_of_str int_of_str lines w =
           (if existsb (fun l => is_fatal (parse_event_line l)) (record_lines lines)
            then Raise ValueError else Ok tt, w')
     end) /\
  (forall lines w,
     match header_count int_of_str lines with
     | Raise e => read_statistics float_of_str int_of_str lines w = (Raise e, w)
     | Ok _ =>
         exists w',
           read_statistics float_of_str int_of_str lines w =
           (if existsb (fun l => is_fatal (parse_statistics_line l))
                 (record_lines lines)
            then Raise ValueError else Ok tt, w')
     end).
Proof.
  split; intros lines w.
  - rewrite read_events_unfold. unfold header_count.
    destruct lines as [|first rest]; [reflexivity|].
    destruct (int_of_str (PyStr.strip first)); [|reflexivity].
    apply (line_loop_outcome _ _ _ _ _ read_events_line_spec).
  - rewrite read_statistics_unfold. unfold header_count.
    destruct lines as [|first rest]; [reflexivity|].
    destruct (int_of_str (PyStr.strip first)); [|reflexivity].
    apply (line_loop_outcome _ _ _ _ _ read_statistics_line_spec).
Qed.

Lemma record_lines_header lines l ls :
  record_lines lines = l :: ls ->
  exists first rest n,
    lines = first :: rest /\ int_of_str (PyStr.strip first) = Some n.
Proof.
  unfold record_lines. destruct lines as [|first rest]; [discriminate|].
  destruct (int_of_str (PyStr.strip first)) as [n|] eqn:En; [|discriminate].
  intros _. exists first, rest, n. now split.
Qed.

(** X3: a parser that fails on a record line does not undo what the
    lines before it did: when the first record line with a field that
    [float] or [int] rejects comes after the lines [pre], the call raises
    a [ValueError] and leaves the dictionary with the entries that [pre]
    assigned (the last assignment of a name winning) on top of what it
    held before, and the diagnostics of the lines of [pre] that were
    skipped are printed. *)
Theorem parser_failure_keeps_earlier_entries :
  (forall lines pre bad post w,
     record_lines lines = (pre ++ bad :: post)%list ->
     existsb (fun l => is_fatal (parse_event_line l)) pre = false ->
     is_fatal (parse_event_line bad) = true ->
     exists w1,
       read_events float_of_str int_of_str lines w = (Raise ValueError, w1) /\
       (forall name,
          dict_get name (events w1) =
          match last_assigned name (map parse_event_line pre) with
          | Some v => Some v
          | None => dict_get name (events w)
          end) /\
       stdout w1 =
         (stdout w ++
          map events_diagnostic
            (filter (fun l => is_skipped (parse_event_line l)) pre))%list /\
       statistics w1 = statistics w /\ log_dir w1 = log_dir w) /\
  (forall lines pre bad post w,
     record_lines lines = (pre ++ bad :: post)%list ->
     existsb (fun l => is_fatal (parse_statistics_line l)) pre = false ->
     is_fatal (parse_statistics_line bad) = true ->
     exists w1,
       read_statistics float_of_str int_of_str lines w = (Raise ValueError, w1) /\
       (forall name,
          dict_get name (statistics w1) =
          match last_assigned name (map parse_statistics_line pre) with
          | Some v => Some v
          | None => dict_get name (statistics w)
          end) /\
       stdout w1 =
         (stdout w ++
          map statistics_diagnostic
            (filter (fun l => is_skipped (parse_statistics_line l)) pre))%list /\
       events w1 = events w /\ log_dir w1 = log_dir w).
Proof.
  split; intros lines pre bad post w Hrec Hpre Hbad.
  - assert (Hh : exists l ls, record_lines lines = l :: ls)
      by (rewrite Hrec; destruct pre; simpl; eauto).
    destruct Hh as (l & ls & Hh).
    apply record_lines_header in Hh as (first & rest & n & -> & Hn).
    rewrite read_events_unfold, Hn, Hrec.
    destruct (line_loop_fatal _ _ _ _ _ read_events_line_spec pre bad post w Hpre Hbad)
      as (w1 & H1 & H2).
    exists w1. split; [exact H2|].
    pose proof (line_loop_spec _ _ _ _ _ read_events_line_spec
                  (fun _ _ => eq_refl) (fun _ _ => eq_refl) (fun _ _ => eq_refl)
                  _ _ H1) as [Hget Hout].
    split; [exact Hget|]. split; [exact Hout|].
    assert (Hinv : (fun w0 => statistics w0 = statistics w /\ log_dir w0 = log_dir w)
                     (snd (for_each pre (read_events_line float_of_str int_of_str) w))).
    { apply for_each_invariant; [|now split].
      intros x w0 Hw0. rewrite read_events_line_spec.
      destruct (parse_event_line x); exact Hw0. }
    rewrite H1 in Hinv. exact Hinv.
  - assert (Hh : exists l ls, record_lines lines = l :: ls)
      by (rewrite Hrec; destruct pre; simpl; eauto).
    destruct Hh as (l & ls & Hh).
    apply record_lines_header in Hh as (first & rest & n & -> & Hn).
    rewrite read_statistics_unfold, Hn, Hrec.
    destruct (line_loop_fatal _ _ _ _ _ read_statistics_line_spec pre bad post w
                Hpre Hbad) as (w1 & H1 & H2).
    exists w1. split; [exact H2|].
    pose proof (line_loop_spec _ _ _ _ _ read_statistics_line_spec
                  (fun _ _ => eq_refl) (fun _ _ => eq_refl) (fun _ _ => eq_refl)
                  _ _ H1) as [Hget Hout].
    split; [exact Hget|]. split; [exact Hout|].
    assert (Hinv : (fun w0 => events w0 = events w /\ log_dir w0 = log_dir w)
                     (snd (for_each pre (read_statistics_line float_of_str) w))).
    { apply for_each_invariant; [|now split].
      intros x w0 Hw0. rewrite read_statistics_line_spec.
      destruct (parse_statistics_line x); exact Hw0. }
    rewrite H1 in Hinv. exact Hinv.
Qed.

(** *** The keys of a record *)

Lemma dict_mem_set_other {V : Type} (k k' : string) (v : V) (d : dict V) :
  k' <> k -> dict_mem k' (dict_set k v d) = dict_mem k' d.
Proof. intros H. unfold dict_mem. now rewrite dict_get_set_other. Qed.

Lemma Forall2_in_right {A B : Type} (P : A -> B -> Prop) (l : list A) (l' : list B) b :
  Forall2 P l l' -> In b l' -> exists a, In a l /\ P a b.
Proof.
  induction 1 as [|a b' l l' Hab Hall IH]; intros Hin; [contradiction|].
  destruct Hin as [->|Hin].
  - exists a. split; [now left|exact Hab].
  - destruct (IH Hin) as (a' & Ha' & Hp). exists a'. split; [now right|exact Hp].
Qed.

Lemma sample_loop_keys l :
  forall daily_events w r,
    NoDup (dict_keys l) ->
    fst (fold_each l daily_events (sample_event gauss) w) = Ok r ->
    dict_keys r =
    (dict_keys daily_events ++
     filter (fun name => dict_mem name (statistics w) &&
                         negb (dict_mem name daily_events))
       (dict_keys l))%list.
Proof.
  induction l as [|[n i] l IH]; intros daily w r Hnd; simpl.
  - intros [= <-]. now rewrite List.app_nil_r.
  - unfold bind.
    pose proof (sample_event_result daily (n, i) w) as Hres.
    pose proof (sample_event_world daily (n, i) w) as (_ & Hst & _).
    destruct (sample_event gauss daily (n, i) w) as [[daily'|e] w'];
      simpl in Hres, Hst; [|discriminate].
    inversion Hnd as [|? ? Hnotin Hnd']; subst.
    intros Hr. apply IH in Hr; [|exact Hnd']. rewrite Hst in Hr.
    assert (Hext : forall v,
               filter (fun name => dict_mem name (statistics w) &&
                                   negb (dict_mem name (dict_set n v daily)))
                 (dict_keys l) =
               filter (fun name => dict_mem name (statistics w) &&
                                   negb (dict_mem name daily)) (dict_keys l)).
    { intros v. apply filter_ext_in. intros m Hm.
      rewrite dict_mem_set_other; [reflexivity|]. intros ->. contradiction. }
    destruct (dict_get n (statistics w)) as [st|] eqn:Es.
    + destruct (clamped_value i _) as [v|]; [|discriminate]. injection Hres as ->.
      rewrite Hext in Hr. rewrite Hr.
      assert (Hn : dict_mem n (statistics w) = true)
        by (unfold dict_mem; now rewrite Es).
      rewrite Hn. cbn [andb].
      destruct (dict_get n daily) as [v0|] eqn:Ed.
      * assert (Hm : dict_mem n daily = true) by (unfold dict_mem; now rewrite Ed).
        rewrite Hm. cbn [negb]. now erewrite dict_keys_set_mem by eassumption.
      * assert (Hm : dict_mem n daily = false) by (unfold dict_mem; now rewrite Ed).
        rewrite Hm. cbn [negb].
        rewrite dict_keys_set_new by assumption. now rewrite <- List.app_assoc.
    + injection Hres as ->. rewrite Hr.
      assert (Hn : dict_mem n (statistics w) = false)
        by (unfold dict_mem; now rewrite Es).
      now rewrite Hn.
Qed.

(** X4: every record that [generate_events] returns lists ["Day"] first
    and then exactly the events that have both a definition and
    statistics, in the order of the definitions: an event without
    statistics, and statistics without an event, leave no key in it. *)
Theorem records_hold_day_then_sampled_events w days recs w' :
  NoDup (dict_keys (events w)) ->
  generate_events gauss days w = (Ok recs, w') ->
  forall r, In r recs -> dict_keys r = "Day" :: sampled_names w.
Proof.
  intros Hnd Hgen r Hr. apply generate_events_spec in Hgen as (Hall & _).
  destruct (Forall2_in_right _ Hall Hr) as (day & _ & wa & [Hev Hst] & Hs).
  unfold sample_day, bind, get in Hs. apply sample_loop_keys in Hs.
  - rewrite Hs, Hev, Hst. simpl. f_equal. unfold sampled_names.
    apply filter_ext. intros m. unfold dict_mem at 2. simpl.
    now destruct (String.eqb m "Day").
  - now rewrite Hev.
Qed.

(** *** The draws *)

Lemma day_draws_config w w' : same_config w w' -> day_draws w' = day_draws w.
Proof. intros [Hev Hst]. unfold day_draws. now rewrite Hev, Hst. Qed.

Lemma generate_loop_rng days :
  forall acc w recs w',
    fold_each days acc (generate_day gauss) w = (Ok recs, w') ->
    rng w' =
    draw_all gauss (List.concat (repeat (day_draws w) (List.length days))) (rng w).
Proof.
  induction days as [|day days IH]; intros acc w recs w'; simpl.
  - now intros [= _ <-].
  - unfold bind. pose proof (generate_day_spec acc day w) as Hday.
    pose proof (sample_day_world day w) as (Hev & Hst & _).
    destruct (sample_day gauss day w) as [[daily|e] w1] eqn:Es; simpl in *;
      rewrite Hday; [|discriminate].
    destruct (log_dir w) as [d|]; [|discriminate].
    destruct (write_failure w (log_file day)) as [f|]; [discriminate|].
    intros Hrest. apply IH in Hrest. simpl in Hrest.
    rewrite (day_draws_config (w := w)) in Hrest by (split; assumption).
    rewrite Hrest. unfold draw_all. rewrite fold_left_app. f_equal.
    unfold sample_day, bind, get in Es. now apply sample_loop_rng in Es.
Qed.

(** X5: a run of [generate_events] that completes calls [random.gauss]
    exactly once for each event that has statistics, with the mean and
    the standard deviation of that event, the events in the order of the
    definitions and a whole day before the next one; an event without
    statistics consumes no draw.  The generator is left in the state
    that these [days * k] calls produce. *)
Theorem generate_events_draws_once_per_sampled_event w days recs w' :
  generate_events gauss days w = (Ok recs, w') ->
  rng w' =
  draw_all gauss (List.concat (repeat (day_draws w) (Z.to_nat days))) (rng w).
Proof.
  unfold generate_events, bind, ensure_log_dir, modify. intros H.
  apply generate_loop_rng in H.
  unfold py_range in H. rewrite length_map, length_seq in H. rewrite H.
  now destruct (log_dir w).
Qed.

(** *** When the generator fails *)

Lemma py_int_raises (v : pynum) e :
  py_int v = Raise e -> e = ValueError \/ e = OverflowError.
Proof.
  destruct v as [z|x]; simpl; [discriminate|].
  destruct (F.trunc x); [discriminate|]. intros [= <-].
  destruct x; auto.
Qed.

Lemma clamped_value_raises event_info g e :
  clamped_value event_info g = Raise e ->
  e_type event_info <> "C" /\ (e = ValueError \/ e = OverflowError).
Proof.
  unfold clamped_value.
  destruct (String.eqb_spec (e_type event_info) "C") as [HC|HD]; [discriminate|].
  intros H. split; [exact HD|].
  destruct (py_int (e_min event_info)) as [lo|e1] eqn:E1; cbn [rbind] in H;
    [|injection H as <-; eapply py_int_raises; eauto].
  destruct (py_int (PyFloat g)) as [gi|e2] eqn:E2; cbn [rbind] in H;
    [|injection H as <-; eapply py_int_raises; eauto].
  destruct (py_int (PyFloat (e_max event_info))) as [hi|e3] eqn:E3; cbn [rbind] in H;
    [discriminate|injection H as <-; eapply py_int_raises; eauto].
Qed.

Lemma sample_loop_raises l :
  forall daily_events w e,
    fst (fold_each l daily_events (sample_event gauss) w) = Raise e ->
    (e = ValueError \/ e = OverflowError) /\
    exists name event_info,
      In (name, event_info) l /\ dict_mem name (statistics w) = true /\
      e_type event_info <> "C".
Proof.
  induction l as [|[n i] l IH]; intros daily w e; simpl; [discriminate|].
  unfold bind.
  pose proof (sample_event_result daily (n, i) w) as Hres.
  pose proof (sample_event_world daily (n, i) w) as (_ & Hst & _).
  destruct (sample_event gauss daily (n, i) w) as [[daily'|e'] w']; simpl in *.
  - intros H. apply IH in H as (He & name & info & Hin & Hmem & HD).
    split; [exact He|]. exists name, info. rewrite Hst in Hmem.
    split; [now right|]. split; [exact Hmem|exact HD].
  - intros [= <-].
    destruct (dict_get n (statistics w)) as [st|] eqn:Es; [|discriminate].
    destruct (clamped_value i _) as [v|e0] eqn:Ev; [discriminate|].
    injection Hres as ->. apply clamped_value_raises in Ev as [HD He].
    split; [exact He|]. exists n, i.
    split; [now left|]. split; [unfold dict_mem; now rewrite Es|exact HD].
Qed.

Lemma generate_loop_raises days :
  forall acc w d e w',
    log_dir w = Some d ->
    fold_each days acc (generate_day gauss) w = (Raise e, w') ->
    exists k recs,
      (k < List.length days)%nat /\
      Forall2 (day_record w) (firstn k days) recs /\
      same_config w w' /\ stdout w' = stdout w /\
      (((e = ValueError \/ e = OverflowError) /\
        (exists name event_info,
           In (name, event_info) (events w) /\
           dict_mem name (statistics w) = true /\ e_type event_info <> "C") /\
        log_dir w' = Some (write_days (firstn k days) recs d))
       \/
       (exists day f,
          nth_error days k = Some day /\
          write_failure w (log_file day) = Some f /\ e = wf_error f /\
          log_dir w' =
          Some (match wf_left f with
                | Some data =>
                    dict_set (log_file day) data (write_days (firstn k days) recs d)
                | None => write_days (firstn k days) recs d
                end))).
Proof.
  induction days as [|day days IH]; intros acc w d e w' Hd; simpl;
    [discriminate|].
  unfold bind. pose proof (generate_day_spec acc day w) as Hday.
  pose proof (sample_day_world day w) as (Hev & Hst & Hdir & Hout & Hwf).
  destruct (sample_day gauss day w) as [[daily|e0] w1] eqn:Es; simpl in *;
    rewrite Hday, ?Hd.
  - destruct (write_failure w (log_file day)) as [f|] eqn:Ef.
    + intros [= <- <-]. exists 0%nat, []. simpl.
      split; [lia|]. split; [constructor|].
      split; [destruct (wf_left f); now split|].
      split; [now destruct (wf_left f)|].
      right. exists day, f. split; [reflexivity|]. split; [exact Ef|].
      split; [reflexivity|].
      destruct (wf_left f); [reflexivity|]. now rewrite Hdir, Hd.
    + intros Hrest.
      apply IH with (d := dict_set (log_file day) (json_of daily) d) in Hrest
        as (k & recs & Hk & Hall & [Hev' Hst'] & Hout' & Hcase); [|reflexivity].
      simpl in *. exists (S k), (daily :: recs). simpl.
      split; [lia|]. split.
      { constructor.
        - exists w. split; [now split|]. now rewrite Es.
        - eapply Forall2_impl; [|exact Hall].
          intros a b (wa & [Ha Hb] & Hs). simpl in Ha, Hb.
          exists wa. split; [split; congruence|exact Hs]. }
      split; [split; congruence|]. split; [congruence|].
      destruct Hcase as [(He & (name & info & Hin & Hmem & HD) & Hdir')
                        |(day' & f & Hnth & Hf & He & Hdir')].
      * left. split; [exact He|]. split; [|exact Hdir'].
        exists name, info. rewrite Hev in Hin. rewrite Hst in Hmem. auto.
      * right. exists day', f. rewrite Hwf in Hf. auto.
  - intros [= <- <-].
    assert (Hs : fst (sample_day gauss day w) = Raise e0) by now rewrite Es.
    unfold sample_day, bind, get in Hs. apply sample_loop_raises in Hs as [He Hex].
    exists 0%nat, []. simpl. split; [lia|]. split; [constructor|].
    split; [now split|]. split; [exact Hout|].
    left. split; [exact He|]. split; [exact Hex|]. now rewrite Hdir, Hd.
Qed.

(** X6: from an existing [logs/], [generate_events] fails in two ways
    only: while sampling a Discrete event that has statistics, with the
    [ValueError] or the [OverflowError] of an [int()] of a NaN or of an
    infinite value, or when the storage fails on the log of a day, with
    the exception of the storage.  In both cases it does not clean up:
    the logs of the days completed before the failing one have been
    written and stay, nothing is returned or printed, and the log of the
    failing day is not written, or holds what the failed write left. *)
Theorem generate_events_failure_keeps_earlier_logs w d days e w' :
  log_dir w = Some d ->
  generate_events gauss days w = (Raise e, w') ->
  exists k recs,
    (k < Z.to_nat days)%nat /\
    Forall2 (day_record w) (firstn k (py_range days)) recs /\
    same_config w w' /\ stdout w' = stdout w /\
    (((e = ValueError \/ e = OverflowError) /\
      (exists name event_info,
         In (name, event_info) (events w) /\
         dict_mem name (statistics w) = true /\ e_type event_info <> "C") /\
      log_dir w' = Some (write_days (firstn k (py_range days)) recs d))
     \/
     (exists f,
        write_failure w (log_file (Z.of_nat k)) = Some f /\ e = wf_error f /\
        log_dir w' =
        Some (match wf_left f with
              | Some data =>
                  dict_set (log_file (Z.of_nat k)) data
                    (write_days (firstn k (py_range days)) recs d)
              | None => write_days (firstn k (py_range days)) recs d
              end))).
Proof.
  unfold generate_events, bind, ensure_log_dir, modify. intros Hd H.
  assert (Hlen : List.length (py_range days) = Z.to_nat days)
    by (unfold py_range; now rewrite length_map, length_seq).
  rewrite Hd in H. eapply generate_loop_raises in H; [|exact Hd].
  destruct H as (k & recs & Hk & Hall & Hcfg & Hout & Hcase).
  rewrite Hlen in Hk. exists k, recs.
  split; [exact Hk|]. split; [exact Hall|]. split; [exact Hcfg|].
  split; [exact Hout|].
  destruct Hcase as [Hsample|(day & f & Hnth & Hf & He & Hdir)]; [now left|].
  right. exists f.
  assert (Hday : day = Z.of_nat k).
  { unfold py_range in Hnth. rewrite nth_error_map in Hnth.
    rewrite (nth_error_nth' _ 0%nat) in Hnth by (rewrite length_seq; lia).
    rewrite seq_nth in Hnth by lia. now injection Hnth as <-. }
  subst day. auto.
Qed.


(** *** What the aggregation reads *)

Lemma collect_ext d1 d2 names :
  (forall f, In f names -> dict_get f d1 = dict_get f d2) ->
  forall daily_totals, collect d1 names daily_totals = collect d2 names daily_totals.
Proof.
  induction names as [|name names IH]; intros Hsame totals; simpl; [reflexivity|].
  rewrite <- (Hsame name) by now left.
  destruct (dict_get name d1) as [[msg| |items]|]; try reflexivity.
  - rewrite IH by (intros; apply Hsame; now right). reflexivity.
  - apply IH. intros; apply Hsame; now right.
Qed.

(** X8: [analyze_stats] reads the files of [logs/] whose name starts
    with [day_] and ends with [.log], and nothing else of the directory:
    over two directories that list the same such names in the same order
    and hold the same content under each of them, and with the same
    names defined in memory, it returns the same result and prints the
    same lines, whatever other files the directories hold. *)
Theorem analyze_stats_reads_only_day_logs w1 w2 d1 d2 :
  log_dir w1 = Some d1 ->
  log_dir w2 = Some d2 ->
  dict_keys (events w1) = dict_keys (events w2) ->
  filter is_log_file (dict_keys d1) = filter is_log_file (dict_keys d2) ->
  (forall f, is_log_file f = true -> dict_get f d1 = dict_get f d2) ->
  fst (analyze_stats w1) = fst (analyze_stats w2) /\
  exists out,
    stdout (snd (analyze_stats w1)) = (stdout w1 ++ out)%list /\
    stdout (snd (analyze_stats w2)) = (stdout w2 ++ out)%list.
Proof.
  intros H1 H2 Hnames Hlist Hsame.
  rewrite !analyze_stats_spec, H1, H2, Hnames. unfold analysis, sorted_log_files.
  rewrite Hlist.
  rewrite (collect_ext d1 d2).
  - destruct (collect d2 _ _) as [r out]. simpl. split; [reflexivity|].
    exists out. now split.
  - intros f Hf. apply Hsame.
    change (py_sort (filter is_log_file (dict_keys d2)))
      with (sorted_log_files (dict_keys d2)) in Hf.
    now apply sorted_log_files_in in Hf.
Qed.

Lemma collect_non_object d names :
  (forall f, In f names -> dict_get f d <> None) ->
  forall f, In f names -> dict_get f d = Some NonObject ->
  forall daily_totals, fst (collect d names daily_totals) = Raise AttributeError.
Proof.
  induction names as [|name names IH]; intros Hex f Hf Hbad totals; [contradiction|].
  assert (Hrest : forall g, In g names -> dict_get g d <> None)
    by (intros; apply Hex; now right).
  simpl. destruct (dict_get name d) as [[msg| |items]|] eqn:E.
  - destruct Hf as [->|Hf]; [congruence|].
    specialize (IH Hrest f Hf Hbad totals).
    destruct (collect d names totals) as [r out]. exact IH.
  - reflexivity.
  - destruct Hf as [->|Hf]; [congruence|]. now apply (IH Hrest f).
  - exfalso. apply (Hex name); [now left|exact E].
Qed.

(** X9: a log that holds a JSON document other than an object (a list,
    a number, a string, [null]) makes [analyze_stats] raise an
    [AttributeError]: the handler of the loop catches a document that
    does not parse, not one that has no [items()]. *)
Theorem non_object_log_raises_attribute_error w d f :
  log_dir w = Some d ->
  is_log_file f = true ->
  dict_get f d = Some NonObject ->
  fst (analyze_stats w) = Raise AttributeError.
Proof.
  intros Hd Hlog Hbad. rewrite analyze_stats_spec, Hd. unfold analysis.
  pose proof (collect_non_object d (sorted_log_files (dict_keys d))) as H.
  specialize (H (fun g Hg => proj2 (not_iff_compat (dict_get_none_keys g d))
                              (fun Hn => Hn (proj1 (proj1 (sorted_log_files_in g _) Hg))))).
  specialize (H f).
  destruct (collect d _ _) as [r out] eqn:Ec. simpl.
  assert (Hf : In f (sorted_log_files (dict_keys d))).
  { apply sorted_log_files_in. split; [|exact Hlog].
    destruct (in_dec string_dec f (dict_keys d)) as [Hin|Hnin]; [exact Hin|].
    apply dict_get_none_keys in Hnin. congruence. }
  specialize (H Hf Hbad (empty_totals (dict_keys (events w)))).
  rewrite Ec in H. simpl in H. now rewrite H.
Qed.

Lemma collect_corrupt_as_empty d f msg names :
  dict_get f d = Some (Corrupt msg) ->
  forall daily_totals,
    fst (collect (dict_set f (Object []) d) names daily_totals) =
    fst (collect d names daily_totals).
Proof.
  intros Hf. induction names as [|name names IH]; intros totals; simpl;
    [reflexivity|].
  rewrite dict_get_set. destruct (String.eqb_spec name f) as [->|Hne].
  - rewrite Hf. simpl. rewrite IH.
    now destruct (collect d names totals).
  - destruct (dict_get name d) as [[msg'| |items]|]; try reflexivity.
    + specialize (IH totals).
      destruct (collect (dict_set f (Object []) d) names totals).
      destruct (collect d names totals). exact IH.
    + apply IH.
Qed.

Lemma collect_diagnostics d f msg names :
  dict_get f d = Some (Corrupt msg) ->
  In f names ->
  forall daily_totals totals' out,
    collect d names daily_totals = (Ok totals', out) ->
    In (log_diagnostic f msg) out.
Proof.
  intros Hf. induction names as [|name names IH]; intros Hin totals totals' out;
    [contradiction|].
  simpl. destruct (dict_get name d) as [[msg'| |items]|] eqn:E; try discriminate.
  - destruct (collect d names totals) as [r out'] eqn:Ec. intros [= -> <-].
    destruct Hin as [->|Hin].
    + left. congruence.
    + right. eapply IH; eauto.
  - destruct Hin as [->|Hin]; [congruence|]. now apply IH.
Qed.

(** X10: a day log on which [json.load] raises a [JSONDecodeError] (a
    file that is read as text and whose text is not a JSON document) is
    skipped: the result of [analyze_stats] is the one it returns when
    that log holds the empty object [{}] instead, and a run that
    completes has printed the line that reports the log with the message
    of the decoder. *)
Theorem corrupt_log_is_skipped w d f msg :
  log_dir w = Some d ->
  is_log_file f = true ->
  dict_get f d = Some (Corrupt msg) ->
  fst (analyze_stats (with_log_dir (Some (dict_set f (Object []) d)) w)) =
    fst (analyze_stats w) /\
  (forall b w',
     analyze_stats w = (Ok b, w') ->
     exists out,
       stdout w' = (stdout w ++ out)%list /\ In (log_diagnostic f msg) out).
Proof.
  intros Hd Hlog Hf. rewrite !analyze_stats_spec, Hd. simpl. split.
  - unfold analysis. rewrite (dict_keys_set_mem _ _ _ Hf).
    pose proof (collect_corrupt_as_empty d f (sorted_log_files (dict_keys d)) Hf
                  (empty_totals (dict_keys (events w)))) as H.
    destruct (collect (dict_set f (Object []) d) _ _) as [r1 o1].
    destruct (collect d _ _) as [r2 o2]. simpl in *. now rewrite H.
  - intros b w'. unfold analysis.
    destruct (collect d _ _) as [[totals|e] out] eqn:Ec; simpl; [|discriminate].
    intros [= _ <-]. exists out. split; [reflexivity|].
    eapply collect_diagnostics; eauto.
    apply sorted_log_files_in. split; [|exact Hlog].
    destruct (in_dec string_dec f (dict_keys d)) as [Hin|Hnin]; [exact Hin|].
    apply dict_get_none_keys in Hnin. congruence.
Qed.

(** *** Values that are not numbers *)

(** X11: [analyze_stats] returns no baseline at all when a log holds,
    under a name that is defined in memory, a value that is not a number
    (a string, [null], a list, an object): it raises, the [TypeError] of
    [sum] unless it fails earlier. *)
Theorem non_number_value_makes_analysis_raise w d name :
  log_dir w = Some d ->
  In name (dict_keys (events w)) ->
  In JOther (accumulated d (sorted_log_files (dict_keys d)) name) ->
  (exists e, fst (analyze_stats w) = Raise e) /\
  exists e,
    event_baseline (accumulated d (sorted_log_files (dict_keys d)) name) = Raise e.
Proof.
  intros Hd Hname Hbad.
  assert (Hev : exists e,
             event_baseline (accumulated d (sorted_log_files (dict_keys d)) name) =
             Raise e).
  { unfold event_baseline.
    destruct (py_sum_raises num_of _ _ Hbad (ex_intro _ TypeError eq_refl)) as [e ->].
    simpl. eauto. }
  split; [|exact Hev].
  rewrite analyze_stats_spec, Hd. unfold analysis.
  destruct (collect d _ _) as [[totals|e] out] eqn:Ec; simpl; [|eauto].
  apply collect_get in Ec as [_ Hget]. specialize (Hget name).
  rewrite empty_totals_get in Hget.
  destruct (in_dec string_dec name (dict_keys (events w))) as [_|Hn];
    [|contradiction].
  simpl in Hget. apply dict_get_some_in in Hget.
  eapply baselines_raises; eauto.
  intros E. rewrite E in Hbad. contradiction.
Qed.

(** *** What the aggregation leaves alone *)

(** X12: [analyze_stats] changes nothing but the output: the
    definitions, the statistics, the directory and the state of the
    generator are what they were, whether it returns or raises, so a
    second call returns or raises what the first did. *)
Theorem analyze_stats_only_prints w :
  let w1 := snd (analyze_stats w) in
  events w1 = events w /\ statistics w1 = statistics w /\
  log_dir w1 = log_dir w /\ rng w1 = rng w /\
  (exists out, stdout w1 = (stdout w ++ out)%list) /\
  fst (analyze_stats w1) = fst (analyze_stats w).
Proof.
  intros w1. unfold w1. pose proof (analyze_stats_spec w) as Hspec.
  destruct (log_dir w) as [d|] eqn:Hd; rewrite Hspec; simpl.
  - repeat split; try assumption; [eauto|].
    rewrite analyze_stats_spec. simpl. now rewrite Hd.
  - repeat split; try assumption; [exists []; now rewrite List.app_nil_r|].
    now rewrite Hspec.
Qed.

(** *** The sign of the standard deviation *)

Lemma binary_round_aux_not_negative mx ex lx :
  not_negative (binary_round_aux F.prec F.emax false mx ex lx) = true.
Proof.
  unfold binary_round_aux.
  destruct (shr_fexp F.prec F.emax mx ex lx) as [m1 e1].
  destruct (shr_fexp F.prec F.emax _ e1 loc_Exact) as [m2 e2].
  destruct (shr_m m2); try reflexivity.
  destruct (e2 <=? F.emax - F.prec); reflexivity.
Qed.

Lemma math_sqrt_not_negative x y : math_sqrt x = Ok y -> not_negative y = true.
Proof.
  destruct x as [s|[]| |[] m e]; simpl; try discriminate; intros [= <-];
    try reflexivity.
  unfold F.sqrt, SFsqrt.
  destruct (SFsqrt_core_binary F.prec F.emax (Z.pos m) e) as [[mz ez] lz].
  apply binary_round_aux_not_negative.
Qed.

Lemma round2_not_negative x : not_negative x = true -> not_negative (F.round2 x) = true.
Proof.
  destruct x as [s|s| |s m e]; unfold F.round2; auto.
  destruct s; [discriminate|]. intros _.
  destruct (0 <=? e); [reflexivity|].
  destruct (div_round_cases false (F.div_half_even (100 * Z.pos m) (2 ^ (- e))) 100)
    as [H|[H|(m' & e' & H)]]; now rewrite H.
Qed.

Lemma not_negative_lt x : not_negative x = true -> py_lt (PyFloat x) (PyInt 0) = false.
Proof.
  destruct x as [s|[]| |[] m e]; unfold not_negative; try discriminate; intros _;
    try reflexivity.
  unfold py_lt, py_compare, Zfcompare. cbn [cond_Zopp option_map].
  destruct (0 <=? e) eqn:Ee; [|reflexivity].
  apply Z.leb_le in Ee.
  assert (H : 0 < Z.pos m * 2 ^ e)
    by (apply Z.mul_pos_pos; [lia|apply Z.pow_pos_nonneg; lia]).
  apply Z.compare_lt_iff in H. now rewrite H.
Qed.

Lemma baselines_entry daily_totals :
  forall acc b,
    baselines daily_totals acc = Ok b ->
    forall name bl,
      dict_get name b = Some bl ->
      dict_get name acc = Some bl \/ exists values, event_baseline values = Ok bl.
Proof.
  induction daily_totals as [|[n vs] rest IH]; intros acc b Hb name bl Hget; simpl in Hb.
  - injection Hb as <-. now left.
  - destruct vs as [|v vs]; [eapply IH; eauto|].
    destruct (event_baseline (v :: vs)) as [bs|e] eqn:Eb; [|discriminate].
    cbn [rbind] in Hb. destruct (IH _ _ Hb _ _ Hget) as [H|H]; [|now right].
    rewrite dict_get_set in H. destruct (String.eqb name n); [|now left].
    injection H as <-. right. eauto.
Qed.

(** X13: the standard deviation of every entry that [analyze_stats]
    returns is a NaN, a zero or a positive float: it never compares
    below zero. *)
Theorem baseline_std_dev_not_negative w b w' name bl :
  analyze_stats w = (Ok b, w') ->
  dict_get name b = Some bl ->
  not_negative (b_std_dev bl) = true /\
  py_lt (PyFloat (b_std_dev bl)) (PyInt 0) = false.
Proof.
  intros Hrun Hget. rewrite analyze_stats_spec in Hrun.
  destruct (log_dir w) as [d|]; [|discriminate]. unfold analysis in Hrun.
  destruct (collect d _ _) as [[totals|e] out]; simpl in Hrun; [|discriminate].
  injection Hrun as Hb _.
  destruct (baselines_entry _ _ Hb _ Hget) as [H|[values Hv]]; [discriminate|].
  assert (Hnn : not_negative (b_std_dev bl) = true).
  { unfold event_baseline in Hv.
    destruct (py_sum num_of values) as [s|]; [|discriminate]. cbn [rbind] in Hv.
    destruct (py_truediv s _) as [mean|]; [|discriminate]. cbn [rbind] in Hv.
    destruct (py_sum _ values) as [sq|]; [|discriminate]. cbn [rbind] in Hv.
    destruct (py_truediv sq _) as [variance|]; [|discriminate]. cbn [rbind] in Hv.
    destruct (math_sqrt variance) as [sd|] eqn:Es; [|discriminate]. cbn [rbind] in Hv.
    injection Hv as <-. simpl. apply round2_not_negative.
    eapply math_sqrt_not_negative; eauto. }
  split; [exact Hnn|now apply not_negative_lt].
Qed.

(** *** From the generator to the aggregation *)

Lemma rev_onto_app (a b acc : string) :
  PyStr.rev_onto (a ++ b) acc = PyStr.rev_onto b (PyStr.rev_onto a acc).
Proof. revert acc. induction a as [|c a IH]; intros acc; simpl; auto. Qed.

Lemma is_log_file_log_file (day : Z) : is_log_file (log_file day) = true.
Proof.
  assert (Hp : forall s, String.prefix "" s = true) by (intros []; reflexivity).
  unfold is_log_file, log_file, PyStr.startswith, PyStr.endswith, PyStr.rev.
  apply andb_true_intro. split.
  - simpl. apply Hp.
  - change ("day_" ++ PyStr.of_int (day + 1) ++ ".log")
      with (String "d" (String "a" (String "y" (String "_"
              (PyStr.of_int (day + 1) ++ ".log"))))).
    cbn [PyStr.rev_onto]. rewrite rev_onto_app. simpl. apply Hp.
Qed.

Lemma filter_all {X : Type} (f : X -> bool) (l : list X) :
  (forall x, In x l -> f x = true) -> filter f l = l.
Proof.
  induction l as [|x l IH]; intros H; simpl; [reflexivity|].
  rewrite (H x) by now left. f_equal. apply IH. intros; apply H; now right.
Qed.

Lemma accumulated_perm d name names names' :
  Permutation names names' ->
  Permutation (accumulated d names name) (accumulated d names' name).
Proof.
  induction 1 as [|f l l' _ IH|f g l|l1 l2 l3 _ IH1 _ IH2]; simpl.
  - constructor.
  - destruct (dict_get f d) as [[| |items]|]; try exact IH.
    now apply Permutation_app_head.
  - destruct (dict_get f d) as [[| |items]|], (dict_get g d) as [[| |items']|];
      try reflexivity.
    rewrite !List.app_assoc. apply Permutation_app_tail, Permutation_app_comm.
  - now transitivity (accumulated d l2 name).
Qed.

Lemma values_in_absent name (r : dict pynum) :
  dict_get name r = None ->
  values_in name (map (fun kv => (fst kv, JNum (snd kv))) r) = [].
Proof.
  unfold values_in. induction r as [|[k v] r IH]; simpl; [reflexivity|].
  rewrite (String.eqb_sym k name). destruct (String.eqb name k); [discriminate|].
  exact IH.
Qed.

Lemma values_in_logged name (r : dict pynum) :
  NoDup (dict_keys r) ->
  values_in name (map (fun kv => (fst kv, JNum (snd kv))) r) = logged name r.
Proof.
  unfold logged, values_in. induction r as [|[k v] r IH]; intros Hnd; [reflexivity|].
  inversion Hnd as [|? ? Hnotin Hnd']; subst. simpl.
  rewrite (String.eqb_sym k name).
  destruct (String.eqb_spec name k) as [->|Hne].
  - simpl. f_equal.
    assert (Hk : dict_get k r = None) by now apply dict_get_none_keys.
    apply values_in_absent in Hk. exact Hk.
  - now apply IH.
Qed.

Lemma accumulated_written d name days :
  forall recs,
    List.length recs = List.length days ->
    (forall r, In r recs -> NoDup (dict_keys r)) ->
    (forall i day r,
       nth_error days i = Some day -> nth_error recs i = Some r ->
       dict_get (log_file day) d = Some (json_of r)) ->
    accumulated d (map log_file days) name = flat_map (logged name) recs.
Proof.
  induction days as [|day days IH]; intros recs Hlen Hnd Hget.
  - destruct recs; [reflexivity|discriminate].
  - destruct recs as [|r recs]; [discriminate|]. simpl.
    rewrite (Hget 0%nat day r eq_refl eq_refl). unfold json_of.
    rewrite values_in_logged by (apply Hnd; now left). f_equal.
    apply IH.
    + simpl in Hlen. lia.
    + intros r' Hr'. apply Hnd. now right.
    + intros i day' r' Hd Hr. exact (Hget (S i) day' r' Hd Hr).
Qed.

Lemma sample_loop_nodup l :
  forall daily_events w r,
    fst (fold_each l daily_events (sample_event gauss) w) = Ok r ->
    NoDup (dict_keys daily_events) -> NoDup (dict_keys r).
Proof.
  induction l as [|[n i] l IH]; intros daily w r; simpl.
  - now intros [= <-].
  - unfold bind. pose proof (sample_event_result daily (n, i) w) as Hres.
    destruct (sample_event gauss daily (n, i) w) as [[daily'|e] w'];
      simpl in Hres; [|discriminate].
    intros Hr Hnd. apply (IH _ _ _ Hr).
    destruct (dict_get n (statistics w)) as [st|].
    + destruct (clamped_value i _) as [v|]; [|discriminate].
      injection Hres as ->. now apply dict_set_nodup.
    + now injection Hres as ->.
Qed.

Lemma day_record_nodup w day r : day_record w day r -> NoDup (dict_keys r).
Proof.
  intros (wa & _ & Hs). unfold sample_day, bind, get in Hs.
  apply sample_loop_nodup in Hs; [exact Hs|].
  repeat constructor. simpl. tauto.
Qed.

Lemma no_day_logs_fresh (d : dict FileData) day :
  filter is_log_file (dict_keys d) = [] -> dict_get (log_file day) d = None.
Proof.
  intros Hnone. apply dict_get_none_keys. intros Hin.
  assert (H : In (log_file day) (filter is_log_file (dict_keys d)))
    by (apply filter_In; split; [exact Hin|apply is_log_file_log_file]).
  now rewrite Hnone in H.
Qed.

(** What [analyze_stats] collects from a directory without day logs
    into which the records [recs] of [days] days were written. *)
Lemma written_logs_accumulated (days : Z) (recs : list (dict pynum))
  (d0 : dict FileData) :
  filter is_log_file (dict_keys d0) = [] ->
  List.length recs = List.length (py_range days) ->
  (forall r, In r recs -> NoDup (dict_keys r)) ->
  Permutation
    (sorted_log_files (dict_keys (write_days (py_range days) recs d0)))
    (map log_file (py_range days)) /\
  forall name,
    Permutation
      (accumulated (write_days (py_range days) recs d0)
         (sorted_log_files (dict_keys (write_days (py_range days) recs d0))) name)
      (flat_map (logged name) recs).
Proof.
  intros Hfresh Hlen Hnd.
  assert (Hsorted : Permutation
                      (sorted_log_files
                         (dict_keys (write_days (py_range days) recs d0)))
                      (map log_file (py_range days))).
  { rewrite write_days_keys; auto using log_files_nodup.
    - unfold sorted_log_files. rewrite filter_app, Hfresh. simpl.
      rewrite filter_all.
      + symmetry. apply py_sort_perm.
      + intros f Hf. apply in_map_iff in Hf as (day & <- & _).
        apply is_log_file_log_file.
    - intros day _. now apply no_day_logs_fresh. }
  split; [exact Hsorted|]. intros name.
  rewrite (accumulated_perm _ name Hsorted).
  erewrite accumulated_written; [reflexivity|exact Hlen|exact Hnd|].
  intros i day r Hday Hr. eapply write_days_get; eauto using log_files_nodup.
Qed.

Lemma collect_objects d names :
  (forall f, In f names -> exists items, dict_get f d = Some (Object items)) ->
  forall daily_totals, exists t, collect d names daily_totals = (Ok t, []).
Proof.
  induction names as [|f names IH]; intros H totals; simpl; [eauto|].
  destruct (H f (or_introl eq_refl)) as [items ->].
  apply IH. intros g Hg. apply H. now right.
Qed.

Lemma written_logs_are_objects (days : Z) (recs : list (dict pynum))
  (d0 : dict FileData) f :
  List.length recs = List.length (py_range days) ->
  In f (map log_file (py_range days)) ->
  exists items, dict_get f (write_days (py_range days) recs d0) = Some (Object items).
Proof.
  intros Hlen Hf. apply in_map_iff in Hf as (day & <- & Hday).
  apply In_nth_error in Hday as [i Hi].
  destruct (nth_error recs i) as [r|] eqn:Er.
  - eexists. eapply write_days_get; eauto using log_files_nodup.
  - apply nth_error_None in Er.
    assert (i < List.length (py_range days))%nat by (apply nth_error_Some; congruence).
    lia.
Qed.

(** The first loop of [analyze_stats] over a directory whose day logs
    are all JSON objects: it completes, prints nothing, and each defined
    name ends with the values stored under it, in the order of the
    files. *)
Lemma objects_collected w1 d' names :
  log_dir w1 = Some d' ->
  (forall f, In f (sorted_log_files (dict_keys d')) ->
     exists items, dict_get f d' = Some (Object items)) ->
  exists daily_totals,
    fold_each (sorted_log_files (dict_keys d')) (empty_totals names)
      accumulate_log w1 = (Ok daily_totals, w1) /\
    dict_keys daily_totals = names /\
    forall name,
      dict_get name daily_totals =
      if in_dec string_dec name names
      then Some (accumulated d' (sorted_log_files (dict_keys d')) name)
      else None.
Proof.
  intros Hd Hobj.
  destruct (collect_objects d' _ Hobj (empty_totals names)) as [t Ht].
  exists t. rewrite (collect_spec _ _ _ Hd), Ht. simpl.
  split; [now rewrite with_stdout_app_nil|].
  apply collect_get in Ht as [Hk Hg]. split; [now rewrite Hk, empty_totals_keys|].
  intros name. rewrite Hg, empty_totals_get.
  now destruct (in_dec string_dec name names).
Qed.

Lemma analyze_stats_loops w d daily_totals :
  log_dir w = Some d ->
  fold_each (sorted_log_files (dict_keys d)) (empty_totals (dict_keys (events w)))
    accumulate_log w = (Ok daily_totals, w) ->
  analyze_stats w = fold_each daily_totals [] add_baseline w.
Proof.
  intros Hd H. unfold analyze_stats, bind, get, listdir. now rewrite Hd, H.
Qed.

(** X14: what [generate_events] writes is what [analyze_stats] reads
    back.  When [logs/] held no day log before the run, the files that
    [analyze_stats] reads afterwards are the logs of that run; its first
    loop completes without a diagnostic, and in the [daily_totals] that
    it passes to the second loop every defined name holds the values
    stored under that name in the returned records, each record counting
    once (in the order of the file names, which is not the order of the
    days), while a name that is not defined, such as ["Day"], has no
    entry. *)
Theorem generated_logs_are_read_back w days recs w' :
  filter is_log_file (dict_keys (initial_dir w)) = [] ->
  generate_events gauss days w = (Ok recs, w') ->
  exists d' daily_totals,
    log_dir w' = Some d' /\
    Permutation (sorted_log_files (dict_keys d')) (map log_file (py_range days)) /\
    fold_each (sorted_log_files (dict_keys d')) (empty_totals (dict_keys (events w')))
      accumulate_log w' = (Ok daily_totals, w') /\
    analyze_stats w' = fold_each daily_totals [] add_baseline w' /\
    dict_keys daily_totals = dict_keys (events w) /\
    (forall name,
       In name (dict_keys (events w)) ->
       exists values,
         dict_get name daily_totals = Some values /\
         Permutation values (flat_map (logged name) recs)) /\
    (forall name,
       ~ In name (dict_keys (events w)) -> dict_get name daily_totals = None).
Proof.
  intros Hfresh Hgen.
  apply generate_events_spec in Hgen as (Hall & Hdir & [Hev _] & _).
  assert (Hlen : List.length recs = List.length (py_range days))
    by (symmetry; eapply Forall2_length; eauto).
  assert (Hnd : forall r, In r recs -> NoDup (dict_keys r)).
  { intros r Hr. destruct (Forall2_in_right _ Hall Hr) as (day & _ & Hd).
    eapply day_record_nodup; eauto. }
  destruct (written_logs_accumulated days recs (initial_dir w) Hfresh Hlen Hnd)
    as [Hfiles Hvalues].
  set (d' := write_days (py_range days) recs (initial_dir w)) in *.
  destruct (@objects_collected w' d' (dict_keys (events w')) Hdir) as (t & Hloop & Hk & Hg).
  { intros f Hf. apply written_logs_are_objects; [exact Hlen|].
    eapply Permutation_in; eauto. }
  exists d', t. rewrite Hev in Hk, Hg.
  split; [exact Hdir|]. split; [exact Hfiles|]. split; [exact Hloop|].
  split; [exact (analyze_stats_loops Hdir Hloop)|]. split; [exact Hk|]. split.
  - intros name Hin. rewrite Hg.
    destruct (in_dec string_dec name (dict_keys (events w))); [|contradiction].
    eexists. split; [reflexivity|apply Hvalues].
  - intros name Hnot. rewrite Hg.
    now destruct (in_dec string_dec name (dict_keys (events w))).
Qed.

(** *** The total of a Discrete event *)

Lemma analyze_stats_entry w d b w' name :
  log_dir w = Some d ->
  NoDup (dict_keys (events w)) ->
  analyze_stats w = (Ok b, w') ->
  In name (dict_keys (events w)) ->
  accumulated d (sorted_log_files (dict_keys d)) name <> [] ->
  exists bs,
    event_baseline (accumulated d (sorted_log_files (dict_keys d)) name) = Ok bs /\
    dict_get name b = Some bs.
Proof.
  intros Hd Hnd Hrun Hin Hne.
  rewrite analyze_stats_spec, Hd in Hrun. unfold analysis in Hrun.
  destruct (collect d (sorted_log_files (dict_keys d))
              (empty_totals (dict_keys (events w)))) as [[totals|e] out] eqn:Ec;
    simpl in Hrun; [|discriminate].
  injection Hrun as Hb _.
  apply collect_get in Ec as [Hkeys Hget].
  rewrite empty_totals_keys in Hkeys.
  assert (Hnd' : NoDup (dict_keys totals)) by now rewrite Hkeys.
  pose proof (baselines_get _ _ Hnd' Hb name) as Hname.
  rewrite Hget, empty_totals_get in Hname.
  destruct (in_dec string_dec name (dict_keys (events w))) as [_|Hnin];
    [|contradiction].
  simpl in Hname.
  destruct (accumulated d (sorted_log_files (dict_keys d)) name) as [|v vs];
    [now contradiction Hne|exact Hname].
Qed.

Lemma fold_add_perm (l l' : list Z) :
  Permutation l l' -> forall a, fold_left Z.add l a = fold_left Z.add l' a.
Proof.
  induction 1 as [|x l l' _ IH|x y l|l1 l2 l3 _ IH1 _ IH2]; intros a; simpl.
  - reflexivity.
  - apply IH.
  - f_equal. lia.
  - now rewrite IH1.
Qed.

Lemma event_baseline_ints (zs : list Z) bs :
  event_baseline (map (fun z => JNum (PyInt z)) zs) = Ok bs ->
  b_total bs = PyInt (fold_left Z.add zs 0) /\
  b_mean bs =
    F.round2 (F.div_round (fold_left Z.add zs 0 <? 0) (Z.abs (fold_left Z.add zs 0))
                (Z.of_nat (List.length zs))).
Proof.
  unfold event_baseline. rewrite py_sum_ints, length_map. cbn [rbind].
  destruct (py_truediv _ _) as [mean|] eqn:Em; [|discriminate]. cbn [rbind].
  destruct (py_sum _ _) as [sq|]; [|discriminate]. cbn [rbind].
  destruct (py_truediv sq _) as [variance|]; [|discriminate]. cbn [rbind].
  destruct (math_sqrt variance) as [sd|]; [|discriminate]. cbn [rbind].
  intros [= <-]. simpl. split; [reflexivity|]. f_equal.
  unfold py_truediv in Em. destruct (F.div_round _ _ _); congruence.
Qed.

Lemma discrete_records_ints w name event_info days recs :
  NoDup (dict_keys (events w)) ->
  In (name, event_info) (events w) ->
  dict_mem name (statistics w) = true ->
  e_type event_info <> "C" ->
  Forall2 (day_record w) days recs ->
  exists zs,
    map (dict_get name) recs = map (fun z => Some (PyInt z)) zs /\
    flat_map (logged name) recs = map (fun z => JNum (PyInt z)) zs.
Proof.
  intros Hnd Hin Hmem HD. induction 1 as [|day r days recs Hd _ IH].
  - exists []. now split.
  - destruct IH as (zs & Hzs & Hlog).
    apply day_record_values in Hd as [_ Hd].
    destruct (Hd Hnd name event_info Hin Hmem) as (g & v & _ & Hv & _ & Hok).
    destruct (Hok HD) as (ilo & ihi & z & _ & _ & -> & _).
    exists (z :: zs). simpl. unfold logged at 1. rewrite Hv, Hzs, Hlog. now split.
Qed.

(** X15: for a Discrete event that has statistics, generated for
    [days >= 1] days into a [logs/] without earlier day logs, the
    baseline that [analyze_stats] then returns holds as [total] the exact
    sum of the integers stored for the event in the returned records, and
    as [mean] that sum divided by [days], correctly rounded to a float
    and then rounded to two decimals. *)
Theorem discrete_total_is_sum_of_records w days recs w' b w'' name event_info :
  filter is_log_file (dict_keys (initial_dir w)) = [] ->
  NoDup (dict_keys (events w)) ->
  In (name, event_info) (events w) ->
  dict_mem name (statistics w) = true ->
  e_type event_info <> "C" ->
  0 < days ->
  generate_events gauss days w = (Ok recs, w') ->
  analyze_stats w' = (Ok b, w'') ->
  exists zs bl,
    map (dict_get name) recs = map (fun z => Some (PyInt z)) zs /\
    dict_get name b = Some bl /\
    b_total bl = PyInt (fold_left Z.add zs 0) /\
    b_mean bl =
      F.round2 (F.div_round (fold_left Z.add zs 0 <? 0)
                  (Z.abs (fold_left Z.add zs 0)) days).
Proof.
  intros Hfresh Hnd Hin Hmem HD Hdays Hgen Hrun.
  apply generate_events_spec in Hgen as (Hall & Hd' & [Hev Hst] & _).
  assert (Hacc : forall name0,
             Permutation
               (accumulated (write_days (py_range days) recs (initial_dir w))
                  (sorted_log_files
                     (dict_keys (write_days (py_range days) recs (initial_dir w))))
                  name0)
               (flat_map (logged name0) recs)).
  { apply written_logs_accumulated.
    - exact Hfresh.
    - symmetry. eapply Forall2_length; eauto.
    - intros r Hr. destruct (Forall2_in_right _ Hall Hr) as (day & _ & Hd).
      eapply day_record_nodup; eauto. }
  set (d' := write_days (py_range days) recs (initial_dir w)) in *.
  destruct (discrete_records_ints _ _ Hnd Hin Hmem HD Hall) as (zs & Hzs & Hlog).
  assert (Hlen : List.length zs = Z.to_nat days).
  { apply Forall2_length in Hall. apply (f_equal (@List.length _)) in Hzs.
    rewrite !length_map in Hzs. unfold py_range in Hall.
    rewrite length_map, length_seq in Hall. lia. }
  specialize (Hacc name). rewrite Hlog in Hacc.
  apply Permutation_map_inv in Hacc as (zs' & Hvalues & Hperm).
  assert (Hlen' : List.length zs' = List.length zs)
    by (symmetry; now apply Permutation_length).
  destruct (@analyze_stats_entry w' d' b w'' name Hd') as (bs & Hbs & Hget).
  - now rewrite Hev.
  - exact Hrun.
  - rewrite Hev. change name with (fst (name, event_info)). now apply in_map.
  - rewrite Hvalues. destruct zs'; [simpl in *; lia|discriminate].
  - rewrite Hvalues in Hbs. apply event_baseline_ints in Hbs as [Ht Hm].
    exists zs, bs. split; [exact Hzs|]. split; [exact Hget|].
    rewrite (fold_add_perm Hperm 0), Ht, Hm, Hlen', Hlen.
    split; [reflexivity|]. do 2 f_equal. lia.
Qed.

(** *** The weights *)

Lemma sample_value_without_weights event_info mean std_dev w :
  sample_value gauss (without_weight event_info) mean std_dev (without_weights w) =
  (fst (sample_value gauss event_info mean std_dev w),
   without_weights (snd (sample_value gauss event_info mean std_dev w))).
Proof.
  assert (Hr : rng (without_weights w) = rng w) by reflexivity.
  unfold sample_value. cbn [e_type e_min e_max without_weight].
  destruct (String.eqb (e_type event_info) "C");
    unfold bind, lift, ret, random_gauss; rewrite ?Hr.
  - now destruct (gauss (rng w) mean std_dev).
  - destruct (py_int (e_min event_info)); [|reflexivity]. rewrite ?Hr.
    destruct (gauss (rng w) mean std_dev) as [g r].
    destruct (py_int (PyFloat g)); [|reflexivity].
    now destruct (py_int (PyFloat (e_max event_info))).
Qed.

Lemma sample_loop_without_weights l :
  forall daily_events w,
    fold_each
      (map (fun item : string * EventInfo => (fst item, without_weight (snd item))) l)
      daily_events (sample_event gauss) (without_weights w) =
    (fst (fold_each l daily_events (sample_event gauss) w),
     without_weights (snd (fold_each l daily_events (sample_event gauss) w))).
Proof.
  induction l as [|[n i] l IH]; intros daily w; simpl; [reflexivity|].
  unfold bind.
  assert (Hstep : sample_event gauss daily (n, without_weight i) (without_weights w) =
                  (fst (sample_event gauss daily (n, i) w),
                   without_weights (snd (sample_event gauss daily (n, i) w)))).
  { unfold sample_event, bind, get, ret. simpl.
    destruct (dict_get n (statistics w)) as [st|]; [|reflexivity].
    rewrite sample_value_without_weights.
    now destruct (sample_value gauss i (s_mean st) (s_std_dev st) w) as [[v|e] w']. }
  rewrite Hstep.
  destruct (sample_event gauss daily (n, i) w) as [[daily'|e] w']; simpl;
    [apply IH|reflexivity].
Qed.

Lemma sample_day_without_weights day w :
  sample_day gauss day (without_weights w) =
  (fst (sample_day gauss day w), without_weights (snd (sample_day gauss day w))).
Proof.
  unfold sample_day, bind, get.
  exact (sample_loop_without_weights (events w) _ w).
Qed.

Lemma generate_day_without_weights acc day w :
  generate_day gauss acc day (without_weights w) =
  (fst (generate_day gauss acc day w),
   without_weights (snd (generate_day gauss acc day w))).
Proof.
  unfold generate_day, bind. rewrite sample_day_without_weights.
  destruct (sample_day gauss day w) as [[daily|e] w1]; simpl; [|reflexivity].
  unfold json_dump, ret. simpl. destruct (log_dir w1); [|reflexivity].
  destruct (write_failure w1 (log_file day)) as [f|]; [|reflexivity].
  now destruct (wf_left f).
Qed.

Lemma generate_loop_without_weights days :
  forall acc w,
    fold_each days acc (generate_day gauss) (without_weights w) =
    (fst (fold_each days acc (generate_day gauss) w),
     without_weights (snd (fold_each days acc (generate_day gauss) w))).
Proof.
  induction days as [|day days IH]; intros acc w; simpl; [reflexivity|].
  unfold bind. rewrite generate_day_without_weights.
  destruct (generate_day gauss acc day w) as [[acc'|e] w']; simpl;
    [apply IH|reflexivity].
Qed.

Lemma generate_events_without_weights days w :
  generate_events gauss days (without_weights w) =
  (fst (generate_events gauss days w),
   without_weights (snd (generate_events gauss days w))).
Proof.
  unfold generate_events, bind, ensure_log_dir, modify. simpl.
  destruct (log_dir w); [apply generate_loop_without_weights|].
  exact (generate_loop_without_weights (py_range days) [] (with_log_dir (Some []) w)).
Qed.

(** X19: the weight of an event is parsed and stored and then has no
    effect: two states that differ in the weights of their definitions
    only generate the same records, write the same logs, leave the
    generator in the same state, and get the same baseline. *)
Theorem weights_have_no_effect w1 w2 days :
  without_weights w1 = without_weights w2 ->
  fst (generate_events gauss days w1) = fst (generate_events gauss days w2) /\
  log_dir (snd (generate_events gauss days w1)) =
    log_dir (snd (generate_events gauss days w2)) /\
  rng (snd (generate_events gauss days w1)) =
    rng (snd (generate_events gauss days w2)) /\
  fst (analyze_stats w1) = fst (analyze_stats w2).
Proof.
  intros H.
  pose proof (generate_events_without_weights days w1) as H1.
  pose proof (generate_events_without_weights days w2) as H2.
  rewrite H, H2 in H1.
  pose proof (f_equal fst H1) as Hres. pose proof (f_equal snd H1) as Hw.
  cbn [fst snd] in Hres, Hw.
  split; [now symmetry|].
  split; [exact (f_equal (@log_dir Rng) (eq_sym Hw))|].
  split; [exact (f_equal (@rng Rng) (eq_sym Hw))|].
  rewrite !analyze_stats_spec.
  assert (Hd : log_dir w1 = log_dir w2) by exact (f_equal (@log_dir Rng) H).
  assert (Hk : dict_keys (events w1) = dict_keys (events w2)).
  { pose proof (f_equal (fun w => dict_keys (events w)) H) as Hk. simpl in Hk.
    unfold dict_keys in *. rewrite !map_map in Hk. exact Hk. }
  rewrite Hd, Hk. now destruct (log_dir w2).
Qed.

(** *** Reading a file again *)

(** X20: reading the same file a second time leaves every entry as the
    first reading left it: each parser is idempotent on the dictionary it
    fills (the diagnostics are printed again). *)
Theorem parsers_are_idempotent :
  (forall lines w w1 w2 name,
     read_events float_of_str int_of_str lines w = (Ok tt, w1) ->
     read_events float_of_str int_of_str lines w1 = (Ok tt, w2) ->
     dict_get name (events w2) = dict_get name (events w1)) /\
  (forall lines w w1 w2 name,
     read_statistics float_of_str int_of_str lines w = (Ok tt, w1) ->
     read_statistics float_of_str int_of_str lines w1 = (Ok tt, w2) ->
     dict_get name (statistics w2) = dict_get name (statistics w1)).
Proof.
  split; intros lines w w1 w2 name H1 H2.
  - apply read_events_spec in H1 as [H1 _]. apply read_events_spec in H2 as [H2 _].
    rewrite H2, H1. now destruct (last_assigned name _).
  - apply read_statistics_spec in H1 as [H1 _].
    apply read_statistics_spec in H2 as [H2 _].
    rewrite H2, H1. now destruct (last_assigned name _).
Qed.

(** *** Continuous events and draws that are not numbers *)

Lemma div_round_not_nan s n d : F.div_round s n d <> S754_nan.
Proof.
  destruct (div_round_cases s n d) as [H|[H|(m & e & H)]]; rewrite H; discriminate.
Qed.

Lemma round2_not_nan x : x <> S754_nan -> F.round2 x <> S754_nan.
Proof.
  destruct x as [s|s| |s m e]; unfold F.round2; auto. intros _.
  destruct (0 <=? e); [discriminate|]. apply div_round_not_nan.
Qed.

Lemma py_round2_not_nan v : py_is_nan v = false -> py_is_nan (py_round2 v) = false.
Proof.
  destruct v as [z|x]; simpl; [reflexivity|]. intros H.
  assert (Hx : x <> S754_nan) by (intros ->; discriminate).
  apply round2_not_nan in Hx. now destruct (F.round2 x).
Qed.

Lemma py_max_not_nan lo x : py_is_nan lo = false -> py_is_nan (py_max lo x) = false.
Proof.
  intros Hlo. unfold py_max, py_gt.
  destruct (py_compare x lo) as [c|] eqn:E; [|exact Hlo].
  apply py_compare_nan in E as [Hx _]. now destruct c.
Qed.

Lemma py_min_nan hi : py_min (PyFloat F.nan) hi = PyFloat F.nan.
Proof.
  unfold py_min, py_lt. rewrite py_compare_antisym.
  now destruct hi as [z|y].
Qed.

Lemma py_max_nan lo : py_max lo (PyFloat F.nan) = lo.
Proof. unfold py_max, py_gt. now destruct lo as [z|y]. Qed.

(** X18: sampling a Continuous event never raises, whatever is drawn,
    and never stores a NaN unless the lower bound of the event is one: a
    draw that is a NaN (as a NaN mean or an infinite deviation in the
    statistics gives) is replaced by the lower bound, rounded to two
    decimals as every value is. *)
Theorem continuous_value_is_never_nan event_info mean std_dev w :
  e_type event_info = "C" ->
  exists v,
    fst (sample_value gauss event_info mean std_dev w) = Ok v /\
    (py_is_nan (e_min event_info) = false -> py_is_nan v = false) /\
    (fst (gauss (rng w) mean std_dev) = F.nan -> v = py_round2 (e_min event_info)).
Proof.
  intros HC. rewrite sample_value_result. unfold clamped_value. rewrite HC. simpl.
  eexists. split; [reflexivity|]. split.
  - intros Hlo. now apply py_round2_not_nan, py_max_not_nan.
  - intros ->. now rewrite py_min_nan, py_max_nan.
Qed.

(** *** White space around a line *)

Ltac bool_hyps :=
  repeat match goal with
         | H : _ && _ = true |- _ => apply andb_prop in H as [? ?]
         | H : _ || _ = true |- _ => apply orb_prop in H as [?|?]
         | H : (_ =? _) = true |- _ => apply Z.eqb_eq in H
         | H : (_ <=? _) = true |- _ => apply Z.leb_le in H
         end.

Ltac byte_cases :=
  unfold PyStr.is_space, PyStr.is_space2, PyStr.is_space3, continuation in *;
  cbv zeta in *;
  repeat match goal with
         | c : ascii |- _ =>
             let n := fresh "n" in
             set (n := PyStr.byte c) in *; clearbody n; clear c
         end;
  bool_hyps;
  match goal with
  | |- ?b = false =>
      let E := fresh "E" in
      destruct b eqn:E; [exfalso; bool_hyps; lia|reflexivity]
  | |- _ = true => repeat (apply andb_true_intro; split); apply Z.leb_le; lia
  end.

Lemma continuation_not_space c :
  continuation c = true ->
  PyStr.is_space c = false /\
  (forall c2, PyStr.is_space2 c c2 = false) /\
  (forall c2 c3, PyStr.is_space3 c c2 c3 = false).
Proof.
  intros H. split; [|split]; intros; byte_cases.
Qed.

Lemma is_space_start c : PyStr.is_space c = true -> continuation c = false.
Proof. intros H. byte_cases. Qed.

Lemma is_space2_bytes c1 c2 :
  PyStr.is_space2 c1 c2 = true ->
  PyStr.is_space c1 = false /\ continuation c1 = false /\ continuation c2 = true.
Proof. intros H. repeat split; byte_cases. Qed.

Lemma is_space3_bytes c1 c2 c3 :
  PyStr.is_space3 c1 c2 c3 = true ->
  PyStr.is_space c1 = false /\ PyStr.is_space2 c1 c2 = false /\
  continuation c1 = false /\ continuation c2 = true /\ continuation c3 = true.
Proof. intros H. repeat split; byte_cases. Qed.

Lemma lstrip_continuation c r :
  continuation c = true -> PyStr.lstrip (String c r) = String c r.
Proof.
  intros H. destruct (continuation_not_space _ H) as (H1 & H2 & H3).
  cbn [PyStr.lstrip]. rewrite H1.
  destruct r as [|c2 r]; [reflexivity|]. rewrite H2.
  destruct r as [|c3 r]; [reflexivity|]. now rewrite H3.
Qed.

Lemma all_space_continuation c r :
  continuation c = true -> PyStr.all_space (String c r) = false.
Proof. intros H. unfold PyStr.all_space. now rewrite lstrip_continuation. Qed.

Lemma blank_start c r :
  PyStr.all_space (String c r) = true -> continuation c = false.
Proof.
  intros H. destruct (continuation c) eqn:E; [|reflexivity].
  now rewrite all_space_continuation in H.
Qed.

(** A string of white space is a sequence of characters of one, two or
    three bytes. *)
Lemma blank_ind (P : string -> Prop) :
  P EmptyString ->
  (forall c r, PyStr.is_space c = true -> PyStr.all_space r = true -> P r ->
     P (String c r)) ->
  (forall c1 c2 r, PyStr.is_space2 c1 c2 = true -> PyStr.all_space r = true -> P r ->
     P (String c1 (String c2 r))) ->
  (forall c1 c2 c3 r, PyStr.is_space3 c1 c2 c3 = true -> PyStr.all_space r = true ->
     P r -> P (String c1 (String c2 (String c3 r)))) ->
  forall a, PyStr.all_space a = true -> P a.
Proof.
  intros H0 H1 H2 H3.
  assert (H : forall n a, (String.length a <= n)%nat ->
                PyStr.all_space a = true -> P a).
  { induction n as [|n IH]; intros a Hlen Ha.
    - destruct a; [exact H0|simpl in Hlen; lia].
    - destruct a as [|c1 a1]; [exact H0|]. simpl in Hlen.
      unfold PyStr.all_space in Ha. cbn [PyStr.lstrip] in Ha.
      destruct (PyStr.is_space c1) eqn:E1.
      { apply H1; [exact E1|exact Ha|]. apply IH; [lia|exact Ha]. }
      destruct a1 as [|c2 a2]; [discriminate|]. simpl in Hlen.
      destruct (PyStr.is_space2 c1 c2) eqn:E2.
      { apply H2; [exact E2|exact Ha|]. apply IH; [lia|exact Ha]. }
      destruct a2 as [|c3 a3]; [discriminate|]. simpl in Hlen.
      destruct (PyStr.is_space3 c1 c2 c3) eqn:E3; [|discriminate].
      apply H3; [exact E3|exact Ha|]. apply IH; [lia|exact Ha]. }
  intros a. now apply (H (String.length a)).
Qed.

Lemma lstrip_blank_app (a t : string) :
  blank a = true -> PyStr.lstrip (a ++ t) = PyStr.lstrip t.
Proof.
  unfold blank. revert a. apply blank_ind.
  - reflexivity.
  - intros c r Hc _ IH. simpl. now rewrite Hc.
  - intros c1 c2 r Hc _ IH. destruct (is_space2_bytes _ _ Hc) as (H1 & _).
    simpl. now rewrite H1, Hc.
  - intros c1 c2 c3 r Hc _ IH. destruct (is_space3_bytes _ _ _ Hc) as (H1 & H2 & _).
    simpl. now rewrite H1, H2, Hc.
Qed.

Lemma all_space_blank_app (a t : string) :
  blank a = true -> PyStr.all_space (a ++ t) = PyStr.all_space t.
Proof. intros Ha. unfold PyStr.all_space. now rewrite lstrip_blank_app. Qed.

Lemma lstrip_skip (s : string) :
  PyStr.lstrip s =
  match skip_space s with
  | Some r => PyStr.lstrip r
  | None => s
  end.
Proof.
  destruct s as [|c1 s1]; [reflexivity|]. cbn [PyStr.lstrip skip_space].
  destruct (PyStr.is_space c1); [reflexivity|].
  destruct s1 as [|c2 s2]; [reflexivity|].
  destruct (PyStr.is_space2 c1 c2); [reflexivity|].
  destruct s2 as [|c3 s3]; [reflexivity|].
  now destruct (PyStr.is_space3 c1 c2 c3).
Qed.

Lemma skip_space_length (s r : string) :
  skip_space s = Some r -> (String.length r < String.length s)%nat.
Proof.
  destruct s as [|c1 [|c2 [|c3 s3]]]; cbn [skip_space];
    repeat match goal with |- context [if ?b then _ else _] => destruct b end;
    intros [= <-]; simpl; lia.
Qed.

Lemma skip_space_app (s r t : string) :
  skip_space s = Some r -> skip_space (s ++ t) = Some (r ++ t).
Proof.
  destruct s as [|c1 [|c2 [|c3 s3]]]; cbn [skip_space append];
    repeat match goal with |- context [if ?b then _ else _] => destruct b end;
    intros [= <-]; reflexivity.
Qed.

(** White space after a string that does not start with white space
    completes none of its characters. *)
Lemma skip_space_none_app (t b : string) :
  t <> EmptyString -> skip_space t = None -> blank b = true ->
  skip_space (t ++ b) = None.
Proof.
  unfold blank. intros Ht Hskip Hb.
  destruct t as [|c1 [|c2 [|c3 t3]]]; [contradiction| | |];
    cbn [skip_space append] in *.
  - destruct (PyStr.is_space c1); [discriminate|].
    destruct b as [|c2 b2]; [reflexivity|].
    pose proof (blank_start _ _ Hb) as Hc2.
    destruct (PyStr.is_space2 c1 c2) eqn:E2;
      [apply is_space2_bytes in E2 as (_ & _ & E2); congruence|].
    destruct b2 as [|c3 b3]; [reflexivity|].
    destruct (PyStr.is_space3 c1 c2 c3) eqn:E3; [|reflexivity].
    apply is_space3_bytes in E3 as (_ & _ & _ & E3 & _). congruence.
  - destruct (PyStr.is_space c1); [discriminate|].
    destruct (PyStr.is_space2 c1 c2); [discriminate|].
    destruct b as [|c3 b3]; [reflexivity|].
    pose proof (blank_start _ _ Hb) as Hc3.
    destruct (PyStr.is_space3 c1 c2 c3) eqn:E3; [|reflexivity].
    apply is_space3_bytes in E3 as (_ & _ & _ & _ & E3). congruence.
  - destruct (PyStr.is_space c1); [discriminate|].
    destruct (PyStr.is_space2 c1 c2); [discriminate|].
    now destruct (PyStr.is_space3 c1 c2 c3).
Qed.

Lemma all_space_app_blank (b : string) :
  blank b = true ->
  forall t, PyStr.all_space (t ++ b) = PyStr.all_space t.
Proof.
  intros Hb.
  assert (H : forall n t, (String.length t <= n)%nat ->
                PyStr.all_space (t ++ b) = PyStr.all_space t).
  { induction n as [|n IH]; intros t Hlen.
    - destruct t; [exact Hb|simpl in Hlen; lia].
    - destruct t as [|c t']; [exact Hb|]. set (t := String c t') in *.
      unfold PyStr.all_space. rewrite (lstrip_skip t), (lstrip_skip (t ++ b)).
      destruct (skip_space t) as [r|] eqn:Er.
      + rewrite (skip_space_app _ b Er). apply IH.
        apply skip_space_length in Er. lia.
      + rewrite skip_space_none_app; [reflexivity|discriminate|exact Er|exact Hb]. }
  intros t. now apply (H (String.length t)).
Qed.

Lemma rstrip_all_space (s : string) :
  PyStr.all_space s = true -> PyStr.rstrip s = EmptyString.
Proof. destruct s; [reflexivity|]. intros H. cbn [PyStr.rstrip]. now rewrite H. Qed.

Lemma rstrip_app_blank (s b : string) :
  blank b = true -> PyStr.rstrip (s ++ b) = PyStr.rstrip s.
Proof.
  intros Hb. induction s as [|c s IH]; [now apply rstrip_all_space|].
  simpl append. cbn [PyStr.rstrip].
  change (String c (s ++ b)) with (String c s ++ b).
  now rewrite all_space_app_blank, IH.
Qed.

Lemma rstrip_blank_app (a s : string) :
  blank a = true ->
  PyStr.rstrip (a ++ s) =
  if PyStr.all_space s then EmptyString else a ++ PyStr.rstrip s.
Proof.
  unfold blank. revert a. apply blank_ind.
  - simpl. destruct (PyStr.all_space s) eqn:E; [now apply rstrip_all_space|reflexivity].
  - intros c r Hc Hr IH.
    assert (Ha : blank (String c r) = true)
      by (unfold blank, PyStr.all_space; cbn [PyStr.lstrip]; now rewrite Hc).
    simpl append. cbn [PyStr.rstrip].
    change (String c (r ++ s)) with (String c r ++ s).
    rewrite (@all_space_blank_app _ s Ha), IH.
    now destruct (PyStr.all_space s).
  - intros c1 c2 r Hc Hr IH.
    destruct (is_space2_bytes _ _ Hc) as (H1 & _ & H2).
    assert (Ha : blank (String c1 (String c2 r)) = true)
      by (unfold blank, PyStr.all_space; cbn [PyStr.lstrip]; now rewrite H1, Hc).
    simpl append. cbn [PyStr.rstrip].
    change (String c1 (String c2 (r ++ s))) with (String c1 (String c2 r) ++ s).
    rewrite (@all_space_blank_app _ s Ha), IH.
    change (String c1 (String c2 r) ++ s) with (String c1 (String c2 (r ++ s))).
    rewrite (@all_space_continuation c2 _ H2).
    now destruct (PyStr.all_space s).
  - intros c1 c2 c3 r Hc Hr IH.
    destruct (is_space3_bytes _ _ _ Hc) as (H1 & H2 & _ & H3 & H4).
    assert (Ha : blank (String c1 (String c2 (String c3 r))) = true)
      by (unfold blank, PyStr.all_space; cbn [PyStr.lstrip]; now rewrite H1, H2, Hc).
    simpl append. cbn [PyStr.rstrip].
    change (String c1 (String c2 (String c3 (r ++ s))))
      with (String c1 (String c2 (String c3 r)) ++ s).
    rewrite (@all_space_blank_app _ s Ha), IH.
    change (String c1 (String c2 (String c3 r)) ++ s)
      with (String c1 (String c2 (String c3 (r ++ s)))).
    rewrite (@all_space_continuation c2 _ H3), (@all_space_continuation c3 _ H4).
    now destruct (PyStr.all_space s).
Qed.

Lemma strip_surrounded (a b line : string) :
  blank a = true -> blank b = true ->
  PyStr.strip (a ++ line ++ b) = PyStr.strip line.
Proof.
  intros Ha Hb. unfold PyStr.strip.
  rewrite (@rstrip_blank_app a _ Ha), (@rstrip_app_blank line b Hb),
    (@all_space_app_blank b Hb).
  destruct (PyStr.all_space line) eqn:E.
  - now rewrite (@rstrip_all_space line E).
  - now apply lstrip_blank_app.
Qed.

(** X21: white space around a line of a configuration file is ignored,
    the newline that [readlines] keeps, a carriage return and the
    white-space characters beyond ASCII included: both parsers treat a
    record line, and the line of the count, as they treat the same line
    without the blanks before and after it. *)
Theorem surrounding_blanks_are_ignored a b line w :
  blank a = true ->
  blank b = true ->
  read_events_line float_of_str int_of_str (a ++ line ++ b) w =
    read_events_line float_of_str int_of_str line w /\
  read_statistics_line float_of_str (a ++ line ++ b) w =
    read_statistics_line float_of_str line w /\
  (forall rest,
     read_events float_of_str int_of_str ((a ++ line ++ b) :: rest) w =
       read_events float_of_str int_of_str (line :: rest) w /\
     read_statistics float_of_str int_of_str ((a ++ line ++ b) :: rest) w =
       read_statistics float_of_str int_of_str (line :: rest) w).
Proof.
  intros Ha Hb. pose proof (@strip_surrounded a b line Ha Hb) as Hs.
  split; [|split].
  - unfold read_events_line. now rewrite Hs.
  - unfold read_statistics_line. now rewrite Hs.
  - intros rest. rewrite !read_events_unfold, !read_statistics_unfold.
    unfold record_lines. rewrite Hs.
    destruct (int_of_str (PyStr.strip line)) as [n|]; [|now split].
    now rewrite !py_slice_records.
Qed.

(** *** Runs of at most nine days *)

Lemma nine_days_sorted (days : Z) :
  days <= 9 ->
  py_sort (map log_file (py_range days)) = map log_file (py_range days).
Proof.
  intros H.
  assert (Hcases : days <= 0 \/ days = 1 \/ days = 2 \/ days = 3 \/ days = 4 \/
                   days = 5 \/ days = 6 \/ days = 7 \/ days = 8 \/ days = 9) by lia.
  destruct Hcases as [H0|Hcases].
  - unfold py_range. replace (Z.to_nat days) with 0%nat by lia. reflexivity.
  - repeat (destruct Hcases as [->|Hcases]; [vm_compute; reflexivity|]).
    subst days. vm_compute. reflexivity.
Qed.

Lemma accumulated_in_order d name (days : list Z) (recs : list (dict pynum)) :
  List.length recs = List.length days ->
  (forall r, In r recs -> NoDup (dict_keys r)) ->
  NoDup (map log_file days) ->
  accumulated (write_days days recs d) (map log_file days) name =
  flat_map (logged name) recs.
Proof.
  intros Hlen Hnd Hdays. apply accumulated_written; [exact Hlen|exact Hnd|].
  intros i day r Hday Hr. eapply write_days_get; eauto.
Qed.

(** X22: a run of at most nine days is read back in the order of its
    days.  When [logs/] held no day log before, [analyze_stats] then
    processes [day_1.log], [day_2.log], ... in this order, and in the
    [daily_totals] that its first loop passes to the second every
    defined name holds the values stored under that name in the returned
    records, in the order of the records. *)
Theorem up_to_nine_days_are_read_in_day_order w days recs w' :
  days <= 9 ->
  filter is_log_file (dict_keys (initial_dir w)) = [] ->
  generate_events gauss days w = (Ok recs, w') ->
  exists d' daily_totals,
    log_dir w' = Some d' /\
    sorted_log_files (dict_keys d') = map log_file (py_range days) /\
    fold_each (map log_file (py_range days)) (empty_totals (dict_keys (events w')))
      accumulate_log w' = (Ok daily_totals, w') /\
    analyze_stats w' = fold_each daily_totals [] add_baseline w' /\
    forall name,
      In name (dict_keys (events w)) ->
      dict_get name daily_totals = Some (flat_map (logged name) recs).
Proof.
  intros Hdays Hfresh Hgen.
  apply generate_events_spec in Hgen as (Hall & Hdir & [Hev _] & _).
  assert (Hlen : List.length recs = List.length (py_range days))
    by (symmetry; eapply Forall2_length; eauto).
  set (d' := write_days (py_range days) recs (initial_dir w)) in *.
  assert (Hsorted : sorted_log_files (dict_keys d') = map log_file (py_range days)).
  { unfold d'. rewrite write_days_keys; auto using log_files_nodup.
    - unfold sorted_log_files. rewrite filter_app, Hfresh. simpl.
      rewrite filter_all; [now apply nine_days_sorted|].
      intros f Hf. apply in_map_iff in Hf as (day & <- & _).
      apply is_log_file_log_file.
    - intros day _. now apply no_day_logs_fresh. }
  destruct (@objects_collected w' d' (dict_keys (events w')) Hdir) as (t & Hloop & Hk & Hg).
  { intros f Hf. rewrite Hsorted in Hf. now apply written_logs_are_objects. }
  exists d', t. split; [exact Hdir|]. split; [exact Hsorted|].
  split; [now rewrite <- Hsorted|]. split; [exact (analyze_stats_loops Hdir Hloop)|].
  intros name Hin. rewrite Hg, Hev, Hsorted.
  destruct (in_dec string_dec name (dict_keys (events w))); [|contradiction].
  f_equal. apply accumulated_in_order; [exact Hlen| |apply log_files_nodup].
  intros r Hr. destruct (Forall2_in_right _ Hall Hr) as (day & _ & Hd).
  eapply day_record_nodup; eauto.
Qed.

End Properties.

(** ** The whole program *)

Section WholeProgram.

Variable float_of_str : string -> option float.
Variable int_of_str : string -> option Z.
Variable Rng : Type.
Variable gauss : Rng -> float -> float -> float * Rng.
Variable pow2 : float -> float.
Variable dumps_record : dict pynum -> string.
Variable dumps_baseline : dict Baseline -> string.
Variable files : string -> option (list string).

Local Abbreviation World := (World Rng).
Local Abbreviation M := (M Rng).
Local Abbreviation analyze_stats := (analyze_stats pow2).
Local Abbreviation analysis := (analysis pow2).

Set Default Proof Using "Type".

Implicit Types (w : World).

Local Abbreviation parse_event_line := (parse_event_line float_of_str int_of_str).
Local Abbreviation parse_statistics_line := (parse_statistics_line float_of_str).
Local Abbreviation record_lines := (record_lines int_of_str).
Local Abbreviation pipeline :=
  (pipeline float_of_str int_of_str gauss pow2 dumps_record dumps_baseline).
Local Abbreviation main :=
  (main float_of_str int_of_str gauss pow2 dumps_record dumps_baseline files).

Lemma read_events_log_dir lines w :
  log_dir (snd (read_events float_of_str int_of_str lines w)) = log_dir w.
Proof.
  rewrite read_events_unfold. destruct lines as [|first rest]; [reflexivity|].
  destruct (int_of_str (PyStr.strip first)); [|reflexivity].
  apply (for_each_invariant (fun w0 => log_dir w0 = log_dir w)); [|reflexivity].
  intros line w0 Hw0. rewrite read_events_line_spec.
  destruct (parse_event_line line); exact Hw0.
Qed.

Lemma read_statistics_log_dir lines w :
  log_dir (snd (read_statistics float_of_str int_of_str lines w)) = log_dir w.
Proof.
  rewrite read_statistics_unfold. destruct lines as [|first rest]; [reflexivity|].
  destruct (int_of_str (PyStr.strip first)); [|reflexivity].
  apply (for_each_invariant (fun w0 => log_dir w0 = log_dir w)); [|reflexivity].
  intros line w0 Hw0. rewrite read_statistics_line_spec.
  destruct (parse_statistics_line line); exact Hw0.
Qed.

Lemma print_each {X : Type} (f : X -> string) (l : list X) :
  forall w,
    for_each l (fun x => print (f x)) w =
    (Ok tt, with_stdout (stdout w ++ map f l)%list w).
Proof.
  induction l as [|x l IH]; intros w; simpl.
  - unfold ret. now rewrite with_stdout_app_nil.
  - unfold bind, print, modify. rewrite IH. unfold with_stdout. simpl.
    now rewrite <- List.app_assoc.
Qed.

Lemma pipeline_spec events_lines stats_lines days w w' :
  pipeline events_lines stats_lines days w = (Ok tt, w') ->
  exists recs b,
    List.length recs = Z.to_nat days /\
    log_dir w' = Some (write_days (py_range days) recs (initial_dir w)) /\
    fst (analysis (dict_keys (events w'))
           (write_days (py_range days) recs (initial_dir w))) = Ok b /\
    stdout w' =
      (stdout w ++
       map events_diagnostic
         (filter (fun l => is_skipped (parse_event_line l))
            (record_lines events_lines)) ++
       map statistics_diagnostic
         (filter (fun l => is_skipped (parse_statistics_line l))
            (record_lines stats_lines)) ++
       ["Generating events..."] ++
       map dumps_record recs ++
       ["Analyzing statistics..."] ++
       snd (analysis (dict_keys (events w'))
              (write_days (py_range days) recs (initial_dir w))) ++
       [dumps_baseline b])%list.
Proof.
  unfold pipeline, bind.
  pose proof (read_events_log_dir events_lines w) as Hd1.
  destruct (read_events float_of_str int_of_str events_lines w)
    as [[[]|e1] w1] eqn:E1; [|discriminate].
  apply read_events_spec in E1 as [_ Hout1]. simpl in Hd1.
  pose proof (read_statistics_log_dir stats_lines w1) as Hd2.
  destruct (read_statistics float_of_str int_of_str stats_lines w1)
    as [[[]|e2] w2] eqn:E2; [|discriminate].
  apply read_statistics_spec in E2 as [_ Hout2]. simpl in Hd2.
  unfold print at 1, modify.
  destruct (generate_events gauss days _) as [[recs|e3] w3] eqn:E3; [|discriminate].
  apply generate_events_spec in E3 as (Hall & Hd3 & _ & Hout3).
  rewrite print_each. unfold print at 1, modify.
  rewrite analyze_stats_spec. simpl log_dir. rewrite Hd3.
  destruct (analysis _ _) as [[b|e4] out] eqn:E4; simpl; [|discriminate].
  unfold print, modify. intros [= <-]. exists recs, b. simpl.
  unfold initial_dir in *. simpl in Hd3, Hout3, E4. rewrite Hd2, Hd1 in *.
  split.
  { apply Forall2_length in Hall. unfold py_range in Hall.
    rewrite length_map, length_seq in Hall. now symmetry. }
  split; [exact Hd3|]. rewrite E4. split; [reflexivity|]. simpl.
  rewrite Hout3. simpl. rewrite Hout2, Hout1.
  repeat rewrite <- List.app_assoc. reflexivity.
Qed.

(** X16: [main] checks the command line before it does anything else,
    in this order: the number of arguments, then the day count, then the
    two input files; a bad day count is reported even when the files are
    missing as well.  A rejected command line prints one line and exits
    with status 1, and every exit of [main] with a status is of this
    kind: the definitions, the statistics, [logs/] and the generator are
    untouched. *)
Theorem main_validates_command_line argv w :
  (List.length argv <> 4%nat ->
   main argv w =
   exit_with "Usage: python IDS.py <Events.txt> <Stats.txt> <days>" w) /\
  (forall prog events_file stats_file days_arg,
     argv = [prog; events_file; stats_file; days_arg] ->
     (int_of_str days_arg = None ->
      main argv w =
      exit_with ("Error: '" ++ days_arg ++ "' is not a valid number of days.") w) /\
     (int_of_str days_arg <> None ->
      files events_file = None \/ files stats_file = None ->
      main argv w = exit_with "Error: Input files not found." w)) /\
  (forall code w',
     main argv w = (Exited code, w') ->
     code = 1 /\
     events w' = events w /\ statistics w' = statistics w /\
     log_dir w' = log_dir w /\ rng w' = rng w /\
     exists msg, stdout w' = (stdout w ++ [msg])%list).
Proof.
  split; [|split].
  - intros Hlen. unfold main.
    destruct argv as [|a0 [|a1 [|a2 [|a3 [|a4 argv]]]]]; try reflexivity.
    now contradiction Hlen.
  - intros prog events_file stats_file days_arg ->. split.
    + intros Hn. unfold main. now rewrite Hn.
    + intros Hn Hf. unfold main.
      destruct (int_of_str days_arg) as [days|]; [|now contradiction Hn].
      destruct Hf as [Hf|Hf]; rewrite Hf; [reflexivity|].
      now destruct (files events_file).
  - intros code w'. unfold main.
    assert (Hexit : forall msg,
               exit_with msg w = (Exited code, w') ->
               code = 1 /\
               events w' = events w /\ statistics w' = statistics w /\
               log_dir w' = log_dir w /\ rng w' = rng w /\
               exists msg, stdout w' = (stdout w ++ [msg])%list).
    { intros msg [= <- <-]. simpl. repeat split; eauto. }
    destruct argv as [|a0 [|a1 [|a2 [|a3 [|a4 argv]]]]]; try apply Hexit.
    destruct (int_of_str a3) as [days|]; [|apply Hexit].
    destruct (files a1) as [events_lines|]; [|apply Hexit].
    destruct (files a2) as [stats_lines|]; [|apply Hexit].
    destruct (pipeline events_lines stats_lines days w) as [[[]|e] w1]; discriminate.
Qed.

(** X17: when [main] returns, it has printed, in this order: the
    diagnostics of the skipped lines of the definitions file, those of
    the statistics file, the line [Generating events...], one JSON
    document per generated day ([days] of them, none for [days <= 0]),
    the line [Analyzing statistics...], the diagnostics of the logs that
    are not JSON documents, and the JSON document of the baseline; the
    baseline is the one of the directory that the generator left. *)
Theorem main_prints_in_order argv w w' :
  main argv w = (Returned, w') ->
  exists prog events_file stats_file days_arg days events_lines stats_lines recs b,
    argv = [prog; events_file; stats_file; days_arg] /\
    int_of_str days_arg = Some days /\
    files events_file = Some events_lines /\
    files stats_file = Some stats_lines /\
    List.length recs = Z.to_nat days /\
    log_dir w' = Some (write_days (py_range days) recs (initial_dir w)) /\
    fst (analysis (dict_keys (events w'))
           (write_days (py_range days) recs (initial_dir w))) = Ok b /\
    stdout w' =
      (stdout w ++
       map events_diagnostic
         (filter (fun l => is_skipped (parse_event_line l))
            (record_lines events_lines)) ++
       map statistics_diagnostic
         (filter (fun l => is_skipped (parse_statistics_line l))
            (record_lines stats_lines)) ++
       ["Generating events..."] ++
       map dumps_record recs ++
       ["Analyzing statistics..."] ++
       snd (analysis (dict_keys (events w'))
              (write_days (py_range days) recs (initial_dir w))) ++
       [dumps_baseline b])%list.
Proof.
  unfold main.
  destruct argv as [|a0 [|a1 [|a2 [|a3 [|a4 argv]]]]]; try discriminate.
  destruct (int_of_str a3) as [days|] eqn:En; [|discriminate].
  destruct (files a1) as [events_lines|] eqn:F1; [|discriminate].
  destruct (files a2) as [stats_lines|] eqn:F2; [|discriminate].
  destruct (pipeline events_lines stats_lines days w) as [[[]|e] w1] eqn:Ep;
    [|discriminate].
  intros [= <-]. apply pipeline_spec in Ep as (recs & b & H).
  exists a0, a1, a2, a3, days, events_lines, stats_lines, recs, b.
  repeat split; try reflexivity; try assumption; apply H.
Qed.

End WholeProgram.

(** ** Concrete runs *)

(** *** Sampling *)

(** C1 (counterexample): with the draw -7.3 the Continuous event with
    [min = 0.125 <= max = 1440] is stored as [round(0.125, 2) = 0.12] and
    the Discrete event with [min = 0.5 <= max = 10] as [0]; neither
    [0.125 <= 0.12] nor [0.5 <= 0] holds. *)
Lemma stored_value_below_min :
  exists w',
    generate_events const_gauss 1 bounds_world =
      (Ok [[("Day", PyInt 1); ("Time", PyFloat (F.of_dec 12 2)); ("Logins", PyInt 0)]],
       w') /\
    dict_get "Time" (events bounds_world) =
      Some {| e_type := "C"; e_min := PyFloat (F.of_dec 125 3);
              e_max := F.of_Z 1440; e_weight := 3 |} /\
    py_le (PyFloat (F.of_dec 125 3)) (PyFloat (F.of_Z 1440)) = true /\
    py_le (PyFloat (F.of_dec 125 3)) (PyFloat (F.of_dec 12 2)) = false /\
    dict_get "Logins" (events bounds_world) =
      Some {| e_type := "D"; e_min := PyFloat (F.of_dec 5 1);
              e_max := F.of_Z 10; e_weight := 2 |} /\
    py_le (PyFloat (F.of_dec 5 1)) (PyFloat (F.of_Z 10)) = true /\
    py_le (PyFloat (F.of_dec 5 1)) (PyInt 0) = false.
Proof.
  eexists. by_eval.
Qed.

(** Two days of [bounds_world]; and two days of [shape_world], whose
    Continuous event has the bounds 0 and 1440, which rounding to two
    decimals leaves as they are: every stored value is within them. *)
Lemma generate_events_values_clamped_witness :
  (exists recs w',
     NoDup (dict_keys (events bounds_world)) /\
     generate_events const_gauss 2 bounds_world = (Ok recs, w') /\
     forall r name event_info,
       In r recs ->
       In (name, event_info) (events bounds_world) ->
       dict_mem name (statistics bounds_world) = true ->
       exists g v,
         is_draw const_gauss bounds_world name g /\
         dict_get name r = Some v /\ stored_ok event_info g v) /\
  (exists recs w',
     generate_events flip_gauss 2 shape_world = (Ok recs, w') /\
     forall r,
       In r recs ->
       exists v,
         dict_get "Time" r = Some v /\
         py_le (PyFloat (F.of_Z 0)) v = true /\
         py_le v (PyFloat (F.of_Z 1440)) = true).
Proof.
  split.
  - eexists. eexists. split; [nodup|]. split; [vm_compute; reflexivity|].
    eapply (@generate_events_values_clamped float const_gauss bounds_world 2);
      [nodup|vm_compute; reflexivity].
  - eexists. eexists. split; [vm_compute; reflexivity|]. intros r Hr.
    destruct (@generate_events_values_clamped bool flip_gauss shape_world 2 _ _
                ltac:(nodup) ltac:(vm_compute; reflexivity) r "Time"
                {| e_type := "C"; e_min := PyFloat (F.of_Z 0);
                   e_max := F.of_Z 1440; e_weight := 3 |}
                Hr ltac:(vm_compute; auto) ltac:(vm_compute; reflexivity))
      as (g & v & (st & r0 & _ & Hg) & Hv & [HC _]).
    destruct (HC eq_refl) as [_ Hb].
    destruct (Hb eq_refl) as (_ & _ & Hvalid).
    assert (Vg : F.valid g = true) by (rewrite Hg; now destruct r0).
    destruct (Hvalid eq_refl eq_refl Vg) as (_ & _ & Hlo & Hhi).
    exists v. split; [exact Hv|]. split; [now apply Hlo|now apply Hhi].
Defined.

(** C6 (counterexample): with [min = -2.5] and the draw -7.3 the program
    stores -2, the draw clamped from below by [int(-2.5) = -2], where the
    clamp between the floors of the bounds gives [floor(-2.5) = -3]. *)
Lemma discrete_bound_not_floored :
  e_type negative_min <> "C" /\
  fst (sample_value const_gauss negative_min (F.of_Z 0) (F.of_Z 1)
         (world0 None (F.of_dec (-73) 1))) = Ok (PyInt (-2)) /\
  discrete_value_floor negative_min (F.of_dec (-73) 1) = Some (-3).
Proof.
  split; [discriminate|]. by_eval.
Qed.

(** The event [negative_min] with the draw -7.3. *)
Lemma sample_value_discrete_witness :
  e_type negative_min <> "C" /\
  fst (sample_value const_gauss negative_min (F.of_Z 0) (F.of_Z 1)
         (world0 None (F.of_dec (-73) 1))) = Ok (PyInt (-2)).
Proof.
  split; [discriminate|].
  exact (proj1 (@sample_value_discrete float const_gauss negative_min
                  (F.of_Z 0) (F.of_Z 1) (world0 None (F.of_dec (-73) 1))
                  ltac:(discriminate))).
Defined.

(** *** The shape of the run *)



(** The [Logins] event of [unbounded_world], whose [max] field is empty:
    one day raises an [OverflowError] after [logs/] was created and one
    draw was made. *)
Lemma generate_events_infinite_max_raises_witness :
  dict_get "Logins" (events unbounded_world) =
    Some {| e_type := "D"; e_min := PyFloat (F.of_Z 0); e_max := F.inf;
            e_weight := 2 |} /\
  generate_events const_gauss 1 unbounded_world =
    (Raise OverflowError,
     with_rng (F.of_dec 42 1) (with_log_dir (Some []) unbounded_world)) /\
  exists e w',
    generate_events const_gauss 3 unbounded_world = (Raise e, w') /\
    log_dir w' = Some (initial_dir unbounded_world).
Proof.
  split; [vm_compute; reflexivity|]. split; [vm_compute; reflexivity|].
  refine (proj1 (@generate_events_infinite_max_raises float const_gauss
                   unbounded_world 3 "Logins"
                   {| e_type := "D"; e_min := PyFloat (F.of_Z 0); e_max := F.inf;
                      e_weight := 2 |} _ _ _ _ _)).
  - left. vm_compute. reflexivity.
  - vm_compute. reflexivity.
  - discriminate.
  - reflexivity.
  - lia.
Defined.

(** *** The configuration files *)

(** [events_with_short_line], read into empty definitions. *)
Lemma wrong_arity_line_skipped_witness :
  exists w',
    read_events dec_float dec_int events_with_short_line (world0 None F.nan) =
      (Ok tt, w') /\
    events w' =
      [("Logins",
        {| e_type := "D"; e_min := PyFloat (F.of_Z 0); e_max := F.inf;
           e_weight := 2 |});
       ("Time online",
        {| e_type := "C"; e_min := PyFloat (F.of_Z 0); e_max := F.of_Z 1440;
           e_weight := 3 |})] /\
    stdout w' = ["Skipping invalid line in Events.txt: Emails:C:0:1"].
Proof.
  exact (proj2 (proj2 (wrong_arity_line_skipped dec_float dec_int float))
           ("3" ++ nl) ["Logins:D:0::2" ++ nl] ("Emails:C:0:1" ++ nl)
           ["Time online:C:0:1440:3" ++ nl] ["Extra:D:0:5:1" ++ nl]
           (world0 None F.nan)
           "Logins"
           {| e_type := "D"; e_min := PyFloat (F.of_Z 0); e_max := F.inf;
              e_weight := 2 |}
           "Time online"
           {| e_type := "C"; e_min := PyFloat (F.of_Z 0); e_max := F.of_Z 1440;
              e_weight := 3 |}
           eq_refl eq_refl eq_refl ltac:(discriminate) eq_refl).
Defined.

(** [events_with_duplicate] and then [events_second_file]: the second
    [Logins] record replaces the first without a diagnostic, and the
    second call adds [Emails] to the two names of the first.
    [statistics_with_duplicate] and then [statistics_second_file]: the
    same for [read_statistics], with the diagnostic of the line of wrong
    arity as the only line printed. *)
Lemma parsers_accumulate_witness :
  (exists w1 w2,
     read_events dec_float dec_int events_with_duplicate (world0 None F.nan) =
       (Ok tt, w1) /\
     read_events dec_float dec_int events_second_file w1 = (Ok tt, w2) /\
     events w1 =
       [("Logins",
         {| e_type := "C"; e_min := PyFloat (F.of_Z 1); e_max := F.of_Z 5;
            e_weight := 9 |});
        ("Time online",
         {| e_type := "C"; e_min := PyFloat (F.of_Z 0); e_max := F.of_Z 1440;
            e_weight := 3 |})] /\
     stdout w2 = [] /\
     dict_keys (events w2) = ["Logins"; "Time online"; "Emails"] /\
     dict_get "Logins" (events w2) = dict_get "Logins" (events w1)) /\
  (exists w1 w2,
     read_statistics dec_float dec_int statistics_with_duplicate (world0 None F.nan) =
       (Ok tt, w1) /\
     read_statistics dec_float dec_int statistics_second_file w1 = (Ok tt, w2) /\
     statistics w1 =
       [("Logins", {| s_mean := F.of_Z 6; s_std_dev := F.of_Z 2 |})] /\
     statistics w2 =
       [("Logins", {| s_mean := F.of_Z 6; s_std_dev := F.of_Z 2 |});
        ("Emails", {| s_mean := F.of_Z 20; s_std_dev := F.of_Z 5 |})] /\
     stdout w2 = ["Skipping invalid line in Stats.txt: Logins 6 and 2"]).
Proof.
  split.
  - destruct (proj1 (parsers_accumulate dec_float dec_int float)
                events_with_duplicate events_second_file (world0 None F.nan)
                eq_refl eq_refl)
      as (w1 & w2 & H1 & H2 & Hg1 & Hg2 & Ho1 & Ho2 & Hs).
    exists w1, w2. split; [exact H1|]. split; [exact H2|].
    assert (E1 : w1 = snd (read_events dec_float dec_int events_with_duplicate
                             (world0 None F.nan))) by now rewrite H1.
    assert (E2 : w2 = snd (read_events dec_float dec_int events_second_file w1))
      by now rewrite H2.
    rewrite E2, E1. by_eval.
  - destruct (proj2 (parsers_accumulate dec_float dec_int float)
                statistics_with_duplicate statistics_second_file (world0 None F.nan)
                eq_refl eq_refl)
      as (w1 & w2 & H1 & H2 & Hg1 & Hg2 & Ho1 & Ho2 & Hs).
    exists w1, w2. split; [exact H1|]. split; [exact H2|].
    assert (E1 : w1 = snd (read_statistics dec_float dec_int statistics_with_duplicate
                             (world0 None F.nan))) by now rewrite H1.
    assert (E2 : w2 = snd (read_statistics dec_float dec_int statistics_second_file w1))
      by now rewrite H2.
    rewrite E2, E1. by_eval.
Defined.

(** *** The aggregation *)

(** The values 2, 4, 4, 4, 5, 5, 7, 9 give total 40, mean 5.0 and
    standard deviation 2.0; the values 1, 2, 2 give total 5, mean 1.67
    and standard deviation 0.47, the statistics that the theorem
    describes. *)
Lemma analyze_stats_statistics_witness :
  analyze_stats exact_pow2 logins_world =
    (Ok [("Logins",
          {| b_total := PyInt 40; b_mean := F.of_dec 50 1;
             b_std_dev := F.of_dec 20 1 |})],
     logins_world) /\
  analyze_stats exact_pow2 thirds_world =
    (Ok [("Logins",
          {| b_total := PyInt 5; b_mean := F.of_dec 167 2;
             b_std_dev := F.of_dec 47 2 |})],
     thirds_world) /\
  accumulated (day_logs "Logins" [1; 2; 2])
    (sorted_log_files (dict_keys (day_logs "Logins" [1; 2; 2]))) "Logins" =
    map (fun z => JNum (PyInt z)) [1; 2; 2] /\
  let values :=
    accumulated (day_logs "Logins" [1; 2; 2])
      (sorted_log_files (dict_keys (day_logs "Logins" [1; 2; 2]))) in
  let counted name :=
    In name (dict_keys (events thirds_world)) /\ values name <> [] in
  exists b w',
    analyze_stats exact_pow2 thirds_world = (Ok b, w') /\
    forall name,
      (counted name ->
       exists total mean std_dev,
         spec_total (values name) = Ok total /\
         spec_mean (values name) = Ok mean /\
         spec_std_dev exact_pow2 (values name) = Ok std_dev /\
         dict_get name b =
           Some {| b_total := total; b_mean := F.round2 mean;
                   b_std_dev := F.round2 std_dev |} /\
         rounded_to_hundredths mean (F.round2 mean) /\
         rounded_to_hundredths std_dev (F.round2 std_dev) /\
         (forall zs, values name = map (fun z => JNum (PyInt z)) zs ->
            total = PyInt (fold_left Z.add zs 0) /\
            mean = F.div_round (fold_left Z.add zs 0 <? 0)
                     (Z.abs (fold_left Z.add zs 0)) (Z.of_nat (List.length zs)))) /\
      (~ counted name -> dict_get name b = None).
Proof.
  split; [vm_compute; reflexivity|]. split; [vm_compute; reflexivity|].
  split; [vm_compute; reflexivity|].
  assert (H1 : log_dir thirds_world = Some (day_logs "Logins" [1; 2; 2]))
    by (vm_compute; reflexivity).
  assert (H2 : NoDup (dict_keys (events thirds_world))) by nodup.
  assert (H3 : forall f,
             In f (sorted_log_files (dict_keys (day_logs "Logins" [1; 2; 2]))) ->
             dict_get f (day_logs "Logins" [1; 2; 2]) <> Some NonObject).
  { intros f Hf. vm_compute in Hf.
    repeat (destruct Hf as [<-|Hf]; [vm_compute; discriminate|]). destruct Hf. }
  destruct (@analyze_stats_statistics float exact_pow2 thirds_world
              (day_logs "Logins" [1; 2; 2]) H1 H2 H3) as [Hcompletes _].
  apply Hcompletes. intros name [Hin _]. vm_compute in Hin.
  destruct Hin as [<-|[]]. eexists. vm_compute. reflexivity.
Defined.

(** C2 (counterexample): a value that is a number can leave a name
    without statistics, and a total is not always the exact sum: on the
    single value [10 ** 400] the division [total / count] raises an
    [OverflowError], and the total of 0.1 and 0.2 is the binary64
    0.30000000000000004, which is not the binary64 0.3. *)
Lemma numeric_values_without_exact_statistics :
  fst (analyze_stats exact_pow2 overflow_world) = Raise OverflowError /\
  fst (analyze_stats exact_pow2 tenths_world) =
    Ok [("Time",
         {| b_total := PyFloat (F.of_dec 30000000000000004 17);
            b_mean := F.of_dec 15 2; b_std_dev := F.of_dec 5 2 |})] /\
  F.of_dec 30000000000000004 17 <> F.of_dec 3 1.
Proof.
  split; [vm_compute; reflexivity|]. split; [vm_compute; reflexivity|].
  vm_compute. discriminate.
Qed.

(** C3 (counterexample): over the same [logs/], the aggregation returns
    an entry for [Logins] when the in-memory definitions name it and the
    empty dictionary when they do not. *)
Lemma analyze_stats_depends_on_definitions :
  log_dir defined_world = log_dir undefined_world /\
  statistics defined_world = statistics undefined_world /\
  fst (analyze_stats exact_pow2 defined_world) =
    Ok [("Logins",
         {| b_total := PyInt 3; b_mean := F.of_Z 3; b_std_dev := F.of_Z 0 |})] /\
  fst (analyze_stats exact_pow2 undefined_world) = Ok [] /\
  fst (analyze_stats exact_pow2 defined_world) <> fst (analyze_stats exact_pow2 undefined_world).
Proof.
  split; [reflexivity|]. split; [reflexivity|].
  split; [vm_compute; reflexivity|]. split; [vm_compute; reflexivity|].
  vm_compute. discriminate.
Qed.

(** [defined_world] and [redefined_world] have the same logs and the
    same names, and nothing else in common. *)
Lemma analyze_stats_depends_on_logs_and_names_witness :
  log_dir defined_world = log_dir redefined_world /\
  dict_keys (events defined_world) = dict_keys (events redefined_world) /\
  events defined_world <> events redefined_world /\
  statistics defined_world <> statistics redefined_world /\
  fst (analyze_stats exact_pow2 defined_world) = fst (analyze_stats exact_pow2 redefined_world).
Proof.
  split; [reflexivity|]. split; [reflexivity|].
  split; [vm_compute; discriminate|]. split; [vm_compute; discriminate|].
  apply (@analyze_stats_depends_on_logs_and_names float exact_pow2 defined_world redefined_world);
    reflexivity.
Defined.


(** C5 (the code at the failing input): the logs are processed in the
    ascending order of their names as strings, in which [day_10.log]
    comes before [day_2.log]: of the twelve logs of twelve days,
    [day_10.log], [day_11.log] and [day_12.log] are read before
    [day_2.log], and the diagnostics of two unreadable logs show the
    order in which the files were read. *)
Theorem log_files_sorted_as_strings :
  (forall listing, Sorted str_le (sorted_log_files listing)) /\
  str_le (log_file 9) (log_file 1) /\
  sorted_log_files twelve_days =
    ["day_1.log"; "day_10.log"; "day_11.log"; "day_12.log"; "day_2.log";
     "day_3.log"; "day_4.log"; "day_5.log"; "day_6.log"; "day_7.log";
     "day_8.log"; "day_9.log"] /\
  stdout (snd (analyze_stats exact_pow2 (world0 (Some corrupt_logs) F.nan))) =
    ["Error reading log file day_10.log: ten";
     "Error reading log file day_2.log: two"].
Proof.
  split; [intros listing; apply py_sort_sorted|]. by_eval.
Qed.

(** *** Further runs: the configuration files *)

(** A count of 7 over two record lines reads both; a count of -2 over
    three record lines reads the first two. *)
Lemma header_count_bounds_records_witness :
  dec_int (PyStr.strip "7") = Some 7 /\
  firstn (records_read 7 2) ["Logins:D:0:10:2"; "Time online:C:0:1440:3"] =
    ["Logins:D:0:10:2"; "Time online:C:0:1440:3"] /\
  firstn (records_read (-2) 3) ["a"; "b"; "c"] = ["a"; "b"] /\
  (read_events dec_float dec_int
     ["7"; "Logins:D:0:10:2"; "Time online:C:0:1440:3"] (world0 None F.nan) =
   for_each
     (firstn (records_read 7 2) ["Logins:D:0:10:2"; "Time online:C:0:1440:3"])
     (read_events_line dec_float dec_int) (world0 None F.nan) /\
   read_statistics dec_float dec_int
     ["7"; "Logins:D:0:10:2"; "Time online:C:0:1440:3"] (world0 None F.nan) =
   for_each
     (firstn (records_read 7 2) ["Logins:D:0:10:2"; "Time online:C:0:1440:3"])
     (read_statistics_line dec_float) (world0 None F.nan)).
Proof.
  split; [reflexivity|]. split; [reflexivity|]. split; [reflexivity|].
  exact (header_count_bounds_records dec_float dec_int "7"
           ["Logins:D:0:10:2"; "Time online:C:0:1440:3"] (world0 None F.nan) eq_refl).
Defined.

(** [events_with_bad_weight]: the call raises at the second record and
    [Logins], assigned by the first, stays defined. *)
Lemma parser_failure_keeps_earlier_entries_witness :
  record_lines dec_int events_with_bad_weight =
    ["Logins:D:0:10:2"; "Time online:C:0:1440:heavy"; "Emails:D:0:50:1"] /\
  dict_keys
    (events (snd (read_events dec_float dec_int events_with_bad_weight
                    (world0 None F.nan)))) = ["Logins"] /\
  exists w1,
    read_events dec_float dec_int events_with_bad_weight (world0 None F.nan) =
      (Raise ValueError, w1) /\
    (forall name,
       dict_get name (events w1) =
       match
         last_assigned name
           (map (parse_event_line dec_float dec_int) ["Logins:D:0:10:2"])
       with
       | Some v => Some v
       | None => dict_get name (events (world0 None F.nan))
       end) /\
    stdout w1 =
      (stdout (world0 None F.nan) ++
       map events_diagnostic
         (filter (fun l => is_skipped (parse_event_line dec_float dec_int l))
            ["Logins:D:0:10:2"]))%list /\
    statistics w1 = statistics (world0 None F.nan) /\
    log_dir w1 = log_dir (world0 None F.nan).
Proof.
  split; [reflexivity|]. split; [vm_compute; reflexivity|].
  exact (proj1 (parser_failure_keeps_earlier_entries dec_float dec_int float)
           events_with_bad_weight ["Logins:D:0:10:2"] "Time online:C:0:1440:heavy"
           ["Emails:D:0:50:1"] (world0 None F.nan) eq_refl eq_refl eq_refl).
Defined.

(** [events_with_duplicate], read twice. *)
Lemma parsers_are_idempotent_witness :
  exists w1 w2,
    read_events dec_float dec_int events_with_duplicate (world0 None F.nan) =
      (Ok tt, w1) /\
    read_events dec_float dec_int events_with_duplicate w1 = (Ok tt, w2) /\
    events w2 = events w1 /\
    forall name, dict_get name (events w2) = dict_get name (events w1).
Proof.
  eexists. eexists. split; [vm_compute; reflexivity|].
  split; [vm_compute; reflexivity|]. split; [vm_compute; reflexivity|].
  intros name.
  apply (proj1 (parsers_are_idempotent dec_float dec_int float)
           events_with_duplicate (world0 None F.nan));
    vm_compute; reflexivity.
Defined.

(** *** Further runs: the generator *)

(** Two days of [partial_world]: the records hold [Day], [Logins] and
    [Time online]; [Emails] has no statistics and [Downloads] no
    definition. *)
Lemma records_hold_day_then_sampled_events_witness :
  sampled_names partial_world = ["Logins"; "Time online"] /\
  exists recs w',
    NoDup (dict_keys (events partial_world)) /\
    generate_events count_gauss 2 partial_world = (Ok recs, w') /\
    forall r, In r recs -> dict_keys r = "Day" :: sampled_names partial_world.
Proof.
  split; [vm_compute; reflexivity|].
  eexists. eexists. split; [nodup|]. split; [vm_compute; reflexivity|].
  eapply (@records_hold_day_then_sampled_events Z count_gauss partial_world 2);
    [nodup|vm_compute; reflexivity].
Defined.

(** Three days of [partial_world] make six draws. *)
Lemma generate_events_draws_once_per_sampled_event_witness :
  List.length (day_draws partial_world) = 2%nat /\
  exists recs w',
    generate_events count_gauss 3 partial_world = (Ok recs, w') /\
    rng w' = 6 /\
    rng w' =
      draw_all count_gauss
        (List.concat (repeat (day_draws partial_world) (Z.to_nat 3)))
        (rng partial_world).
Proof.
  split; [vm_compute; reflexivity|].
  eexists. eexists. split; [vm_compute; reflexivity|].
  split; [vm_compute; reflexivity|].
  eapply (@generate_events_draws_once_per_sampled_event Z count_gauss partial_world 3).
  vm_compute. reflexivity.
Defined.

(** On a storage that refuses [day_2.log], the first day of
    [locked_world] completes and the second raises the
    [PermissionError] of the write: [day_1.log] stays. *)
Lemma generate_events_failure_keeps_earlier_logs_witness :
  exists w',
    generate_events count_gauss 3 locked_world = (Raise PermissionError, w') /\
    dict_keys (initial_dir w') = ["day_1.log"] /\
    exists k recs,
      (k < Z.to_nat 3)%nat /\
      Forall2 (day_record count_gauss locked_world) (firstn k (py_range 3)) recs /\
      same_config locked_world w' /\ stdout w' = stdout locked_world /\
      (((PermissionError = ValueError \/ PermissionError = OverflowError) /\
        (exists name event_info,
           In (name, event_info) (events locked_world) /\
           dict_mem name (statistics locked_world) = true /\
           e_type event_info <> "C") /\
        log_dir w' = Some (write_days (firstn k (py_range 3)) recs []))
       \/
       (exists f,
          write_failure locked_world (log_file (Z.of_nat k)) = Some f /\
          PermissionError = wf_error f /\
          log_dir w' =
          Some (match wf_left f with
                | Some data =>
                    dict_set (log_file (Z.of_nat k)) data
                      (write_days (firstn k (py_range 3)) recs [])
                | None => write_days (firstn k (py_range 3)) recs []
                end))).
Proof.
  eexists. split; [vm_compute; reflexivity|]. split; [vm_compute; reflexivity|].
  eapply (@generate_events_failure_keeps_earlier_logs Z count_gauss locked_world [] 3).
  - vm_compute. reflexivity.
  - vm_compute. reflexivity.
Defined.


(** The event [time_online] with a draw that is a NaN: [round(0.125, 2)]
    is stored. *)
Lemma continuous_value_is_never_nan_witness :
  e_type time_online = "C" /\
  fst (sample_value const_gauss time_online F.nan F.nan (world0 None F.nan)) =
    Ok (PyFloat (F.of_dec 12 2)) /\
  exists v,
    fst (sample_value const_gauss time_online F.nan F.nan (world0 None F.nan)) = Ok v /\
    (py_is_nan (e_min time_online) = false -> py_is_nan v = false) /\
    (fst (const_gauss (rng (world0 None F.nan)) F.nan F.nan) = F.nan ->
     v = py_round2 (e_min time_online)).
Proof.
  split; [reflexivity|]. split; [vm_compute; reflexivity|].
  apply (@continuous_value_is_never_nan float const_gauss time_online F.nan F.nan
           (world0 None F.nan)).
  reflexivity.
Defined.

(** [partial_world] and [reweighted_world] differ in every weight. *)
Lemma weights_have_no_effect_witness :
  map (fun item => e_weight (snd item)) (events partial_world) = [2; 1; 3] /\
  map (fun item => e_weight (snd item)) (events reweighted_world) = [7; 8; 9] /\
  without_weights partial_world = without_weights reweighted_world /\
  fst (generate_events count_gauss 3 partial_world) =
    fst (generate_events count_gauss 3 reweighted_world) /\
  log_dir (snd (generate_events count_gauss 3 partial_world)) =
    log_dir (snd (generate_events count_gauss 3 reweighted_world)) /\
  rng (snd (generate_events count_gauss 3 partial_world)) =
    rng (snd (generate_events count_gauss 3 reweighted_world)) /\
  fst (analyze_stats exact_pow2 partial_world) =
    fst (analyze_stats exact_pow2 reweighted_world).
Proof.
  split; [vm_compute; reflexivity|]. split; [vm_compute; reflexivity|].
  split; [vm_compute; reflexivity|].
  apply (@weights_have_no_effect Z count_gauss exact_pow2 partial_world reweighted_world 3).
  vm_compute. reflexivity.
Defined.

(** *** Further runs: the aggregation *)

Lemma logs_and_notes_day_logs f :
  is_log_file f = true ->
  dict_get f logs_and_notes = dict_get f (day_logs "Logins" [3]).
Proof.
  intros Hf.
  change (day_logs "Logins" [3])
    with [("day_1.log", Object [("Day", JNum (PyInt 1)); ("Logins", JNum (PyInt 3))])].
  unfold logs_and_notes, dict_get.
  destruct (String.eqb_spec f "notes.txt") as [->|_]; [discriminate Hf|].
  destruct (String.eqb f "day_1.log"); [reflexivity|].
  destruct (String.eqb_spec f "day_1.log.bak") as [->|_]; [discriminate Hf|reflexivity].
Defined.

(** The day log of [defined_world], alone and among files that are no
    day logs. *)
Lemma analyze_stats_reads_only_day_logs_witness :
  dict_keys logs_and_notes = ["notes.txt"; "day_1.log"; "day_1.log.bak"] /\
  dict_keys (day_logs "Logins" [3]) = ["day_1.log"] /\
  fst (analyze_stats exact_pow2 (with_log_dir (Some logs_and_notes) defined_world)) =
    fst (analyze_stats exact_pow2 defined_world) /\
  exists out,
    stdout (snd (analyze_stats exact_pow2 (with_log_dir (Some logs_and_notes) defined_world))) =
      (stdout (with_log_dir (Some logs_and_notes) defined_world) ++ out)%list /\
    stdout (snd (analyze_stats exact_pow2 defined_world)) = (stdout defined_world ++ out)%list.
Proof.
  split; [reflexivity|]. split; [reflexivity|].
  apply (@analyze_stats_reads_only_day_logs float exact_pow2
           (with_log_dir (Some logs_and_notes) defined_world) defined_world
           logs_and_notes (day_logs "Logins" [3])).
  - reflexivity.
  - reflexivity.
  - reflexivity.
  - vm_compute. reflexivity.
  - exact logs_and_notes_day_logs.
Defined.

(** [list_log], whose second day log holds a JSON list. *)
Lemma non_object_log_raises_attribute_error_witness :
  is_log_file "day_2.log" = true /\
  dict_get "day_2.log" list_log = Some NonObject /\
  fst (analyze_stats exact_pow2 (with_log_dir (Some list_log) defined_world)) =
    Raise AttributeError.
Proof.
  split; [vm_compute; reflexivity|]. split; [reflexivity|].
  apply (@non_object_log_raises_attribute_error float exact_pow2
           (with_log_dir (Some list_log) defined_world) list_log "day_2.log");
    [reflexivity|vm_compute; reflexivity|reflexivity].
Defined.

(** [corrupt_logs], whose log of day 2 is not a JSON document. *)
Lemma corrupt_log_is_skipped_witness :
  is_log_file "day_2.log" = true /\
  dict_get "day_2.log" corrupt_logs = Some (Corrupt "two") /\
  analyze_stats exact_pow2 (with_log_dir (Some corrupt_logs) defined_world) =
    (Ok [],
     with_stdout
       ["Error reading log file day_10.log: ten";
        "Error reading log file day_2.log: two"]
       (with_log_dir (Some corrupt_logs) defined_world)) /\
  fst (analyze_stats exact_pow2
         (with_log_dir (Some (dict_set "day_2.log" (Object []) corrupt_logs))
            (with_log_dir (Some corrupt_logs) defined_world))) =
    fst (analyze_stats exact_pow2 (with_log_dir (Some corrupt_logs) defined_world)) /\
  (forall b w',
     analyze_stats exact_pow2 (with_log_dir (Some corrupt_logs) defined_world) = (Ok b, w') ->
     exists out,
       stdout w' =
         (stdout (with_log_dir (Some corrupt_logs) defined_world) ++ out)%list /\
       In (log_diagnostic "day_2.log" "two") out).
Proof.
  split; [vm_compute; reflexivity|]. split; [reflexivity|].
  split; [vm_compute; reflexivity|].
  apply (@corrupt_log_is_skipped float exact_pow2
           (with_log_dir (Some corrupt_logs) defined_world) corrupt_logs
           "day_2.log" "two");
    [reflexivity|vm_compute; reflexivity|reflexivity].
Defined.

(** [text_log], which holds a string under [Logins]. *)
Lemma non_number_value_makes_analysis_raise_witness :
  In "Logins" (dict_keys (events defined_world)) /\
  accumulated text_log (sorted_log_files (dict_keys text_log)) "Logins" = [JOther] /\
  fst (analyze_stats exact_pow2 (with_log_dir (Some text_log) defined_world)) = Raise TypeError /\
  (exists e,
     fst (analyze_stats exact_pow2 (with_log_dir (Some text_log) defined_world)) = Raise e) /\
  exists e,
    event_baseline exact_pow2
      (accumulated text_log (sorted_log_files (dict_keys text_log)) "Logins") =
    Raise e.
Proof.
  split; [left; reflexivity|]. split; [vm_compute; reflexivity|].
  split; [vm_compute; reflexivity|].
  apply (@non_number_value_makes_analysis_raise float exact_pow2
           (with_log_dir (Some text_log) defined_world) text_log "Logins").
  - reflexivity.
  - left. reflexivity.
  - vm_compute. left. reflexivity.
Defined.

(** The entry of [Logins] in [logins_world]: a standard deviation of
    2.0. *)
Lemma baseline_std_dev_not_negative_witness :
  exists b w' bl,
    analyze_stats exact_pow2 logins_world = (Ok b, w') /\
    dict_get "Logins" b = Some bl /\
    b_std_dev bl = F.of_dec 20 1 /\
    not_negative (b_std_dev bl) = true /\
    py_lt (PyFloat (b_std_dev bl)) (PyInt 0) = false.
Proof.
  eexists. eexists. eexists. split; [vm_compute; reflexivity|].
  split; [vm_compute; reflexivity|]. split; [vm_compute; reflexivity|].
  eapply (@baseline_std_dev_not_negative float exact_pow2 logins_world _ _ "Logins");
    vm_compute; reflexivity.
Defined.

(** *** Further runs: from the generator to the aggregation *)

(** Three days of [partial_world] into a [logs/] that does not exist. *)
Lemma generated_logs_are_read_back_witness :
  filter is_log_file (dict_keys (initial_dir partial_world)) = [] /\
  exists recs w',
    generate_events count_gauss 3 partial_world = (Ok recs, w') /\
    flat_map (logged "Logins") recs = [JNum (PyInt 0); JNum (PyInt 2); JNum (PyInt 4)] /\
    exists d' daily_totals,
      log_dir w' = Some d' /\
      Permutation (sorted_log_files (dict_keys d')) (map log_file (py_range 3)) /\
      fold_each (sorted_log_files (dict_keys d'))
        (empty_totals (dict_keys (events w'))) accumulate_log w' =
        (Ok daily_totals, w') /\
      analyze_stats exact_pow2 w' =
        fold_each daily_totals [] (add_baseline exact_pow2) w' /\
      dict_keys daily_totals = dict_keys (events partial_world) /\
      (forall name,
         In name (dict_keys (events partial_world)) ->
         exists values,
           dict_get name daily_totals = Some values /\
           Permutation values (flat_map (logged name) recs)) /\
      (forall name,
         ~ In name (dict_keys (events partial_world)) ->
         dict_get name daily_totals = None).
Proof.
  split; [reflexivity|].
  eexists. eexists. split; [vm_compute; reflexivity|].
  split; [vm_compute; reflexivity|].
  eapply (@generated_logs_are_read_back Z count_gauss exact_pow2 partial_world 3);
    [reflexivity|vm_compute; reflexivity].
Defined.

(** The same run, analysed: [Logins] was 0, 2 and 4, its total is 6 and
    its mean 2.0. *)
Lemma discrete_total_is_sum_of_records_witness :
  exists recs w' b w'',
    generate_events count_gauss 3 partial_world = (Ok recs, w') /\
    analyze_stats exact_pow2 w' = (Ok b, w'') /\
    map (dict_get "Logins") recs = map (fun z => Some (PyInt z)) [0; 2; 4] /\
    option_map b_total (dict_get "Logins" b) = Some (PyInt 6) /\
    option_map b_mean (dict_get "Logins" b) = Some (F.of_Z 2) /\
    exists zs bl,
      map (dict_get "Logins") recs = map (fun z => Some (PyInt z)) zs /\
      dict_get "Logins" b = Some bl /\
      b_total bl = PyInt (fold_left Z.add zs 0) /\
      b_mean bl =
        F.round2 (F.div_round (fold_left Z.add zs 0 <? 0)
                    (Z.abs (fold_left Z.add zs 0)) 3).
Proof.
  eexists. eexists. eexists. eexists.
  split; [vm_compute; reflexivity|]. split; [vm_compute; reflexivity|].
  split; [vm_compute; reflexivity|]. split; [vm_compute; reflexivity|].
  split; [vm_compute; reflexivity|].
  eapply (@discrete_total_is_sum_of_records Z count_gauss exact_pow2 partial_world 3 _ _ _ _
            "Logins"
            {| e_type := "D"; e_min := PyFloat (F.of_Z 0); e_max := F.of_Z 10;
               e_weight := 2 |}).
  - reflexivity.
  - nodup.
  - left. vm_compute. reflexivity.
  - vm_compute. reflexivity.
  - discriminate.
  - lia.
  - vm_compute. reflexivity.
  - vm_compute. reflexivity.
Defined.

(** *** Further runs: the whole program *)

(** [python IDS.py Events.txt Stats.txt 2] over [two_files], from a
    [logs/] that does not exist. *)
Lemma main_prints_in_order_witness :
  exists w',
    main dec_float dec_int count_gauss exact_pow2 keys_of keys_of two_files
      ["IDS.py"; "Events.txt"; "Stats.txt"; "2"] (world0 None 0) = (Returned, w') /\
    stdout w' =
      ["Generating events..."; "Day,Logins,Time online"; "Day,Logins,Time online";
       "Analyzing statistics..."; "Logins,Time online"] /\
    exists prog events_file stats_file days_arg days events_lines stats_lines recs b,
      ["IDS.py"; "Events.txt"; "Stats.txt"; "2"] =
        [prog; events_file; stats_file; days_arg] /\
      dec_int days_arg = Some days /\
      two_files events_file = Some events_lines /\
      two_files stats_file = Some stats_lines /\
      List.length recs = Z.to_nat days /\
      log_dir w' = Some (write_days (py_range days) recs (initial_dir (world0 None 0))) /\
      fst (analysis exact_pow2 (dict_keys (events w'))
             (write_days (py_range days) recs (initial_dir (world0 None 0)))) = Ok b /\
      stdout w' =
        (stdout (world0 None 0) ++
         map events_diagnostic
           (filter (fun l => is_skipped (parse_event_line dec_float dec_int l))
              (record_lines dec_int events_lines)) ++
         map statistics_diagnostic
           (filter (fun l => is_skipped (parse_statistics_line dec_float l))
              (record_lines dec_int stats_lines)) ++
         ["Generating events..."] ++
         map keys_of recs ++
         ["Analyzing statistics..."] ++
         snd (analysis exact_pow2 (dict_keys (events w'))
                (write_days (py_range days) recs (initial_dir (world0 None 0)))) ++
         [keys_of b])%list.
Proof.
  eexists. split; [vm_compute; reflexivity|]. split; [vm_compute; reflexivity|].
  apply (@main_prints_in_order dec_float dec_int Z count_gauss exact_pow2 keys_of keys_of
           two_files ["IDS.py"; "Events.txt"; "Stats.txt"; "2"] (world0 None 0)).
  vm_compute. reflexivity.
Defined.

(** *** Further runs: blanks, and the order of the logs *)

(** A record line between a space and a no-break space, and an em
    space, a carriage return and a newline. *)
Lemma surrounding_blanks_are_ignored_witness :
  blank (" " ++ nbsp) = true /\
  blank (em_space ++ crlf) = true /\
  PyStr.split ":" (PyStr.strip ((" " ++ nbsp) ++ "Logins:D:0:10:2" ++ em_space ++ crlf)) =
    ["Logins"; "D"; "0"; "10"; "2"] /\
  (read_events_line dec_float dec_int
     ((" " ++ nbsp) ++ "Logins:D:0:10:2" ++ em_space ++ crlf) (world0 None F.nan) =
     read_events_line dec_float dec_int "Logins:D:0:10:2" (world0 None F.nan) /\
   read_statistics_line dec_float
     ((" " ++ nbsp) ++ "Logins:D:0:10:2" ++ em_space ++ crlf) (world0 None F.nan) =
     read_statistics_line dec_float "Logins:D:0:10:2" (world0 None F.nan) /\
   (forall rest,
      read_events dec_float dec_int
        (((" " ++ nbsp) ++ "Logins:D:0:10:2" ++ em_space ++ crlf) :: rest)
        (world0 None F.nan) =
        read_events dec_float dec_int ("Logins:D:0:10:2" :: rest) (world0 None F.nan) /\
      read_statistics dec_float dec_int
        (((" " ++ nbsp) ++ "Logins:D:0:10:2" ++ em_space ++ crlf) :: rest)
        (world0 None F.nan) =
        read_statistics dec_float dec_int ("Logins:D:0:10:2" :: rest)
          (world0 None F.nan))).
Proof.
  split; [reflexivity|]. split; [reflexivity|]. split; [vm_compute; reflexivity|].
  exact (@surrounding_blanks_are_ignored dec_float dec_int float (" " ++ nbsp)
           (em_space ++ crlf) "Logins:D:0:10:2" (world0 None F.nan) eq_refl eq_refl).
Defined.

(** Three days of [partial_world]: [day_1.log], [day_2.log] and
    [day_3.log] are read in this order. *)
Lemma up_to_nine_days_are_read_in_day_order_witness :
  3 <= 9 /\
  filter is_log_file (dict_keys (initial_dir partial_world)) = [] /\
  exists recs w',
    generate_events count_gauss 3 partial_world = (Ok recs, w') /\
    exists d' daily_totals,
      log_dir w' = Some d' /\
      sorted_log_files (dict_keys d') = map log_file (py_range 3) /\
      fold_each (map log_file (py_range 3)) (empty_totals (dict_keys (events w')))
        accumulate_log w' = (Ok daily_totals, w') /\
      analyze_stats exact_pow2 w' =
        fold_each daily_totals [] (add_baseline exact_pow2) w' /\
      forall name,
        In name (dict_keys (events partial_world)) ->
        dict_get name daily_totals = Some (flat_map (logged name) recs).
Proof.
  split; [lia|]. split; [reflexivity|].
  eexists. eexists. split; [vm_compute; reflexivity|].
  eapply (@up_to_nine_days_are_read_in_day_order Z count_gauss exact_pow2
            partial_world 3);
    [lia|reflexivity|vm_compute; reflexivity].
Defined.
